(** * Discord fact-check bot: the detection-and-decision pipeline

    A shallow embedding of [bot.py] (rate limiting, context collection,
    pattern store, event log, alert decision) and of [utils/ai_client.py]
    (provider fallback), with the properties of the design document stated
    and settled against it.

    Conventions of the embedding.
    - A Python [str] is a [string]; its characters are read as the code
      points 0..255 (Latin-1), on which [lower], [strip] and [split] are
      written out as Python defines them.
    - A [datetime] is a [Z], the number of microseconds since the epoch;
      [isoformat] followed by [fromisoformat] is the identity on it.
    - A JSON number is the rational it denotes ([Q]); the order of finite
      floats is the order of the rationals.  The values [NaN] and
      [Infinity], which are not JSON, are left out.
    - A Python exception caught by the enclosing [try] is the result
      [Raised].
    - Whether a string of a given length can be built is an answer of the
      world ([alloc_ok]); it matters for the bars of an alert, whose length
      comes from the analysis. *)

From Stdlib Require Import ZArith QArith List String Ascii Bool Sorted Lia.
From stdpp Require Import gmap strings list pretty.

Local Open Scope string_scope.
Local Open Scope list_scope.
Local Open Scope nat_scope.

(** ** Python string operations *)

Module PyStr.

Definition code (c : ascii) : N := N_of_ascii c.

(** [str.isspace] on the code points below 256. *)
Definition isspace (c : ascii) : bool :=
  let n := code c in
  (((9 <=? n) && (n <=? 13)) || ((28 <=? n) && (n <=? 32))
   || (n =? 133) || (n =? 160))%N.

(** [str.lower] on one code point below 256. *)
Definition lower_char (c : ascii) : ascii :=
  let n := code c in
  if (((65 <=? n) && (n <=? 90))
      || ((192 <=? n) && (n <=? 222) && negb (n =? 215)))%N
  then ascii_of_N (n + 32) else c.

Fixpoint lower (s : string) : string :=
  match s with
  | EmptyString => EmptyString
  | String c s' => String (lower_char c) (lower s')
  end.

Fixpoint lstrip (s : string) : string :=
  match s with
  | EmptyString => EmptyString
  | String c s' => if isspace c then lstrip s' else s
  end.

Definition rstrip (s : string) : string := String.rev (lstrip (String.rev s)).

Definition strip (s : string) : string := rstrip (lstrip s).

Definition len (s : string) : nat := String.length s.

(** [s[:n]] *)
Fixpoint take (n : nat) (s : string) : string :=
  match n, s with
  | S n', String c s' => String c (take n' s')
  | _, _ => EmptyString
  end.

(** [s[n:]] *)
Fixpoint drop (n : nat) (s : string) : string :=
  match n, s with
  | S n', String _ s' => drop n' s'
  | _, _ => s
  end.

(** [s[:-n]] for [n > 0] *)
Definition drop_last (n : nat) (s : string) : string :=
  take (len s - n) s.

Definition startswith (s pre : string) : bool := String.prefix pre s.

Definition endswith (s suf : string) : bool :=
  String.prefix (String.rev suf) (String.rev s).

(** [sub in s] *)
Fixpoint contains (sub s : string) : bool :=
  String.prefix sub s
  || match s with
     | EmptyString => false
     | String _ s' => contains sub s'
     end.

(** [s.split()]: the maximal runs of characters that are not spaces. *)
Fixpoint split_go (cur : option string) (s : string) : list string :=
  match s with
  | EmptyString =>
      match cur with Some w => [String.rev w] | None => [] end
  | String c s' =>
      if isspace c then
        match cur with
        | Some w => String.rev w :: split_go None s'
        | None => split_go None s'
        end
      else split_go (Some (String c (default EmptyString cur))) s'
  end.

Definition split (s : string) : list string := split_go None s.

(** [s.find(c)] and [s.rfind(c)] for a one-character needle; [None] is
    Python's [-1]. *)
Fixpoint find (c : ascii) (s : string) : option nat :=
  match s with
  | EmptyString => None
  | String a s' =>
      if Ascii.eqb a c then Some 0 else S <$> find c s'
  end.

Fixpoint rfind (c : ascii) (s : string) : option nat :=
  match s with
  | EmptyString => None
  | String a s' =>
      match rfind c s' with
      | Some i => Some (S i)
      | None => if Ascii.eqb a c then Some 0 else None
      end
  end.

(** [s[i:j]] for [0 <= i], [0 <= j] *)
Definition slice (i j : nat) (s : string) : string := take (j - i) (drop i s).

End PyStr.

(** ** Results of code that may raise *)

Inductive Res (A : Type) : Type :=
| Ok (a : A)
| Raised.
Arguments Ok {A} a.
Arguments Raised {A}.

#[global] Instance res_ret : MRet Res := fun A a => Ok a.

#[global] Instance res_bind : MBind Res := fun A B k r =>
  match r with
  | Ok a => k a
  | Raised => Raised
  end.

(** ** JSON values, as [json.loads] builds them *)

Module Json.

#[warnings="-register-all"] Inductive JVal : Type :=
| JNull                                  (* None *)
| JBool (b : bool)
| JNum (q : Q)
| JStr (s : string)
| JArr (l : list JVal)
| JObj (d : list (string * JVal)).       (* a dict: keys are distinct *)

Fixpoint dict_lookup (k : string) (d : list (string * JVal)) : option JVal :=
  match d with
  | [] => None
  | (k', v) :: d' => if String.eqb k' k then Some v else dict_lookup k d'
  end.

(** [d[k] = v] on a dict kept as a list of distinct keys. *)
Fixpoint dict_set (k : string) (v : JVal) (d : list (string * JVal))
  : list (string * JVal) :=
  match d with
  | [] => [(k, v)]
  | (k', v') :: d' =>
      if String.eqb k' k then (k', v) :: d' else (k', v') :: dict_set k v d'
  end.

(** [bool(v)] *)
Definition truthy (v : JVal) : bool :=
  match v with
  | JNull => false
  | JBool b => b
  | JNum q => negb (Qeq_bool q 0)
  | JStr s => negb (String.eqb s "")
  | JArr l => match l with [] => false | _ => true end
  | JObj d => match d with [] => false | _ => true end
  end.

(** [v.get(k, dflt)]: only a dict has [get]. *)
Definition get (v : JVal) (k : string) (dflt : JVal) : Res JVal :=
  match v with
  | JObj d => Ok (default dflt (dict_lookup k d))
  | _ => Raised
  end.

Definition Qltb (x y : Q) : bool := negb (Qle_bool y x).

(** [v < q] for a number [q]: numbers and booleans compare, anything else
    raises [TypeError]. *)
Definition lt (v : JVal) (q : Q) : Res bool :=
  match v with
  | JNum x => Ok (Qltb x q)
  | JBool b => Ok (Qltb (if b then 1 else 0) q)
  | _ => Raised
  end.

Definition is_str (v : JVal) : bool :=
  match v with JStr _ => true | _ => false end.

(** *** A reader for the JSON texts of the examples

    [loads] reads objects, arrays, strings without escapes, decimal
    numbers without exponent, [true], [false] and [null]; on these it
    returns what [json.loads] returns, and on a text that is not JSON it
    returns [None] (where [json.loads] raises).  The theorems below do
    not depend on it: they take the reader as a parameter. *)

(** The quotation mark. *)
Definition dq : ascii := ascii_of_nat 34.

(** The examples write their JSON texts with an apostrophe where the text
    has a quotation mark; [quoted] puts the quotation marks back. *)
Fixpoint quoted (s : string) : string :=
  match s with
  | EmptyString => EmptyString
  | String c s' => String (if Ascii.eqb c "'" then dq else c) (quoted s')
  end.

Definition is_ws (c : ascii) : bool :=
  let n := N_of_ascii c in ((n =? 32) || (n =? 9) || (n =? 10) || (n =? 13))%N.

Fixpoint skip_ws (s : string) : string :=
  match s with
  | String c s' => if is_ws c then skip_ws s' else s
  | EmptyString => EmptyString
  end.

Definition digit_of (c : ascii) : option Z :=
  let n := N_of_ascii c in
  if ((48 <=? n) && (n <=? 57))%N then Some (Z.of_N n - 48)%Z else None.

(** The longest run of digits at the head: its value, its length, the rest. *)
Fixpoint read_digits (acc : Z) (k : nat) (s : string) : Z * nat * string :=
  match s with
  | String c s' =>
      match digit_of c with
      | Some d => read_digits (10 * acc + d)%Z (S k) s'
      | None => (acc, k, s)
      end
  | EmptyString => (acc, k, s)
  end.

Definition leading_zero (s : string) : bool :=
  match s with
  | String "0" (String c _) => bool_decide (is_Some (digit_of c))
  | _ => false
  end.

Definition read_number (s : string) : option (Q * string) :=
  let '(neg, s1) :=
    match s with
    | String "-" r => (true, r)
    | _ => (false, s)
    end in
  if leading_zero s1 then None else
  let '(ip, k, s2) := read_digits 0 0 s1 in
  match k with
  | O => None
  | S _ =>
      let '(num, den, s3) :=
        match s2 with
        | String "." r =>
            let '(fp, j, r') := read_digits 0 0 r in
            (Some (ip * 10 ^ Z.of_nat j + fp)%Z, (10 ^ Z.of_nat j)%Z,
             match j with O => None | S _ => Some r' end)
        | _ => (Some ip, 1%Z, Some s2)
        end in
      match num, s3 with
      | Some n, Some r =>
          match r with
          | String "e" _ | String "E" _ => None
          | _ =>
              let q := Qred (Qmake n (Z.to_pos den)) in
              Some (if neg then Qopp q else q, r)
          end
      | _, _ => None
      end
  end.

(** The characters up to the closing quote. *)
Fixpoint read_string (acc : string) (s : string) : option (string * string) :=
  match s with
  | EmptyString => None
  | String c s' =>
      if Ascii.eqb c dq then Some (String.rev acc, s')
      else if Ascii.eqb c "\" then None
      else if (N_of_ascii c <? 32)%N then None
      else read_string (String c acc) s'
  end.

Fixpoint read_value (fuel : nat) (s : string) : option (JVal * string) :=
  match fuel with
  | O => None
  | S f =>
      match skip_ws s with
      | String "{" r =>
          match skip_ws r with
          | String "}" r' => Some (JObj [], r')
          | _ => read_members f [] r
          end
      | String "[" r =>
          match skip_ws r with
          | String "]" r' => Some (JArr [], r')
          | _ => read_elements f [] r
          end
      | String "t" (String "r" (String "u" (String "e" r))) => Some (JBool true, r)
      | String "f" (String "a" (String "l" (String "s" (String "e" r)))) =>
          Some (JBool false, r)
      | String "n" (String "u" (String "l" (String "l" r))) => Some (JNull, r)
      | String c r as s' =>
          if Ascii.eqb c dq then '(w, r') ← read_string "" r; Some (JStr w, r')
          else '(q, r') ← read_number s'; Some (JNum q, r')
      | EmptyString => None
      end
  end
with read_elements (fuel : nat) (acc : list JVal) (s : string)
  : option (JVal * string) :=
  match fuel with
  | O => None
  | S f =>
      '(v, r) ← read_value f s;
      match skip_ws r with
      | String "," r' => read_elements f (acc ++ [v]) r'
      | String "]" r' => Some (JArr (acc ++ [v]), r')
      | _ => None
      end
  end
with read_members (fuel : nat) (acc : list (string * JVal)) (s : string)
  : option (JVal * string) :=
  match fuel with
  | O => None
  | S f =>
      match skip_ws s with
      | String c r =>
          if Ascii.eqb c dq then
            '(k, r1) ← read_string "" r;
            match skip_ws r1 with
            | String ":" r2 =>
                '(v, r3) ← read_value f r2;
                match skip_ws r3 with
                | String "," r4 => read_members f (dict_set k v acc) r4
                | String "}" r4 => Some (JObj (dict_set k v acc), r4)
                | _ => None
                end
            | _ => None
            end
          else None
      | EmptyString => None
      end
  end.

Definition loads (s : string) : option JVal :=
  '(v, r) ← read_value (2 * String.length s + 2) s;
  match skip_ws r with
  | EmptyString => Some v
  | _ => None
  end.

End Json.

Import Json.

(** ** config.py *)

Module Config.

Definition AUTO_DETECT_ENABLED : bool := true.
Definition AUTO_DETECT_TRUTHINESS_THRESHOLD : Q := 50.
Definition AUTO_DETECT_CONFIDENCE_THRESHOLD : Q := 6 # 10.
Definition AUTO_DETECT_MIN_MESSAGE_LENGTH : nat := 20.
Definition AUTO_DETECT_RATE_LIMIT : nat := 2.

End Config.

(** ** The sliding-window rate limiter of bot.py

    [check_rate_limit] (commands and mentions: one minute, 5 events) and
    the limit at the head of [handle_automatic_misinformation_check]
    (five minutes, [AUTO_DETECT_RATE_LIMIT] events) run the same three
    steps on two separate dictionaries. *)

Module RateLimiter.

Definition minutes (n : Z) : Z := (n * 60 * 1000000)%Z.

(** [[ts for ts in l if now - fromisoformat(ts) < window]] *)
Definition purge (window now : Z) (l : list Z) : list Z :=
  filter (λ ts, (now - ts < window)%Z) l.

(** The three steps on one identity's list: the answer and the list to
    store, [None] when nothing is stored. *)
Definition allow (window : Z) (maxEvents : nat) (now : Z) (l : list Z)
  : bool * option (list Z) :=
  let l' := purge window now l in
  if bool_decide (maxEvents ≤ length l')%nat then (false, None)
  else (true, Some (l' ++ [now])).

(** One call on a dictionary [str(user_id) -> timestamps]. *)
Definition check (window : Z) (maxEvents : nat) (now : Z) (user_id : Z)
    (limits : gmap string (list Z)) : bool * gmap string (list Z) :=
  let user_limits := default [] (limits !! pretty user_id) in
  match allow window maxEvents now user_limits with
  | (ok, Some l) => (ok, <[pretty user_id := l]> limits)
  | (ok, None) => (ok, limits)
  end.

(** [FactCheckBot.check_rate_limit] on [self.rate_limits].  The copy it
    saves to [data/rate_limits.json] after an admitted call is left out: a
    failure to write is caught and logged, and the dictionary in memory is
    what the next call reads. *)
Definition check_rate_limit (now : Z) (user_id : Z)
    (rate_limits : gmap string (list Z)) : bool * gmap string (list Z) :=
  check (minutes 1) 5 now user_id rate_limits.

(** The limit of the automatic check on [self.auto_check_limits]. *)
Definition auto_check_limit (now : Z) (user_id : Z)
    (auto_check_limits : gmap string (list Z)) : bool * gmap string (list Z) :=
  check (minutes 5) Config.AUTO_DETECT_RATE_LIMIT now user_id auto_check_limits.

(** A run of calls for one identity, at the given instants. *)
Fixpoint run (window : Z) (maxEvents : nat) (user_id : Z) (times : list Z)
    (limits : gmap string (list Z)) : list bool * gmap string (list Z) :=
  match times with
  | [] => ([], limits)
  | t :: times' =>
      let '(ok, limits') := check window maxEvents t user_id limits in
      let '(oks, limits'') := run window maxEvents user_id times' limits' in
      (ok :: oks, limits'')
  end.

End RateLimiter.

(** ** utils/ai_client.py: the provider fallback *)

Module AIClient.

Inductive Provider : Type := PawanOsman | OpenAI | Gemini.

#[global] Instance Provider_eq_dec : EqDecision Provider.
Proof. solve_decision. Defined.

(** Which of the three clients [__init__] built (the API keys found). *)
Record Client : Type := {
  primary_client : bool;
  openai_client : bool;
  gemini_model : bool
}.

(** A context entry as [get_conversation_context] builds it. *)
Record ContextEntry : Type := {
  ctx_author : string;
  ctx_content : string;
  ctx_timestamp : Z
}.

(** A prompt is its template and the values interpolated into it. *)
Inductive Prompt : Type :=
| CommunityPrompt (statement context_str community : string)
| TruthinessPrompt (statement : string)
| GeminiPrompt (prompt : Prompt).

(** What one call of a provider does: it raises (time-out, transport
    error, refusal), or it returns the message content, which the
    OpenAI-style clients may leave [None]. *)
Inductive CallOutcome : Type :=
| CallRaises
| CallReturns (content : option string).

Definition nl : string := String (ascii_of_nat 10) "".

Definition fence_json : string := "```json".
Definition fence : string := "```".

(** The clean-up of Gemini's text, lines 321-341. *)
Definition clean_gemini (text : string) : string :=
  let t := PyStr.strip text in
  let t := if PyStr.startswith t fence_json then PyStr.drop 7 t
           else if PyStr.startswith t fence then PyStr.drop 3 t
           else t in
  let t := if PyStr.endswith t fence then PyStr.drop_last 3 t else t in
  let t := PyStr.strip t in
  match PyStr.find "{" t, PyStr.rfind "}" t with
  | Some i, Some j => if bool_decide (i < j)%nat then PyStr.slice i (j + 1) t else t
  | _, _ => t
  end.

Section Fallback.

Variable client : Client.
Variable backend : Provider -> Prompt -> CallOutcome.

Definition try_gemini (prompt : Prompt) : option string * list Provider :=
  if gemini_model client then
    match backend Gemini (GeminiPrompt prompt) with
    | CallReturns (Some text) => (Some (clean_gemini text), [Gemini])
    | CallReturns None => (None, [Gemini])
    | CallRaises => (None, [Gemini])
    end
  else (None, []).

Definition try_openai (prompt : Prompt) : option string * list Provider :=
  if openai_client client then
    match backend OpenAI prompt with
    | CallReturns content => (content, [OpenAI])
    | CallRaises =>
        let '(r, tr) := try_gemini prompt in (r, OpenAI :: tr)
    end
  else try_gemini prompt.

(** [_make_request_with_fallback]: the text returned ([None] as in Python)
    and the providers invoked, in the order of their invocation. *)
Definition make_request_with_fallback (prompt : Prompt)
  : option string * list Provider :=
  if primary_client client then
    match backend PawanOsman prompt with
    | CallReturns content => (content, [PawanOsman])
    | CallRaises =>
        let '(r, tr) := try_openai prompt in (r, PawanOsman :: tr)
    end
  else try_openai prompt.

Variable json_loads : string -> option JVal.

(** The tail shared by the analysis methods:
    [if response: return json.loads(response)] and [return None], inside
    [try ... except: return None]. *)
Definition parse_response (response : option string) : JVal :=
  match response with
  | Some text =>
      if String.eqb text "" then JNull
      else default JNull (json_loads text)
  | None => JNull
  end.

Definition context_line (m : ContextEntry) : string :=
  "- " +:+ ctx_author m +:+ ": " +:+ PyStr.take 100 (ctx_content m) +:+ "..." +:+ nl.

Definition context_str (conversation_context : list ContextEntry) : string :=
  match conversation_context with
  | [] => ""
  | _ =>
      nl +:+ "Recent conversation context:" +:+ nl
      +:+ String.concat ""
           (map context_line
              (drop (length conversation_context - 3) conversation_context))
  end.

(** [community_id or 'Unknown'] *)
Definition community_str (community_id : option Z) : string :=
  match community_id with
  | Some g => if (g =? 0)%Z then "Unknown" else pretty g
  | None => "Unknown"
  end.

Definition community_prompt (statement : string)
    (conversation_context : list ContextEntry) (community_id : option Z) : Prompt :=
  CommunityPrompt statement (context_str conversation_context)
    (community_str community_id).

Definition analyze_with_community_context (statement : string)
    (conversation_context : list ContextEntry) (community_id : option Z)
  : JVal * list Provider :=
  let prompt := community_prompt statement conversation_context community_id in
  let '(response, tr) := make_request_with_fallback prompt in
  (parse_response response, tr).

Definition rate_truthiness (statement : string) : JVal * list Provider :=
  let '(response, tr) := make_request_with_fallback (TruthinessPrompt statement) in
  (parse_response response, tr).

End Fallback.

(** The clients in the order in which the fallback reaches them. *)
Definition priority (c : Client) : list Provider :=
  (if primary_client c then [PawanOsman] else [])
  ++ (if openai_client c then [OpenAI] else [])
  ++ (if gemini_model c then [Gemini] else []).

(** The prompt a provider receives for a request. *)
Definition prompt_for (p : Provider) (prompt : Prompt) : Prompt :=
  match p with Gemini => GeminiPrompt prompt | _ => prompt end.

(** A provider's call succeeds when the branch of the fallback that makes
    it reaches its [return]: the call returned, and for Gemini the text is
    there to be cleaned. *)
Definition succeeds (backend : Provider -> Prompt -> CallOutcome)
    (prompt : Prompt) (p : Provider) : bool :=
  match backend p (prompt_for p prompt), p with
  | CallRaises, _ => false
  | CallReturns None, Gemini => false
  | CallReturns _, _ => true
  end.

(** What the succeeding branch returns. *)
Definition returned_text (backend : Provider -> Prompt -> CallOutcome)
    (prompt : Prompt) (p : Provider) : option string :=
  match backend p (prompt_for p prompt), p with
  | CallReturns (Some text), Gemini => Some (clean_gemini text)
  | CallReturns content, _ => content
  | CallRaises, _ => None
  end.

(** The orchestrator in the words of the design document, to compare with
    the code: go through the providers in order, return what the first
    successful one returns, remember who was invoked. *)
Fixpoint first_success (backend : Provider -> Prompt -> CallOutcome)
    (prompt : Prompt) (ps : list Provider) : option string * list Provider :=
  match ps with
  | [] => (None, [])
  | p :: ps' =>
      if succeeds backend prompt p then (returned_text backend prompt p, [p])
      else let '(r, tr) := first_success backend prompt ps' in (r, p :: tr)
  end.

End AIClient.

(** ** bot.py: context, pattern store, event log and the automatic check *)

Module Bot.

Import AIClient.

Record Message : Type := {
  content : string;
  author_id : Z;
  author_name : string;          (* str(message.author) *)
  guild : option Z;              (* message.guild.id, None in a DM *)
  created_at : Z;
  message_id : Z
}.

(** *** ContextCollector *)

(** discord.py's [channel.history(limit=n, before=message)], an external
    collaborator: with [before] and without [after] it yields the [n] most
    recent messages sent before [message], newest first.  [prior] is what
    the channel holds before [message], in the order it was sent. *)
Definition history (limit : nat) (prior : list Message) : list Message :=
  take limit (reverse prior).

(** [msg.content and len(msg.content.strip()) > 10] *)
Definition relevant (msg : Message) : Prop :=
  content msg ≠ "" /\ 10 < PyStr.len (PyStr.strip (content msg)).

#[global] Instance relevant_dec msg : Decision (relevant msg).
Proof. unfold relevant. apply _. Defined.

Definition context_entry (msg : Message) : ContextEntry :=
  {| ctx_author := author_name msg;
     ctx_content := PyStr.take 200 (content msg);
     ctx_timestamp := created_at msg |}.

(** [get_conversation_context], [lookback_messages = 10].  [channel] is
    [None] when fetching the history raises. *)
Definition get_conversation_context (channel : option (list Message))
  : list ContextEntry :=
  match channel with
  | Some prior =>
      take 5 (context_entry <$> filter relevant (history 10 prior))
  | None => []
  end.

(** *** PatternStore and EventLog: one JSON document per community *)

Record ClaimEntry : Type := {
  count : Z;
  examples : list string
}.

Record Event : Type := {
  ev_timestamp : Z;
  ev_user_id : string;
  ev_content_hash : Z;
  ev_truthiness_score : JVal;
  ev_urgency : JVal;
  ev_key_phrases : list string
}.

(** The document also has a key ['topics'], which nothing reads or writes. *)
Record PatternFile : Type := {
  claims : gmap string ClaimEntry;
  events : list Event
}.

Record PatternInfo : Type := {
  is_recurring : bool;
  frequency : Z;
  similar_claims : list string;
  key_phrases : list string
}.

Definition stop_words : list string :=
  ["the"; "a"; "an"; "and"; "or"; "but"; "in"; "on"; "at"; "to"; "for";
   "of"; "with"; "by"; "is"; "are"; "was"; "were"].

(** The loop of [extract_key_phrases]: at each position the bigram, then
    the trigram, when the keywords reach that far. *)
Fixpoint ngrams (keywords : list string) : list string :=
  match keywords with
  | a :: ((b :: rest) as tl) =>
      (a +:+ " " +:+ b)
      :: match rest with
         | c :: _ => [a +:+ " " +:+ b +:+ " " +:+ c]
         | [] => []
         end
      ++ ngrams tl
  | _ => []
  end.

Definition extract_key_phrases (content : string) : list string :=
  let words := PyStr.split (PyStr.lower content) in
  let keywords :=
    filter (λ word, (word ∉ stop_words) /\ 3 < PyStr.len word) words in
  take 5 (ngrams keywords).

Definition patterns_json : string := "data/patterns.json".

Definition community_patterns (name : string) : string :=
  "data/community_patterns_" +:+ name +:+ ".json".

(** The file [check_misinformation_patterns] reads. *)
Definition pattern_file (guild_id : option Z) : string :=
  match guild_id with
  | Some g => if (g =? 0)%Z then patterns_json else community_patterns (pretty g)
  | None => patterns_json
  end.

(** The file [log_misinformation_event] reads and writes. *)
Definition log_file (guild_id : option Z) : string :=
  community_patterns (match guild_id with Some g => pretty g | None => "dm" end).

Definition no_patterns : PatternFile := {| claims := ∅; events := [] |}.

(** The loop of [check_misinformation_patterns] over the key phrases. *)
Definition match_phrase (cl : gmap string ClaimEntry)
    (acc : Z * list string) (phrase : string) : Z * list string :=
  match cl !! phrase with
  | Some e => ((acc.1 + count e)%Z, acc.2 ++ take 2 (examples e))
  | None => acc
  end.

Definition check_misinformation_patterns (files : gmap string PatternFile)
    (content : string) (guild_id : option Z) : PatternInfo :=
  let patterns := default no_patterns (files !! pattern_file guild_id) in
  let key_phrases := extract_key_phrases content in
  let '(frequency, similar_claims) :=
    foldl (match_phrase (claims patterns)) (0%Z, []) key_phrases in
  {| is_recurring := bool_decide (2 < frequency)%Z;
     frequency := frequency;
     similar_claims := similar_claims;
     key_phrases := key_phrases |}.

(** The count stored for a phrase in a file, 0 when there is no entry. *)
Definition stored_count (files : gmap string PatternFile) (file phrase : string) : Z :=
  match claims (default no_patterns (files !! file)) !! phrase with
  | Some e => count e
  | None => 0
  end.

(** The entry of a phrase, or the one the loop creates for it. *)
Definition entry_or_new (cl : gmap string ClaimEntry) (phrase : string) : ClaimEntry :=
  default {| count := 0; examples := [] |} (cl !! phrase).

(** How many times a phrase occurs among the key phrases of a message. *)
Definition occurrences (phrase : string) (phrases : list string) : nat :=
  length (filter (eq phrase) phrases).

(** One turn of the loop "Update patterns" of [log_misinformation_event]. *)
Definition record_phrase (snippet : string) (cl : gmap string ClaimEntry)
    (phrase : string) : gmap string ClaimEntry :=
  let e := entry_or_new cl phrase in
  <[phrase :=
      {| count := (count e + 1)%Z;
         examples := if bool_decide (length (examples e) < 5)
                     then examples e ++ [snippet] else examples e |}]> cl.

(** "Add event (keep last 100 events)" *)
Definition append_event (event : Event) (evs : list Event) : list Event :=
  let evs' := evs ++ [event] in
  if bool_decide (100 < length evs') then drop (length evs' - 100) evs'
  else evs'.

(** A sequence of appends to one community's log. *)
Definition append_events (evs new : list Event) : list Event :=
  foldl (λ evs event, append_event event evs) evs new.

(** *** The alert *)

Inductive Description : Type :=
| HighPriority | RecurringPattern | SpreadRisk | Generic.

Definition is_high (v : JVal) : bool :=
  match v with JStr s => String.eqb s "high" | _ => false end.

Definition get_alert_description (urgency spread_risk : JVal)
    (pattern_info : PatternInfo) : Description :=
  if is_high urgency then HighPriority
  else if is_recurring pattern_info then RecurringPattern
  else if is_high spread_risk then SpreadRisk
  else Generic.

Record Alert : Type := {
  alert_reply_to : Z;
  alert_description : Description;
  alert_pattern_field : option Z;   (* the "Pattern Alert" field *)
  alert_mention_author : bool
}.

(** What the automatic check does to the world, in order. *)
Inductive Effect : Type :=
| EHistory
| EProviderCall (p : Provider)
| EPatternQuery (file : string)
| EReply (alert : Alert)
| EPatternWrite (file : string).

Record State : Type := {
  rate_limits : gmap string (list Z);
  auto_check_limits : gmap string (list Z);
  files : gmap string PatternFile
}.

(** What the world answers during one run of the automatic check. *)
Record Env : Type := {
  now : Z;
  backend : Provider -> Prompt -> CallOutcome;
  channel : option (list Message);
  reply_ok : bool;      (* the feedback view is built and the reply is sent *)
  alloc_ok : Z -> bool  (* a string of that many characters can be built *)
}.

Definition question_words : list string :=
  ["what"; "how"; "when"; "where"; "why"; "who"; "which"; "can"; "could";
   "would"; "should"; "is"; "are"; "do"; "does"; "did"].

(** Lines 209-218: the two thresholds.  [Ok true] goes on to the alert. *)
Definition should_alert (truthiness_threshold confidence_threshold : Q)
    (analysis : JVal) : Res bool :=
  if truthy analysis then
    t ← get analysis "truthiness_percentage" (JNum 100);
    below ← lt t truthiness_threshold;
    if below : bool then
      confidence ← get analysis "confidence" (JNum 0);
      low ← lt confidence confidence_threshold;
      Ok (negb low)
    else Ok false
  else Ok false.

(** *** The bars of the alert *)

(** The number a value counts as in arithmetic: a number, or a boolean as
    0 or 1; anything else raises [TypeError]. *)
Definition number (v : JVal) : Res Q :=
  match v with
  | JNum q => Ok q
  | JBool b => Ok (if b then 1%Q else 0%Q)
  | _ => Raised
  end.

(** [int(x)] on a number: truncation towards zero. *)
Definition py_int (q : Q) : Z := (Qnum q ÷ Z.pos (Qden q))%Z.

(** [sys.maxsize] of a 64-bit build, the largest there is: a repetition
    count beyond it is no index. *)
Definition PY_SSIZE_T_MAX : Z := (2 ^ 63 - 1)%Z.

(** The characters of the two bars. *)
Inductive Cell : Type := Green | Yellow | Orange | Red | White | Block | Shade.

(** [char * n]: the empty string for [n <= 0]; [OverflowError] when [n] is
    no index, [MemoryError] when there is no [room] for [n] characters. *)
Definition py_repeat (room : Z -> bool) (c : Cell) (n : Z) : Res (list Cell) :=
  if (n <=? 0)%Z then Ok []
  else if (n <=? PY_SSIZE_T_MAX)%Z && room n then Ok (replicate (Z.to_nat n) c)
  else Raised.

Definition create_truthiness_bar (room : Z -> bool) (score : JVal)
  : Res (list Cell) :=
  s ← number score;
  let filled := py_int (s / 10) in
  let empty := (10 - filled)%Z in
  let filled_char :=
    if Qle_bool 80 s then Green
    else if Qle_bool 60 s then Yellow
    else if Qle_bool 40 s then Orange
    else Red in
  shown ← py_repeat room filled_char filled;
  rest ← py_repeat room White empty;
  Ok (shown ++ rest).

Definition create_confidence_bar (room : Z -> bool) (confidence : JVal)
  : Res (list Cell) :=
  c ← number confidence;
  let filled := py_int (c * 10) in
  shown ← py_repeat room Block filled;
  rest ← py_repeat room Shade (10 - filled)%Z;
  Ok (shown ++ rest).

(** Lines 224-281, building the embed: the two bars are built, then
    [urgency.title()] and [reasoning[:400] + ...] need both values to be
    strings.  The formats [:.1f] and [:.1%] raise only on an int beyond the
    floats, for which the bar built just before has raised already. *)
Definition render_ok (env : Env) (analysis : JVal) : bool :=
  match
    truthiness_score ← get analysis "truthiness_percentage" (JNum 0);
    confidence ← get analysis "confidence" (JNum 0);
    reasoning ← get analysis "reasoning" (JStr "No reasoning provided");
    urgency ← get analysis "urgency_level" (JStr "medium");
    truthiness_bar ← create_truthiness_bar (alloc_ok env) truthiness_score;
    confidence_bar ← create_confidence_bar (alloc_ok env) confidence;
    Ok (is_str urgency && is_str reasoning)
  with
  | Ok shown => shown
  | Raised => false
  end.

Section Pipeline.

Variable client : Client.
Variable json_loads : string -> option JVal.
Variable py_hash : string -> Z.          (* Python's hash() on str *)

Definition make_event (now : Z) (message : Message) (analysis : JVal)
    (pattern_info : PatternInfo) : Res Event :=
  truthiness_score ← get analysis "truthiness_percentage" (JNum 0);
  urgency ← get analysis "urgency_level" (JStr "medium");
  Ok {| ev_timestamp := now;
        ev_user_id := pretty (author_id message);
        ev_content_hash := (py_hash (content message) mod 10000)%Z;
        ev_truthiness_score := truthiness_score;
        ev_urgency := urgency;
        ev_key_phrases := key_phrases pattern_info |}.

(** The event built from an analysis that is a dict. *)
Definition event_of_dict (now : Z) (message : Message)
    (d : list (string * JVal)) (pattern_info : PatternInfo) : Event :=
  {| ev_timestamp := now;
     ev_user_id := pretty (author_id message);
     ev_content_hash := (py_hash (content message) mod 10000)%Z;
     ev_truthiness_score := default (JNum 0) (dict_lookup "truthiness_percentage" d);
     ev_urgency := default (JStr "medium") (dict_lookup "urgency_level" d);
     ev_key_phrases := key_phrases pattern_info |}.

(** [log_misinformation_event]; an exception leaves the files as they were. *)
Definition log_misinformation_event (now : Z) (message : Message)
    (analysis : JVal) (pattern_info : PatternInfo)
    (files : gmap string PatternFile) : gmap string PatternFile :=
  let data := default no_patterns (files !! log_file (guild message)) in
  match make_event now message analysis pattern_info with
  | Ok event =>
      <[log_file (guild message) :=
          {| claims := foldl (record_phrase (PyStr.take 100 (content message)))
                         (claims data) (key_phrases pattern_info);
             events := append_event event (events data) |}]> files
  | Raised => files
  end.

(** Lines 221 and 287 for one alerted message: query, then record. *)
Definition query_then_record (now : Z) (message : Message) (analysis : JVal)
    (files : gmap string PatternFile) : gmap string PatternFile :=
  log_misinformation_event now message analysis
    (check_misinformation_patterns files (content message) (guild message)) files.

Definition make_alert (message : Message) (analysis : JVal)
    (pattern_info : PatternInfo) : Alert :=
  let urgency := default (JStr "medium") (match analysis with
                   | JObj d => dict_lookup "urgency_level" d | _ => None end) in
  let spread_risk := default (JStr "unknown") (match analysis with
                   | JObj d => dict_lookup "spread_risk" d | _ => None end) in
  {| alert_reply_to := message_id message;
     alert_description := get_alert_description urgency spread_risk pattern_info;
     alert_pattern_field :=
       if is_recurring pattern_info then Some (frequency pattern_info) else None;
     alert_mention_author := is_high urgency |}.

(** Lines 195-207: the context, the analysis, and the plain rating when the
    analysis is falsy; with the providers invoked. *)
Definition analyze_message (env : Env) (message : Message)
  : JVal * list Provider :=
  let context := get_conversation_context (channel env) in
  let '(analysis, tr1) :=
    analyze_with_community_context client (backend env) json_loads
      (content message) context (guild message) in
  if truthy analysis then (analysis, tr1)
  else
    let '(analysis, tr2) :=
      rate_truthiness client (backend env) json_loads (content message) in
    (analysis, tr1 ++ tr2).

(** [handle_automatic_misinformation_check]: the state it leaves and what
    it did.  Every exception is caught by the handler's [try]. *)
Definition handle_automatic_misinformation_check (env : Env) (st : State)
    (message : Message) : State * list Effect :=
  let text := content message in
  if bool_decide (PyStr.len (PyStr.strip text) < Config.AUTO_DETECT_MIN_MESSAGE_LENGTH)
  then (st, [])
  else if PyStr.contains "http" (PyStr.lower text) then (st, [])
  else
    match PyStr.split (PyStr.strip text) with
    | [] => (st, [])
    | w :: _ =>
        if bool_decide (PyStr.lower w ∈ question_words)
           || PyStr.endswith (PyStr.strip text) "?"
        then (st, [])
        else
          match RateLimiter.auto_check_limit (now env) (author_id message)
                  (auto_check_limits st) with
          | (false, _) => (st, [])
          | (true, limits) =>
              let st1 := {| rate_limits := rate_limits st;
                            auto_check_limits := limits;
                            files := files st |} in
              let '(analysis, tr) := analyze_message env message in
              let calls := EHistory :: (EProviderCall <$> tr) in
              match should_alert Config.AUTO_DETECT_TRUTHINESS_THRESHOLD
                      Config.AUTO_DETECT_CONFIDENCE_THRESHOLD analysis with
              | Ok true =>
                  let pattern_info :=
                    check_misinformation_patterns (files st1) text (guild message) in
                  let query := EPatternQuery (pattern_file (guild message)) in
                  if render_ok env analysis && reply_ok env then
                    ({| rate_limits := rate_limits st1;
                        auto_check_limits := auto_check_limits st1;
                        files := log_misinformation_event (now env) message
                                   analysis pattern_info (files st1) |},
                     calls ++ [query;
                               EReply (make_alert message analysis pattern_info);
                               EPatternWrite (log_file (guild message))])
                  else (st1, calls ++ [query])
              | _ => (st1, calls)
              end
          end
    end.

End Pipeline.

End Bot.

(** ** Inputs of the examples *)

Module Ex.

Import AIClient Bot.

Definition scenario_A : JVal :=
  JObj [("truthiness_percentage", JNum 30); ("confidence", JNum (8 # 10));
        ("urgency_level", JStr "high")].

Definition scenario_B : JVal :=
  JObj [("truthiness_percentage", JNum 30); ("confidence", JNum (4 # 10));
        ("urgency_level", JStr "high")].

Definition scenario_C : JVal :=
  JObj [("truthiness_percentage", JNum 85); ("confidence", JNum (9 # 10))].

(** Five commands of user 42 within five seconds, on fresh limits. *)
Definition burst : list Z := [0; 1000000; 2000000; 3000000; 4000000]%Z.

Definition after_burst : gmap string (list Z) :=
  (RateLimiter.run (RateLimiter.minutes 1) 5 42 burst ∅).2.

(** All three clients configured. *)
Definition all_clients : Client :=
  {| primary_client := true; openai_client := true; gemini_model := true |}.

Definition valid_payload : string :=
  quoted "{'truthiness_percentage': 30, 'confidence': 0.8, 'urgency_level': 'high', 'reasoning': 'contradicts the record'}".

(** The first provider answers in prose; the others would answer well. *)
Definition prose_backend (p : Provider) (prompt : Prompt) : CallOutcome :=
  match p with
  | PawanOsman => CallReturns (Some "Sorry, I cannot help.")
  | _ => CallReturns (Some valid_payload)
  end.

(** The first provider times out; the others answer well. *)
Definition timeout_backend (p : Provider) (prompt : Prompt) : CallOutcome :=
  match p with
  | PawanOsman => CallRaises
  | _ => CallReturns (Some valid_payload)
  end.

(** Every provider answers well. *)
Definition good_backend (p : Provider) (prompt : Prompt) : CallOutcome :=
  CallReturns (Some valid_payload).

(** The event logged at instant [t], and 105 of them in a row. *)
Definition event_at (t : Z) : Event :=
  {| ev_timestamp := t; ev_user_id := "42"; ev_content_hash := 7;
     ev_truthiness_score := JNum 30; ev_urgency := JStr "high";
     ev_key_phrases := ["earth flat"] |}.

Definition events_1_to_105 : list Event := event_at <$> seqZ 1 105.

Definition msg_at (t : Z) (text : string) : Message :=
  {| content := text; author_id := 42; author_name := "alice#0001";
     guild := Some 1001%Z; created_at := t; message_id := t |}.

(** Two earlier messages of a channel, in the order they were sent. *)
Definition two_earlier : list Message :=
  [msg_at 1 "first message of the channel"; msg_at 2 "second message of the channel"].

(** A statement with one key phrase, posted in guild 1001 and in a DM. *)
Definition flat_earth : Message := msg_at 10 "no, the earth is flat".

Definition flat_earth_dm : Message :=
  {| content := "no, the earth is flat"; author_id := 42;
     author_name := "alice#0001"; guild := None; created_at := 10;
     message_id := 10 |}.

(** A stand-in for Python's [hash] on strings, whose values vary from one
    process to the next. *)
Definition some_hash (s : string) : Z := Z.of_nat (String.length s).

Definition credible_payload : string :=
  quoted "{'truthiness_percentage': 85, 'confidence': 0.9, 'urgency_level': 'low', 'reasoning': 'textbook physics'}".

(** A world in which the first provider finds the statement credible. *)
Definition credible_env : Env :=
  {| now := 1000000000;
     backend := λ _ _, CallReturns (Some credible_payload);
     channel := Some two_earlier;
     reply_ok := true;
     alloc_ok := λ n, (n <=? 1000000)%Z |}.

(** A world in which the first provider finds the statement false. *)
Definition alarming_env : Env :=
  {| now := 1000000000;
     backend := good_backend;
     channel := Some two_earlier;
     reply_ok := true;
     alloc_ok := λ n, (n <=? 1000000)%Z |}.

Definition boiling : Message :=
  msg_at 10 "water boils at 100 degrees at sea level".

Definition fresh : State :=
  {| rate_limits := ∅; auto_check_limits := ∅; files := ∅ |}.

Definition with_link : Message := msg_at 11 "the earth is flat, see HTTPS://flat.example".

Definition asking : Message := msg_at 12 "Is the earth really flat or not".

Definition wondering : Message := msg_at 13 "the earth is flat, right?".

End Ex.


(** ** The rest of utils/ai_client.py *)

Module AIClientMore.

Import AIClient.

(** [os.getenv] gives [None] or a string; [if key:] holds for a string
    that is not empty. *)
Definition key_present (key : option string) : bool :=
  match key with
  | Some k => negb (String.eqb k "")
  | None => false
  end.

(** [AIClient.__init__]: one client per API key found, Gemini's only when
    [genai.configure] and [GenerativeModel] go through; [ValueError] when
    no client at all was built. *)
Definition init (pawan_api_key openai_api_key gemini_api_key : option string)
    (gemini_configures : bool) : Res Client :=
  let c := {| primary_client := key_present pawan_api_key;
              openai_client := key_present openai_api_key;
              gemini_model := key_present gemini_api_key && gemini_configures |} in
  if primary_client c || openai_client c || gemini_model c then Ok c else Raised.

(** [s[:n] + ("..." if len(s) > n else "")], the cut applied to the texts
    put into embeds (bot.py lines 122 and 251, truthiness.py line 87,
    expose.py lines 90 and 98). *)
Definition ellipsis (n : nat) (s : string) : string :=
  PyStr.take n s +:+ (if bool_decide (n < PyStr.len s) then "..." else "").

(** [generate_summary].  The request is made on [self.client] with
    [self.model], attributes that [__init__] never sets and nothing else
    assigns: it raises [AttributeError] inside the [try], and the [except]
    branch returns [text[:max_length] + "..." if len(text) > max_length
    else text].  No provider is reached. *)
Definition generate_summary (text : string) (max_length : nat)
  : string * list Provider :=
  (if bool_decide (max_length < PyStr.len text)
   then PyStr.take max_length text +:+ "..." else text,
   []).

(** A character does not occur in a string. *)
Fixpoint absent (c : ascii) (s : string) : Prop :=
  match s with
  | EmptyString => True
  | String a s' => a ≠ c /\ absent c s'
  end.

(** A text that holds the object [{mid}] between a part without an
    opening brace and a part without a closing brace. *)
Definition framed (mid t : string) : Prop :=
  exists pre post,
    absent "{" pre /\ absent "}" post
    /\ t = pre +:+ String "{" (mid +:+ String "}" post).

End AIClientMore.

(** ** The rest of bot.py: the dispatch of incoming messages *)

Module Dispatch.

Import AIClient Bot.

Definition COMMAND_PREFIX : string := "!".

(** What [on_message] looks at besides the message itself. *)
Record Incoming : Type := {
  inc_message : Message;
  from_self : bool;        (* message.author == self.user *)
  mentions_bot : bool;     (* self.user in message.mentions *)
  is_reply : bool          (* message.reference is there *)
}.

Inductive Notice : Type := TooManyRequests | TooManyCommands.

(** What [on_message] sets off.  [handle_reply_fact_check] and
    [process_commands] are entered but not followed: neither touches the
    limiters or the pattern files. *)
Inductive Action : Type :=
| ASend (notice : Notice)
| AReplyFactCheck
| AProcessCommands
| AAutomatic (effects : list Effect).

Section OnMessage.

Variable client : Client.
Variable json_loads : string -> option JVal.
Variable py_hash : string -> Z.

Definition with_limits (limits : gmap string (list Z)) (st : State) : State :=
  {| rate_limits := limits;
     auto_check_limits := auto_check_limits st;
     files := files st |}.

Definition on_message (env : Env) (st : State) (inc : Incoming)
  : State * list Action :=
  let message := inc_message inc in
  if from_self inc then (st, [])
  else if mentions_bot inc && is_reply inc then
    match RateLimiter.check_rate_limit (now env) (author_id message)
            (rate_limits st) with
    | (false, _) => (st, [ASend TooManyRequests])
    | (true, limits) => (with_limits limits st, [AReplyFactCheck])
    end
  else if PyStr.startswith (content message) COMMAND_PREFIX then
    match RateLimiter.check_rate_limit (now env) (author_id message)
            (rate_limits st) with
    | (false, _) => (st, [ASend TooManyCommands])
    | (true, limits) => (with_limits limits st, [AProcessCommands])
    end
  else if Config.AUTO_DETECT_ENABLED
          && negb (String.eqb (content message) "")
          && bool_decide (Config.AUTO_DETECT_MIN_MESSAGE_LENGTH
                          < PyStr.len (PyStr.strip (content message)))
  then
    let '(st', effects) :=
      handle_automatic_misinformation_check client json_loads py_hash env st
        message in
    (st', [AAutomatic effects])
  else (st, []).

End OnMessage.

(** The four ways out of lines 161-173: too short, a link, no word, a
    question. *)
Definition skipped (message : Message) : bool :=
  let text := content message in
  bool_decide (PyStr.len (PyStr.strip text) < Config.AUTO_DETECT_MIN_MESSAGE_LENGTH)
  || PyStr.contains "http" (PyStr.lower text)
  || match PyStr.split (PyStr.strip text) with
     | [] => true
     | w :: _ =>
         bool_decide (PyStr.lower w ∈ question_words)
         || PyStr.endswith (PyStr.strip text) "?"
     end.

(** The number a JSON value counts as in a comparison: a number, or a
    boolean as 0 or 1. *)
Definition number_of (v : JVal) : option Q :=
  match v with
  | JNum q => Some q
  | JBool b => Some (if b then 1%Q else 0%Q)
  | _ => None
  end.

(** The same world with another channel content. *)
Definition with_channel (env : Env) (prior : list Message) : Env :=
  {| now := now env; backend := backend env; channel := Some prior;
     reply_ok := reply_ok env; alloc_ok := alloc_ok env |}.

(** The alerts among the effects of a run. *)
Definition alerts_in (effects : list Effect) : list Alert :=
  omap (λ e, match e with EReply alert => Some alert | _ => None end) effects.

(** How many times a provider is called among the effects of a run. *)
Definition is_call (p : Provider) (e : Effect) : bool :=
  match e with
  | EProviderCall q => bool_decide (q = p)
  | _ => false
  end.

Definition calls_to (p : Provider) (effects : list Effect) : nat :=
  length (filter (λ e, is_call p e = true) effects).

(** The pattern files within their bounds: at most 100 events, at most 5
    examples per phrase, no negative count. *)
Definition file_ok (pf : PatternFile) : Prop :=
  length (events pf) ≤ 100
  /\ forall p e, claims pf !! p = Some e ->
       length (examples e) ≤ 5 /\ (0 <= count e)%Z.

Definition store_ok (files : gmap string PatternFile) : Prop :=
  forall name pf, files !! name = Some pf -> file_ok pf.

End Dispatch.

(** ** commands/community.py: what the trends report computes *)

Module Trends.

Import Bot.

Definition days (n : Z) : Z := (n * 24 * 60 * 60 * 1000000)%Z.

(** [[e for e in data.get('events', []) if utcnow() - fromisoformat(e['timestamp']) < timedelta(days=30)]] *)
Definition recent_events (now : Z) (evs : list Event) : list Event :=
  filter (λ e, (now - ev_timestamp e < days 30)%Z) evs.

Definition total_alerts (now : Z) (evs : list Event) : nat :=
  length (recent_events now evs).

(** [len([e for e in recent_events if e.get('urgency') == 'high'])] *)
Definition high_urgency (now : Z) (evs : list Event) : nat :=
  length (filter (λ e, is_high (ev_urgency e) = true) (recent_events now evs)).

(** [sorted(claims.items(), key=lambda x: x[1]['count'], reverse=True)]:
    a stable sort, so items of equal count keep the order of the dict.
    [items] is [claims.items()] in that order. *)
Fixpoint insert_by_count (x : string * ClaimEntry)
    (l : list (string * ClaimEntry)) : list (string * ClaimEntry) :=
  match l with
  | [] => [x]
  | y :: l' =>
      if bool_decide (count y.2 <= count x.2)%Z then x :: y :: l'
      else y :: insert_by_count x l'
  end.

Definition sorted_by_count (items : list (string * ClaimEntry))
  : list (string * ClaimEntry) :=
  foldr insert_by_count [] items.

(** An item that may stand before another after the sort. *)
Definition at_least (a b : string * ClaimEntry) : Prop :=
  (count b.2 <= count a.2)%Z.

(** [top_claims = sorted(...)[:5]] *)
Definition top_claims (items : list (string * ClaimEntry))
  : list (string * ClaimEntry) :=
  take 5 (sorted_by_count items).

(** The file the report reads, for a guild id that is not 0. *)
Definition trends_file (guild_id : Z) : string :=
  community_patterns (pretty guild_id).

End Trends.

(** ** Inputs of the further examples *)

Module ExMore.

Import AIClient Bot Dispatch Trends Ex.

Definition command_from_42 : Incoming :=
  {| inc_message := msg_at 20 "!truthiness the earth is flat";
     from_self := false; mentions_bot := false; is_reply := false |}.

Definition plain_from_42 (t : Z) (text : string) : Incoming :=
  {| inc_message := msg_at t text;
     from_self := false; mentions_bot := false; is_reply := false |}.

(** A world like [alarming_env] at another instant. *)
Definition alarming_at (t : Z) : Env :=
  {| now := t; backend := good_backend; channel := Some two_earlier;
     reply_ok := true; alloc_ok := λ n, (n <=? 1000000)%Z |}.

(** A message with a single keyword. *)
Definition one_keyword : Message := msg_at 14 "it is all a lie, ok".

(** User 42 has just sent five commands. *)
Definition busy : State :=
  {| rate_limits := after_burst; auto_check_limits := ∅; files := ∅ |}.

(** A world in which every call of every provider raises. *)
Definition outage_env : Env :=
  {| now := 1000000000; backend := λ _ _, CallRaises;
     channel := Some two_earlier; reply_ok := true;
     alloc_ok := λ n, (n <=? 1000000)%Z |}.

(** An answer of Gemini in a fence, with blank space around. *)
Definition fenced_answer : string :=
  " ```json" +:+ nl +:+ quoted "{'confidence': 0.9}" +:+ nl +:+ "``` ".

(** Four earlier messages, and two candidates for the one sent last. *)
Definition four_earlier : list Message :=
  [msg_at 1 "first message of the channel"; msg_at 2 "second message of the channel";
   msg_at 3 "third message of the channel"; msg_at 4 "fourth message of the channel"].

Definition last_a : Message := msg_at 5 "I read that the earth is round".

Definition last_b : Message := msg_at 5 "somebody please disprove this".

Definition entry (n : Z) : ClaimEntry := {| count := n; examples := [] |}.

(** The files after the flat-earth statement was recorded three times in
    guild 1001. *)
Definition recorded_thrice : gmap string PatternFile :=
  Nat.iter 3 (query_then_record some_hash 10 flat_earth scenario_A) ∅.

(** An answer whose confidence is far off the scale, in a world that
    delivers every reply and never runs out of memory. *)
Definition overconfident_payload : string :=
  quoted "{'truthiness_percentage': 30, 'confidence': 10000000000000000000000000000000, 'urgency_level': 'high', 'reasoning': 'contradicts the record'}".

Definition overconfident_env : Env :=
  {| now := 1000000000;
     backend := λ _ _, CallReturns (Some overconfident_payload);
     channel := Some two_earlier; reply_ok := true;
     alloc_ok := λ _, true |}.

Definition six_items : list (string * ClaimEntry) :=
  [("a b", entry 2); ("c d", entry 7); ("e f", entry 2); ("g h", entry 1);
   ("i j", entry 9); ("k l", entry 4)].

End ExMore.
(** * Properties *)

Import AIClient Bot Ex.

(** ** The embedding on concrete inputs *)

Example lower_ex : PyStr.lower "Is HTTP ok?" = "is http ok?".
Proof. reflexivity. Qed.

Example strip_ex : PyStr.strip "  a b  " = "a b".
Proof. reflexivity. Qed.

Example split_ex : PyStr.split "  the  earth is flat " = ["the"; "earth"; "is"; "flat"].
Proof. reflexivity. Qed.

Example rfind_ex : PyStr.rfind "}" "{a}{b} " = Some 5.
Proof. reflexivity. Qed.


Example loads_ex :
  Json.loads (quoted "{ 'truthiness_percentage': 30, 'confidence': 0.8, 'urgency_level': 'high' }")
  = Some (JObj [("truthiness_percentage", JNum 30); ("confidence", JNum (4 # 5));
                ("urgency_level", JStr "high")]).
Proof. reflexivity. Qed.

Example loads_bad : Json.loads "Sorry, I cannot help." = None.
Proof. reflexivity. Qed.

Example loads_list :
  Json.loads (quoted "[1, {'a': null}, true] ")
  = Some (JArr [JNum 1; JObj [("a", JNull)]; JBool true]).
Proof. reflexivity. Qed.

Example clean_gemini_ex :
  clean_gemini (" ```json" +:+ nl +:+ quoted "{'confidence': 0.9}" +:+ nl +:+ "``` ")
  = quoted "{'confidence': 0.9}".
Proof. reflexivity. Qed.

Example extract_key_phrases_ex :
  extract_key_phrases "The vaccines cause AUTISM in kids"
  = ["vaccines cause"; "vaccines cause autism"; "cause autism";
     "cause autism kids"; "autism kids"].
Proof. reflexivity. Qed.

Example extract_key_phrases_one :
  extract_key_phrases "the earth is flat" = ["earth flat"].
Proof. reflexivity. Qed.

(** ** DecisionEngine: the two thresholds *)

Lemma Qltb_lt (x y : Q) : Qltb x y = true <-> (x < y)%Q.
Proof.
  unfold Qltb. rewrite negb_true_iff, <- not_true_iff_false, Qle_bool_iff.
  split; [apply Qnot_le_lt | apply Qlt_not_le].
Qed.

Lemma Qltb_ge (x y : Q) : Qltb x y = false <-> (y <= x)%Q.
Proof.
  unfold Qltb. rewrite negb_false_iff. apply Qle_bool_iff.
Qed.

Lemma should_alert_numbers (tthr cthr t c : Q) (d : list (string * JVal)) :
  dict_lookup "truthiness_percentage" d = Some (JNum t) ->
  dict_lookup "confidence" d = Some (JNum c) ->
  should_alert tthr cthr (JObj d) = Ok (Qltb t tthr && negb (Qltb c cthr)).
Proof.
  intros Ht Hc. unfold should_alert.
  assert (truthy (JObj d) = true) as -> by (destruct d; [discriminate | reflexivity]).
  cbn. rewrite Ht. cbn. destruct (Qltb t tthr); cbn; [| reflexivity].
  rewrite Hc. reflexivity.
Qed.

(** C1. For an analysis that carries a truthiness percentage [t] and a
    confidence [c], the decision of lines 209-218 goes on to the alert
    exactly when [c] is at least the confidence threshold and [t] is below
    the truthiness threshold; a confidence below its threshold gives no
    alert whatever the other fields (score, urgency) hold, and so does a
    truthiness at or above its threshold. *)
Theorem C1_alert_iff_thresholds (tthr cthr t c : Q) (d : list (string * JVal)) :
  dict_lookup "truthiness_percentage" d = Some (JNum t) ->
  dict_lookup "confidence" d = Some (JNum c) ->
  (should_alert tthr cthr (JObj d) = Ok true <-> (cthr <= c)%Q /\ (t < tthr)%Q)
  /\ ((c < cthr)%Q -> should_alert tthr cthr (JObj d) = Ok false)
  /\ ((tthr <= t)%Q -> should_alert tthr cthr (JObj d) = Ok false).
Proof.
  intros Ht Hc. rewrite (should_alert_numbers tthr cthr t c d Ht Hc).
  split; [| split].
  - split.
    + intros H. injection H as H. apply andb_true_iff in H as [H1 H2].
      apply negb_true_iff in H2. split; [by apply Qltb_ge | by apply Qltb_lt].
    + intros [H1 H2]. apply Qltb_ge in H1. apply Qltb_lt in H2.
      by rewrite H1, H2.
  - intros H. apply Qltb_lt in H. rewrite H. by rewrite andb_false_r.
  - intros H. apply Qltb_ge in H. by rewrite H.
Qed.

Lemma C1_alert_iff_thresholds_witness :
  (should_alert 50 (6 # 10) scenario_A = Ok true <-> (6 # 10 <= 8 # 10)%Q /\ (30 < 50)%Q)
  /\ ((8 # 10 < 6 # 10)%Q -> should_alert 50 (6 # 10) scenario_A = Ok false)
  /\ ((50 <= 30)%Q -> should_alert 50 (6 # 10) scenario_A = Ok false).
Proof.
  apply (C1_alert_iff_thresholds 50 (6 # 10) 30 (8 # 10)); reflexivity.
Defined.

Example scenarios :
  should_alert Config.AUTO_DETECT_TRUTHINESS_THRESHOLD
    Config.AUTO_DETECT_CONFIDENCE_THRESHOLD scenario_A = Ok true
  /\ should_alert Config.AUTO_DETECT_TRUTHINESS_THRESHOLD
       Config.AUTO_DETECT_CONFIDENCE_THRESHOLD scenario_B = Ok false
  /\ should_alert Config.AUTO_DETECT_TRUTHINESS_THRESHOLD
       Config.AUTO_DETECT_CONFIDENCE_THRESHOLD scenario_C = Ok false.
Proof. repeat split. Qed.

(** ** RateLimiter *)

Section RateLimiterFacts.

Import RateLimiter.

Variable window : Z.
Variable maxEvents : nat.
Variable user_id : Z.

Abbreviation key := (pretty user_id).
Abbreviation stored limits := (default [] (limits !! key)).

Lemma check_refused now (limits : gmap string (list Z)) :
  maxEvents ≤ length (purge window now (stored limits)) ->
  check window maxEvents now user_id limits = (false, limits).
Proof.
  intros H. unfold check, allow. by rewrite bool_decide_eq_true_2.
Qed.

Lemma check_admitted now (limits : gmap string (list Z)) :
  length (purge window now (stored limits)) < maxEvents ->
  check window maxEvents now user_id limits
  = (true, <[key := purge window now (stored limits) ++ [now]]> limits).
Proof.
  intros H. unfold check, allow. rewrite bool_decide_eq_false_2; [done | lia].
Qed.

(** An admitted call stores the purged list followed by the present instant. *)
Lemma check_true_inv now (limits limits' : gmap string (list Z)) :
  check window maxEvents now user_id limits = (true, limits') ->
  stored limits' = purge window now (stored limits) ++ [now].
Proof.
  destruct (decide (maxEvents ≤ length (purge window now (stored limits)))) as [H|H].
  - rewrite check_refused by done. discriminate.
  - rewrite check_admitted by lia. intros [= <-]. by rewrite lookup_insert_eq.
Qed.

(** What is still inside the window at [now] was inside it at any earlier
    instant. *)
Lemma purge_purge_earlier now t (l : list Z) :
  (t <= now)%Z -> purge window now (purge window t l) = purge window now l.
Proof.
  intros Ht. unfold purge. induction l as [|x l IH]; [done|].
  rewrite !filter_cons. repeat case_decide; rewrite ?filter_cons; repeat case_decide;
    try lia; by rewrite IH.
Qed.

Lemma purge_app now (l1 l2 : list Z) :
  purge window now (l1 ++ l2) = purge window now l1 ++ purge window now l2.
Proof. apply filter_app. Qed.

(** Admitted calls made at instants that [now] still sees inside its window
    are all counted at [now]. *)
Lemma run_admitted_counted now (times : list Z) :
  Forall (λ t, (t <= now)%Z /\ (now - t < window)%Z) times ->
  forall (limits limits' : gmap string (list Z)) oks,
  run window maxEvents user_id times limits = (oks, limits') ->
  Forall (eq true) oks ->
  length (purge window now (stored limits)) + length times
  ≤ length (purge window now (stored limits')).
Proof.
  induction 1 as [|t times [Hle Hin] _ IH]; intros limits limits' oks Hrun Hoks.
  - injection Hrun as <- <-. cbn. lia.
  - cbn in Hrun.
    destruct (check window maxEvents t user_id limits) as [ok limits1] eqn:Hc.
    destruct (run window maxEvents user_id times limits1) as [oks1 limits2] eqn:Hr.
    injection Hrun as <- <-. apply Forall_cons in Hoks as [<- Hoks].
    specialize (IH _ _ _ Hr Hoks).
    rewrite (check_true_inv _ _ _ Hc), purge_app, purge_purge_earlier in IH by done.
    unfold purge at 2 in IH. rewrite filter_cons in IH.
    case_decide; [| lia]. rewrite length_app in IH. cbn in *. lia.
Qed.

(** A run only stores instants that were stored before or at which a call
    was made. *)
Lemma run_stored_from (times : list Z) :
  forall (limits limits' : gmap string (list Z)) oks,
  run window maxEvents user_id times limits = (oks, limits') ->
  forall ts, ts ∈ stored limits' -> ts ∈ stored limits \/ ts ∈ times.
Proof.
  induction times as [|t times IH]; intros limits limits' oks Hrun ts Hts.
  - injection Hrun as <- <-. by left.
  - cbn in Hrun.
    destruct (check window maxEvents t user_id limits) as [ok limits1] eqn:Hc.
    destruct (run window maxEvents user_id times limits1) as [oks1 limits2] eqn:Hr.
    injection Hrun as <- <-.
    destruct (IH _ _ _ Hr ts Hts) as [H|H]; [| right; by constructor].
    destruct (decide (maxEvents ≤ length (purge window t (stored limits)))) as [Hd|Hd].
    + rewrite check_refused in Hc by done. injection Hc as <- <-. by left.
    + rewrite check_admitted in Hc by lia. injection Hc as <- <-.
      rewrite lookup_insert_eq in H. cbn in H.
      apply elem_of_app in H as [H|H].
      * left. unfold purge in H. by apply list_elem_of_filter in H as [_ H].
      * apply list_elem_of_singleton in H as ->. right. by left.
Qed.

Lemma purge_all_old now (l : list Z) :
  Forall (λ ts, (window <= now - ts)%Z) l -> purge window now l = [].
Proof.
  induction 1 as [|x l Hx _ IH]; [done|].
  unfold purge in *. rewrite filter_cons. case_decide; [lia | done].
Qed.

(** C4. One rate-limit check keeps of the identity's stored timestamps those
    newer than [now - window]; when at least [maxEvents] remain it answers
    false and stores nothing, otherwise it stores the kept timestamps
    followed by [now] and answers true.  Hence: after [maxEvents] admitted
    calls at instants still inside the window the next call answers false,
    and once every call made lies a window or more in the past (nothing
    newer being stored) a call answers true again. *)
Theorem C4_sliding_window (now : Z) (limits : gmap string (list Z)) :
  (maxEvents ≤ length (purge window now (stored limits)) ->
     check window maxEvents now user_id limits = (false, limits))
  /\ (length (purge window now (stored limits)) < maxEvents ->
        check window maxEvents now user_id limits
        = (true, <[key := purge window now (stored limits) ++ [now]]> limits))
  /\ (forall times limits0 oks,
        run window maxEvents user_id times limits0 = (oks, limits) ->
        length times = maxEvents -> Forall (eq true) oks ->
        Forall (λ t, (t <= now)%Z /\ (now - t < window)%Z) times ->
        (check window maxEvents now user_id limits).1 = false)
  /\ (forall times limits0 oks,
        run window maxEvents user_id times limits0 = (oks, limits) ->
        0 < maxEvents ->
        Forall (λ ts, (window <= now - ts)%Z) (stored limits0) ->
        Forall (λ t, (window <= now - t)%Z) times ->
        (check window maxEvents now user_id limits).1 = true).
Proof.
  split; [apply check_refused |]. split; [apply check_admitted |]. split.
  - intros times limits0 oks Hrun Hlen Hoks Hin.
    pose proof (run_admitted_counted now times Hin _ _ _ Hrun Hoks).
    rewrite check_refused; [done | lia].
  - intros times limits0 oks Hrun Hpos Hold0 Hold.
    rewrite check_admitted; [done|].
    rewrite purge_all_old; [done|].
    apply Forall_forall. intros ts Hts.
    destruct (run_stored_from _ _ _ _ Hrun ts Hts) as [H|H].
    + by eapply (proj1 (Forall_forall _ _)) in Hold0.
    + by eapply (proj1 (Forall_forall _ _)) in Hold.
Qed.

End RateLimiterFacts.

Lemma C4_sliding_window_witness :
  (RateLimiter.check_rate_limit 5000000 42 after_burst).1 = false
  /\ (RateLimiter.check_rate_limit 64000000 42 after_burst).1 = true.
Proof.
  split.
  - refine (proj1 (proj2 (proj2
      (C4_sliding_window (RateLimiter.minutes 1) 5 42 5000000 after_burst)))
      burst ∅ [true; true; true; true; true] _ _ _ _).
    + vm_compute. reflexivity.
    + reflexivity.
    + repeat constructor.
    + unfold burst, RateLimiter.minutes. repeat constructor; lia.
  - refine (proj2 (proj2 (proj2
      (C4_sliding_window (RateLimiter.minutes 1) 5 42 64000000 after_burst)))
      burst ∅ [true; true; true; true; true] _ _ _ _).
    + vm_compute. reflexivity.
    + lia.
    + constructor.
    + unfold burst, RateLimiter.minutes. repeat constructor; lia.
Defined.

(** The two limiters of bot.py are this check at their own constants, each
    on its own dictionary. *)
Lemma check_rate_limit_unfold now user_id (rate_limits : gmap string (list Z)) :
  RateLimiter.check_rate_limit now user_id rate_limits
  = RateLimiter.check 60000000 5 now user_id rate_limits.
Proof. reflexivity. Qed.

Lemma auto_check_limit_unfold now user_id (limits : gmap string (list Z)) :
  RateLimiter.auto_check_limit now user_id limits
  = RateLimiter.check 300000000 2 now user_id limits.
Proof. reflexivity. Qed.

Example burst_run :
  (RateLimiter.run (RateLimiter.minutes 1) 5 42 (burst ++ [5000000; 64000000]%Z) ∅).1
  = [true; true; true; true; true; false; true].
Proof. vm_compute. reflexivity. Qed.

(** ** ProviderOrchestrator *)

Section FallbackFacts.

Variable client : Client.
Variable backend : Provider -> Prompt -> CallOutcome.
Variable prompt : Prompt.

Abbreviation fails p := (succeeds backend prompt p = false).

(** The code is the loop of the design document over the configured
    clients. *)
Lemma fallback_first_success :
  make_request_with_fallback client backend prompt
  = first_success backend prompt (priority client).
Proof.
  unfold make_request_with_fallback, try_openai, try_gemini, priority.
  destruct client as [[] [] []]; cbn; unfold succeeds, returned_text; cbn;
    repeat match goal with
      | |- context [backend ?p ?q] => destruct (backend p q) as [|[?|]]; cbn
      end; reflexivity.
Qed.

Lemma first_success_split (before after : list Provider) (p : Provider) :
  Forall (λ q, fails q) before -> succeeds backend prompt p = true ->
  first_success backend prompt (before ++ p :: after)
  = (returned_text backend prompt p, before ++ [p]).
Proof.
  intros Hb Hp. induction Hb as [|q before Hq _ IH]; cbn.
  - by rewrite Hp.
  - by rewrite Hq, IH.
Qed.

Lemma first_success_all_fail (ps : list Provider) :
  Forall (λ q, fails q) ps -> first_success backend prompt ps = (None, ps).
Proof.
  induction 1 as [|q ps Hq _ IH]; cbn; [done|]. by rewrite Hq, IH.
Qed.

Lemma first_success_prefix (ps : list Provider) :
  (first_success backend prompt ps).2 `prefix_of` ps.
Proof.
  induction ps as [|p ps IH]; cbn; [done|].
  destruct (succeeds backend prompt p); cbn.
  - by apply prefix_cons, prefix_nil.
  - destruct (first_success backend prompt ps). by apply prefix_cons.
Qed.

Lemma priority_NoDup : NoDup (priority client).
Proof.
  unfold priority. destruct client as [[] [] []]; cbn;
    by apply (bool_decide_unpack _).
Qed.

Lemma fallback_trace_prefix :
  (make_request_with_fallback client backend prompt).2 `prefix_of` priority client.
Proof. rewrite fallback_first_success. apply first_success_prefix. Qed.

Lemma fallback_trace_NoDup :
  NoDup (make_request_with_fallback client backend prompt).2.
Proof.
  destruct fallback_trace_prefix as [k Hk]. pose proof priority_NoDup as H.
  rewrite Hk in H. by apply NoDup_app in H as [H _].
Qed.

End FallbackFacts.

(** C3, as the code has it. The providers are invoked in the fixed order
    PawanOsman, OpenAI, Gemini (those configured), each at most once; the
    first whose call succeeds determines what is returned and none after it
    is invoked; when every call fails the result is None and every provider
    was invoked.  What is returned is the provider's text alone. *)
Theorem C3_first_success_wins (client : Client)
    (backend : Provider -> Prompt -> CallOutcome) (prompt : Prompt) :
  (make_request_with_fallback client backend prompt).2 `prefix_of` priority client
  /\ NoDup (make_request_with_fallback client backend prompt).2
  /\ (forall before p after,
        priority client = before ++ p :: after ->
        Forall (λ q, succeeds backend prompt q = false) before ->
        succeeds backend prompt p = true ->
        make_request_with_fallback client backend prompt
        = (returned_text backend prompt p, before ++ [p]))
  /\ (Forall (λ q, succeeds backend prompt q = false) (priority client) ->
        make_request_with_fallback client backend prompt = (None, priority client)).
Proof.
  split; [apply fallback_trace_prefix |]. split; [apply fallback_trace_NoDup |].
  rewrite fallback_first_success. split.
  - intros before p after -> Hb Hp. by apply first_success_split.
  - apply first_success_all_fail.
Qed.

Lemma C3_first_success_wins_witness :
  make_request_with_fallback all_clients timeout_backend (TruthinessPrompt "the earth is flat")
  = (Some valid_payload, [PawanOsman; OpenAI]).
Proof.
  refine (proj1 (proj2 (proj2
    (C3_first_success_wins all_clients timeout_backend (TruthinessPrompt "the earth is flat"))))
    [PawanOsman] OpenAI [Gemini] _ _ _).
  - reflexivity.
  - repeat constructor.
  - reflexivity.
Defined.

(** C3, the part that fails: were the provider's identifier reported in the
    result, it could be read off the result; but two requests answered by
    different providers return the same result. *)
Lemma C3_counterexample :
  ~ exists provider_used : JVal -> Provider,
      forall client backend statement before p after,
        priority client = before ++ p :: after ->
        Forall (λ q, succeeds backend (community_prompt statement [] None) q = false) before ->
        succeeds backend (community_prompt statement [] None) p = true ->
        provider_used
          (analyze_with_community_context client backend Json.loads statement [] None).1
        = p.
Proof.
  intros [provider_used H].
  pose proof (H all_clients good_backend "the earth is flat" [] PawanOsman [OpenAI; Gemini]
                eq_refl ltac:(constructor) eq_refl) as H1.
  pose proof (H all_clients timeout_backend "the earth is flat" [PawanOsman] OpenAI [Gemini]
                eq_refl ltac:(repeat constructor) eq_refl) as H2.
  vm_compute in H1, H2. congruence.
Qed.

Section AnalyzeFacts.

Variable client : Client.
Variable backend : Provider -> Prompt -> CallOutcome.
Variable json_loads : string -> option JVal.

Lemma parse_response_unparsable (text : string) :
  json_loads text = None -> parse_response json_loads (Some text) = JNull.
Proof. intros H. cbn. rewrite H. by destruct (String.eqb text ""). Qed.

Lemma analyze_unfold statement context community :
  analyze_with_community_context client backend json_loads statement context community
  = (parse_response json_loads
       (make_request_with_fallback client backend
          (community_prompt statement context community)).1,
     (make_request_with_fallback client backend
        (community_prompt statement context community)).2).
Proof.
  unfold analyze_with_community_context.
  by destruct (make_request_with_fallback _ _ _).
Qed.

Lemma rate_truthiness_unfold statement :
  rate_truthiness client backend json_loads statement
  = (parse_response json_loads
       (make_request_with_fallback client backend (TruthinessPrompt statement)).1,
     (make_request_with_fallback client backend (TruthinessPrompt statement)).2).
Proof.
  unfold rate_truthiness. by destruct (make_request_with_fallback _ _ _).
Qed.

End AnalyzeFacts.

(** C2, as the code has it. A provider is passed over only when its call
    fails; the text of the first provider whose call succeeds is the only
    one handed to the JSON reader, and no provider after it is invoked: if
    that text does not parse, the analysis is None.  When every call fails
    the analysis is None after every provider was invoked. *)
Theorem C2_only_a_failed_call_falls_back (client : Client)
    (backend : Provider -> Prompt -> CallOutcome)
    (json_loads : string -> option JVal)
    (statement : string) (context : list ContextEntry) (community : option Z) :
  let prompt := community_prompt statement context community in
  (forall before p after,
     priority client = before ++ p :: after ->
     Forall (λ q, succeeds backend prompt q = false) before ->
     succeeds backend prompt p = true ->
     analyze_with_community_context client backend json_loads statement context community
     = (parse_response json_loads (returned_text backend prompt p), before ++ [p])
     /\ (forall text, returned_text backend prompt p = Some text ->
           json_loads text = None ->
           analyze_with_community_context client backend json_loads statement context
             community = (JNull, before ++ [p])))
  /\ (Forall (λ q, succeeds backend prompt q = false) (priority client) ->
      analyze_with_community_context client backend json_loads statement context community
      = (JNull, priority client)).
Proof.
  intros prompt. rewrite analyze_unfold. fold prompt.
  rewrite fallback_first_success. split.
  - intros before p after -> Hb Hs. rewrite first_success_split by done.
    cbn [fst snd]. split; [done|].
    intros text -> Hbad. by rewrite parse_response_unparsable.
  - intros Hall. by rewrite first_success_all_fail.
Qed.

Lemma C2_only_a_failed_call_falls_back_witness :
  analyze_with_community_context all_clients prose_backend Json.loads
    "the earth is flat" [] None = (JNull, [PawanOsman]).
Proof.
  refine (proj2 (proj1
    (C2_only_a_failed_call_falls_back all_clients prose_backend Json.loads
       "the earth is flat" [] None) [] PawanOsman [OpenAI; Gemini] _ _ _)
    "Sorry, I cannot help." _ _).
  - reflexivity.
  - constructor.
  - reflexivity.
  - reflexivity.
  - vm_compute. reflexivity.
Defined.

(** C2, as stated, fails: the first provider answers in prose, the reader
    rejects the text, and the second provider, configured and ready with a
    valid payload, is not tried. *)
Lemma C2_counterexample :
  ~ (forall client backend (json_loads : string -> option JVal) statement context
       community before p q after text,
       priority client = before ++ p :: q :: after ->
       p ∈ (analyze_with_community_context client backend json_loads statement
              context community).2 ->
       returned_text backend (community_prompt statement context community) p
       = Some text ->
       json_loads text = None ->
       q ∈ (analyze_with_community_context client backend json_loads statement
              context community).2).
Proof.
  intros H.
  specialize (H all_clients prose_backend Json.loads "the earth is flat" [] None
                [] PawanOsman OpenAI [Gemini] "Sorry, I cannot help.").
  assert (OpenAI ∈ [PawanOsman]) as Hin.
  { apply H.
    - reflexivity.
    - vm_compute. left.
    - reflexivity.
    - vm_compute. reflexivity. }
  apply list_elem_of_singleton in Hin. discriminate.
Qed.

Example prose_then_nothing :
  analyze_with_community_context all_clients prose_backend Json.loads
    "the earth is flat" [] None = (JNull, [PawanOsman])
  /\ succeeds prose_backend (community_prompt "the earth is flat" [] None) OpenAI = true
  /\ (exists v, Json.loads valid_payload = Some v /\ truthy v = true).
Proof.
  split; [vm_compute; reflexivity |]. split; [reflexivity |].
  eexists. split; [vm_compute; reflexivity | reflexivity].
Qed.

(** ** EventLog *)

Lemma append_event_drop (ev : Event) (evs : list Event) :
  append_event ev evs = drop (length (evs ++ [ev]) - 100) (evs ++ [ev]).
Proof.
  unfold append_event. case_bool_decide; [done|].
  replace (length (evs ++ [ev]) - 100) with 0 by lia. done.
Qed.

Lemma append_events_snoc (evs new : list Event) (ev : Event) :
  append_events evs (new ++ [ev]) = append_event ev (append_events evs new).
Proof. unfold append_events. by rewrite foldl_app. Qed.

(** After any appends to a log within its bound, the log holds the last 100
    of everything inserted, in the order of insertion. *)
Lemma append_events_last (evs new : list Event) :
  length evs ≤ 100 ->
  append_events evs new = drop (length (evs ++ new) - 100) (evs ++ new).
Proof.
  intros Hlen. induction new as [|ev new IH] using rev_ind.
  - rewrite app_nil_r. replace (length evs - 100) with 0 by lia. done.
  - rewrite append_events_snoc, append_event_drop, IH.
    rewrite app_assoc.
    set (l := evs ++ new) in *.
    rewrite <- (drop_app_le l [ev] (length l - 100)) by lia.
    rewrite drop_drop. f_equal.
    rewrite length_drop, !length_app. cbn. lia.
Qed.

(** C8. An append puts the event at the tail and keeps the last 100 of the
    result, so the oldest go first; after any sequence of appends to a log
    within its bound exactly the (at most 100) most recent events are
    kept, and 105 appends to an empty log leave all but the 5 oldest. *)
Theorem C8_event_log_keeps_last_100 (evs new : list Event) (ev : Event) :
  append_event ev evs = drop (length (evs ++ [ev]) - 100) (evs ++ [ev])
  /\ length (append_event ev evs) ≤ 100
  /\ last (append_event ev evs) = Some ev
  /\ (length evs ≤ 100 ->
      append_events evs new = drop (length (evs ++ new) - 100) (evs ++ new)
      /\ length (append_events evs new) = length (evs ++ new) `min` 100)
  /\ (length new = 100 + 5 -> append_events [] new = drop 5 new).
Proof.
  split; [apply append_event_drop |]. split; [| split; [| split]].
  - rewrite append_event_drop, length_drop. lia.
  - rewrite append_event_drop.
    rewrite drop_app_le by (rewrite length_app; cbn; lia).
    apply last_snoc.
  - intros Hlen. rewrite append_events_last by done. split; [done|].
    rewrite length_drop. lia.
  - intros Hnew. rewrite append_events_last by (cbn; lia).
    cbn [app]. by rewrite Hnew, Nat.add_comm, Nat.add_sub.
Qed.

Lemma C8_event_log_keeps_last_100_witness :
  append_events [] events_1_to_105 = drop 5 events_1_to_105
  /\ length (append_events [] events_1_to_105) = 100.
Proof.
  pose proof (C8_event_log_keeps_last_100 [] events_1_to_105 (event_at 0))
    as (_ & _ & _ & Hany & H105).
  split.
  - apply H105. reflexivity.
  - refine (eq_trans (proj2 (Hany _)) _); [cbn; lia | reflexivity].
Defined.

Example log_of_105 :
  ev_timestamp <$> append_events [] events_1_to_105 = seqZ 6 100.
Proof. vm_compute. reflexivity. Qed.

(** ** ContextCollector *)

Lemma take_len (n : nat) (s : string) : PyStr.len (PyStr.take n s) ≤ n.
Proof.
  revert s. induction n as [|n IH]; intros [|c s]; cbn; try lia.
  specialize (IH s). unfold PyStr.len in IH. lia.
Qed.

Lemma context_newest_first (prior : list Message) :
  reverse (get_conversation_context (Some prior))
  = context_entry <$>
      drop (length (filter relevant (drop (length prior - 10) prior)) - 5)
        (filter relevant (drop (length prior - 10) prior)).
Proof.
  unfold get_conversation_context, history.
  rewrite take_reverse, filter_reverse, fmap_reverse, take_reverse.
  by rewrite reverse_involutive, fmap_drop, length_fmap.
Qed.

(** What the collector returns: at most 5 entries; each is a message sent
    before the target in the channel, with content and more than 10
    characters once stripped, cut to its first 200 characters; they are the
    most recent such messages among the 10 fetched.  Read backwards, the
    result is the tail of the qualifying messages in the order they were
    sent.  When fetching fails the context is empty. *)
Lemma context_entries (prior : list Message) :
  length (get_conversation_context (Some prior)) ≤ 5
  /\ Forall (λ e, PyStr.len (ctx_content e) ≤ 200) (get_conversation_context (Some prior))
  /\ (forall e, e ∈ get_conversation_context (Some prior) ->
        exists msg, msg ∈ prior /\ relevant msg /\ e = context_entry msg)
  /\ reverse (get_conversation_context (Some prior))
     = context_entry <$>
         drop (length (filter relevant (drop (length prior - 10) prior)) - 5)
           (filter relevant (drop (length prior - 10) prior))
  /\ get_conversation_context None = [].
Proof.
  split; [| split; [| split; [| split; [apply context_newest_first | done]]]].
  - unfold get_conversation_context. rewrite length_take. lia.
  - apply Forall_forall. intros e He. unfold get_conversation_context in He.
    apply elem_of_take in He as (i & He & _).
    apply list_elem_of_lookup_2, list_elem_of_fmap in He as (msg & -> & _).
    apply take_len.
  - intros e He. apply elem_of_reverse in He. rewrite context_newest_first in He.
    apply list_elem_of_fmap in He as (msg & -> & Hmsg).
    apply subseteq_drop, list_elem_of_filter in Hmsg as [Hrel Hmsg].
    apply subseteq_drop in Hmsg. by exists msg.
Qed.

Example context_of_two :
  ctx_timestamp <$> get_conversation_context (Some two_earlier) = [2; 1]%Z.
Proof. reflexivity. Qed.

(** C7. The order of the context is not the chronological one.  On a
    channel holding five earlier messages, sent at the instants 1 to 5, the
    collector returns them as 5, 4, 3, 2, 1: the most recent first, where
    the claim says oldest first.  The reader of the context,
    [analyze_with_community_context], quotes [conversation_context[-3:]] as
    the last 3 messages: on this channel these are the messages sent at 3,
    2 and 1, the three oldest, and the two most recent are not quoted. *)
Theorem C7_context_is_not_chronological :
  created_at <$> (ExMore.four_earlier ++ [ExMore.last_a]) = [1; 2; 3; 4; 5]%Z
  /\ ctx_timestamp
       <$> get_conversation_context (Some (ExMore.four_earlier ++ [ExMore.last_a]))
     = [5; 4; 3; 2; 1]%Z
  /\ ~ Sorted Z.le
         (ctx_timestamp
            <$> get_conversation_context (Some (ExMore.four_earlier ++ [ExMore.last_a])))
  /\ context_str
       (get_conversation_context (Some (ExMore.four_earlier ++ [ExMore.last_a])))
     = context_str
         (context_entry
            <$> [msg_at 3 "third message of the channel";
                 msg_at 2 "second message of the channel";
                 msg_at 1 "first message of the channel"]).
Proof.
  split; [reflexivity |]. split; [reflexivity |]. split; [| reflexivity].
  change (ctx_timestamp <$> _) with [5; 4; 3; 2; 1]%Z.
  intros Hs. apply Sorted_inv in Hs as [_ Hs]. apply HdRel_inv in Hs. lia.
Qed.

(** ** PatternStore *)

Lemma match_phrases_sum (cl : gmap string ClaimEntry) (phrases : list string)
    (acc : Z * list string) :
  (foldl (match_phrase cl) acc phrases).1
  = (acc.1 + foldr Z.add 0%Z (omap (λ p, count <$> cl !! p) phrases))%Z.
Proof.
  revert acc. induction phrases as [|p phrases IH]; intros acc; cbn.
  - lia.
  - rewrite IH. unfold match_phrase. destruct (cl !! p); cbn; lia.
Qed.

Lemma check_frequency (files : gmap string PatternFile) (text : string)
    (guild_id : option Z) :
  frequency (check_misinformation_patterns files text guild_id)
  = foldr Z.add 0%Z
      (omap (λ p, count <$> claims (default no_patterns
                                      (files !! pattern_file guild_id)) !! p)
         (extract_key_phrases text)).
Proof.
  unfold check_misinformation_patterns.
  pose proof (match_phrases_sum
    (claims (default no_patterns (files !! pattern_file guild_id)))
    (extract_key_phrases text) (0%Z, [])) as H.
  destruct (foldl _ _ _) as [f s]. cbn in *. lia.
Qed.

Lemma check_is_recurring (files : gmap string PatternFile) (text : string)
    (guild_id : option Z) :
  is_recurring (check_misinformation_patterns files text guild_id)
  = bool_decide (2 < frequency (check_misinformation_patterns files text guild_id))%Z.
Proof.
  unfold check_misinformation_patterns. by destruct (foldl _ _ _).
Qed.

Lemma check_key_phrases (files : gmap string PatternFile) (text : string)
    (guild_id : option Z) :
  key_phrases (check_misinformation_patterns files text guild_id)
  = extract_key_phrases text.
Proof.
  unfold check_misinformation_patterns. by destruct (foldl _ _ _).
Qed.

(** In a guild the query reads the file the log writes. *)
Lemma pattern_file_guild (g : Z) : g ≠ 0%Z -> pattern_file (Some g) = log_file (Some g).
Proof.
  intros Hg. unfold pattern_file, log_file.
  by destruct (Z.eqb_spec g 0).
Qed.

Lemma check_frequency_one (files : gmap string PatternFile) (text p : string)
    (guild_id : option Z) :
  extract_key_phrases text = [p] ->
  frequency (check_misinformation_patterns files text guild_id)
  = stored_count files (pattern_file guild_id) p.
Proof.
  intros Hp. rewrite check_frequency, Hp. unfold stored_count. cbn.
  destruct (claims _ !! p); cbn; lia.
Qed.

Section Recording.

Variable py_hash : string -> Z.
Variable now : Z.
Variable message : Message.
Variable d : list (string * JVal).
Variable p : string.
Hypothesis one_phrase : extract_key_phrases (content message) = [p].

Lemma record_one_phrase (files : gmap string PatternFile) :
  stored_count (query_then_record py_hash now message (JObj d) files)
    (log_file (guild message)) p
  = (stored_count files (log_file (guild message)) p + 1)%Z.
Proof.
  unfold query_then_record, log_misinformation_event, stored_count. cbn.
  rewrite check_key_phrases, one_phrase, lookup_insert_eq. cbn.
  unfold record_phrase, entry_or_new. rewrite lookup_insert_eq. cbn.
  by destruct (claims _ !! p).
Qed.

Lemma record_n_times (n : nat) (files : gmap string PatternFile) :
  stored_count (Nat.iter n (query_then_record py_hash now message (JObj d)) files)
    (log_file (guild message)) p
  = (stored_count files (log_file (guild message)) p + Z.of_nat n)%Z.
Proof.
  induction n as [|n IH].
  - cbn. lia.
  - rewrite Nat.iter_succ, record_one_phrase, IH. lia.
Qed.

End Recording.

(** What holds of the query.  The frequency it returns is the sum of the
    counts stored, in the file it reads, for the key phrases extracted from
    the message that have an entry there; [is_recurring] holds exactly when
    that frequency exceeds 2 (not at 2, at 3 it does); and in a guild,
    where the query reads the file the log writes, after a message with the
    single key phrase [p], not yet in the file, was recorded [n] times, the
    next query for it returns frequency [n]. *)
Lemma frequency_is_sum_of_counts (files : gmap string PatternFile)
    (text : string) (guild_id : option Z) :
  frequency (check_misinformation_patterns files text guild_id)
  = foldr Z.add 0%Z
      (omap (λ p, count <$> claims (default no_patterns
                                      (files !! pattern_file guild_id)) !! p)
         (extract_key_phrases text))
  /\ (is_recurring (check_misinformation_patterns files text guild_id) = true
      <-> (2 < frequency (check_misinformation_patterns files text guild_id))%Z)
  /\ (frequency (check_misinformation_patterns files text guild_id) = 2%Z ->
      is_recurring (check_misinformation_patterns files text guild_id) = false)
  /\ (frequency (check_misinformation_patterns files text guild_id) = 3%Z ->
      is_recurring (check_misinformation_patterns files text guild_id) = true)
  /\ (forall py_hash now message d g p n,
        guild message = Some g -> g ≠ 0%Z ->
        extract_key_phrases (content message) = [p] ->
        stored_count files (log_file (guild message)) p = 0%Z ->
        frequency
          (check_misinformation_patterns
             (Nat.iter n (query_then_record py_hash now message (JObj d)) files)
             (content message) (guild message))
        = Z.of_nat n).
Proof.
  split; [apply check_frequency |].
  rewrite check_is_recurring. split; [apply bool_decide_eq_true |].
  split; [| split].
  - intros ->. done.
  - intros ->. done.
  - intros py_hash now message d g p n Hg Hg0 Hp H0.
    rewrite (check_frequency_one _ _ p) by done.
    rewrite Hg, pattern_file_guild, <- Hg by done.
    rewrite record_n_times by done. lia.
Qed.

Example three_recordings_in_a_guild :
  frequency
    (check_misinformation_patterns
       (Nat.iter 3 (query_then_record some_hash 10 flat_earth scenario_A) ∅)
       (content flat_earth) (guild flat_earth))
  = 3%Z.
Proof.
  refine (proj2 (proj2 (proj2 (proj2
    (frequency_is_sum_of_counts ∅ (content flat_earth) (guild flat_earth)))))
    some_hash 10%Z flat_earth _ 1001%Z "earth flat" 3 _ _ _ _).
  - reflexivity.
  - lia.
  - vm_compute. reflexivity.
  - reflexivity.
Qed.

Example recurring_flips_at_three :
  (λ n, is_recurring
          (check_misinformation_patterns
             (Nat.iter n (query_then_record some_hash 10 flat_earth scenario_A) ∅)
             (content flat_earth) (guild flat_earth))) <$> [0; 1; 2; 3; 4]
  = [false; false; false; true; true].
Proof. vm_compute. reflexivity. Qed.

(** In a direct message the query reads [data/patterns.json] while the log
    writes [data/community_patterns_dm.json]: what is recorded there is not
    seen by the next query. *)
Example dm_query_reads_another_file :
  pattern_file None ≠ log_file None
  /\ frequency
       (check_misinformation_patterns
          (Nat.iter 3 (query_then_record some_hash 10 flat_earth_dm scenario_A) ∅)
          (content flat_earth_dm) (guild flat_earth_dm))
     = 0%Z.
Proof. split; [discriminate | vm_compute; reflexivity]. Qed.

Lemma recordings_leave_other_files (py_hash : string -> Z) (now : Z)
    (message : Message) (d : list (string * JVal)) (name : string) (n : nat)
    (files : gmap string PatternFile) :
  name ≠ log_file (guild message) ->
  Nat.iter n (query_then_record py_hash now message (JObj d)) files !! name
  = files !! name.
Proof.
  intros Hne. induction n as [|n IH]; [done|].
  rewrite Nat.iter_succ. unfold query_then_record at 1, log_misinformation_event.
  cbn [make_event get mbind res_bind]. by rewrite lookup_insert_ne.
Qed.

(** C5. Recording a phrase [n] times does not yield frequency [n] on the
    next query when the message is a direct message.  There the log writes
    [data/community_patterns_dm.json] and the query reads
    [data/patterns.json]: after a message with the single key phrase [p],
    not yet recorded, was recorded [n] times, the log's file holds the
    count [n] for [p], and the next query still returns the frequency it
    returned before the first recording; on files that hold nothing yet
    that is 0, where the claim says [n].  In a guild the two files are the
    same one and the frequency is [n] ([frequency_is_sum_of_counts]). *)
Theorem C5_dm_recordings_are_not_queried (py_hash : string -> Z) (now : Z)
    (message : Message) (d : list (string * JVal)) (p : string) (n : nat)
    (files : gmap string PatternFile) :
  guild message = None ->
  extract_key_phrases (content message) = [p] ->
  stored_count files (log_file (guild message)) p = 0%Z ->
  stored_count (Nat.iter n (query_then_record py_hash now message (JObj d)) files)
    (log_file (guild message)) p
  = Z.of_nat n
  /\ frequency
       (check_misinformation_patterns
          (Nat.iter n (query_then_record py_hash now message (JObj d)) files)
          (content message) (guild message))
     = frequency
         (check_misinformation_patterns files (content message) (guild message))
  /\ frequency
       (check_misinformation_patterns
          (Nat.iter n (query_then_record py_hash now message (JObj d)) ∅)
          (content message) (guild message))
     = 0%Z.
Proof.
  intros Hdm Hp H0.
  assert (pattern_file (guild message) ≠ log_file (guild message)) as Hne.
  { rewrite Hdm. discriminate. }
  split; [| split].
  - rewrite (record_n_times py_hash now message d p Hp). lia.
  - rewrite !check_frequency.
    by rewrite recordings_leave_other_files.
  - rewrite check_frequency, recordings_leave_other_files by done.
    rewrite lookup_empty, Hp. cbn. by rewrite lookup_empty.
Qed.

Lemma C5_dm_recordings_are_not_queried_witness :
  stored_count
    (Nat.iter 3 (query_then_record some_hash 10 flat_earth_dm scenario_A) ∅)
    (log_file None) "earth flat"
  = 3%Z
  /\ frequency
       (check_misinformation_patterns
          (Nat.iter 3 (query_then_record some_hash 10 flat_earth_dm scenario_A) ∅)
          (content flat_earth_dm) None)
     = 0%Z.
Proof.
  refine ((λ H, conj (proj1 H) (proj2 (proj2 H)))
            (C5_dm_recordings_are_not_queried some_hash 10%Z flat_earth_dm
               [("truthiness_percentage", JNum 30); ("confidence", JNum (8 # 10));
                ("urgency_level", JStr "high")]
               "earth flat" 3 ∅ _ _ _)).
  - reflexivity.
  - vm_compute. reflexivity.
  - reflexivity.
Defined.

(** ** Strings: a final question mark survives [strip] *)

Lemma append_cons (c : ascii) (s t : string) : String c s +:+ t = String c (s +:+ t).
Proof. reflexivity. Qed.

Lemma append_nil_l (t : string) : "" +:+ t = t.
Proof. reflexivity. Qed.

Lemma append_nil_r (s : string) : s +:+ "" = s.
Proof. induction s as [|c s IH]; [done|]. by rewrite append_cons, IH. Qed.

Lemma append_assoc (s t u : string) : (s +:+ t) +:+ u = s +:+ (t +:+ u).
Proof. induction s as [|c s IH]; [done|]. by rewrite !append_cons, IH. Qed.

Lemma rev_app_append (s1 s2 s3 : string) :
  String.rev_app s1 (s2 +:+ s3) = String.rev_app s1 s2 +:+ s3.
Proof.
  revert s2. induction s1 as [|c s1 IH]; intros s2; cbn; [done|].
  by rewrite <- IH.
Qed.

Lemma rev_cons (c : ascii) (s : string) :
  String.rev (String c s) = String.rev s +:+ String c "".
Proof. unfold String.rev. cbn. by rewrite <- rev_app_append. Qed.

Lemma rev_append (s t : string) :
  String.rev (s +:+ t) = String.rev t +:+ String.rev s.
Proof.
  induction s as [|c s IH].
  - by rewrite append_nil_r.
  - by rewrite append_cons, !rev_cons, IH, append_assoc.
Qed.

Lemma rev_rev (s : string) : String.rev (String.rev s) = s.
Proof.
  induction s as [|c s IH]; [done|]. by rewrite rev_cons, rev_append, IH.
Qed.

Lemma prefix_qmark (x : string) :
  String.prefix "?" x = true <-> exists x', x = String "?" x'.
Proof.
  destruct x as [|a x].
  - split; [discriminate | by intros [x' ?]].
  - change (String.prefix "?" (String a x))
      with (if ascii_dec "?" a then String.prefix "" x else false).
    destruct (ascii_dec "?" a) as [<-|Hne].
    + split; [by exists x | by destruct x].
    + split; [discriminate | intros [x' [= ? ?]]; congruence].
Qed.

Lemma lstrip_keeps_final_qmark (s : string) :
  String.prefix "?" (String.rev s) = true ->
  String.prefix "?" (String.rev (PyStr.lstrip s)) = true.
Proof.
  induction s as [|c s IH]; [done|]. cbn [PyStr.lstrip].
  destruct (PyStr.isspace c) eqn:Hc; [| done].
  intros H. apply IH. revert H. rewrite rev_cons.
  destruct s as [|c' s].
  - intros [x' [= -> _]]%prefix_qmark. discriminate Hc.
  - rewrite !prefix_qmark. rewrite (rev_cons c' s).
    destruct (String.rev s) as [|a r]; rewrite ?append_nil_l, ?append_cons;
      intros [x' [= -> _]]; eauto.
Qed.

Lemma lstrip_qmark (x : string) :
  String.prefix "?" x = true -> PyStr.lstrip x = x.
Proof. intros [x' ->]%prefix_qmark. reflexivity. Qed.

Lemma strip_keeps_final_qmark (s : string) :
  PyStr.endswith s "?" = true -> PyStr.endswith (PyStr.strip s) "?" = true.
Proof.
  unfold PyStr.endswith, PyStr.strip, PyStr.rstrip. change (String.rev "?") with "?".
  intros H%lstrip_keeps_final_qmark. by rewrite rev_rev, lstrip_qmark.
Qed.

(** ** The automatic check as a whole *)

Section HandlerFacts.

Variable client : Client.
Variable json_loads : string -> option JVal.
Variable py_hash : string -> Z.

Abbreviation handle := (handle_automatic_misinformation_check client json_loads py_hash).
Abbreviation analysis_of env message := (analyze_message client json_loads env message).1.
Abbreviation calls_of env message :=
  (EHistory :: (EProviderCall <$> (analyze_message client json_loads env message).2)).
Abbreviation decision_of env message :=
  (should_alert Config.AUTO_DETECT_TRUTHINESS_THRESHOLD
     Config.AUTO_DETECT_CONFIDENCE_THRESHOLD (analysis_of env message)).

(** The ways through the handler. *)
Lemma handle_cases (env : Env) (st : State) (message : Message) :
  handle env st message = (st, [])
  \/ exists limits,
       RateLimiter.auto_check_limit (now env) (author_id message) (auto_check_limits st)
       = (true, limits)
       /\ ((decision_of env message ≠ Ok true
            /\ handle env st message
               = ({| rate_limits := rate_limits st; auto_check_limits := limits;
                     files := files st |}, calls_of env message))
           \/ (decision_of env message = Ok true
               /\ render_ok env (analysis_of env message) && reply_ok env = false
               /\ handle env st message
                  = ({| rate_limits := rate_limits st; auto_check_limits := limits;
                        files := files st |},
                     calls_of env message
                     ++ [EPatternQuery (pattern_file (guild message))]))
           \/ (decision_of env message = Ok true
               /\ render_ok env (analysis_of env message) && reply_ok env = true
               /\ handle env st message
                  = ({| rate_limits := rate_limits st; auto_check_limits := limits;
                        files := query_then_record py_hash (now env) message
                                   (analysis_of env message) (files st) |},
                     calls_of env message
                     ++ [EPatternQuery (pattern_file (guild message));
                         EReply (make_alert message (analysis_of env message)
                                   (check_misinformation_patterns (files st)
                                      (content message) (guild message)));
                         EPatternWrite (log_file (guild message))]))).
Proof.
  unfold handle_automatic_misinformation_check.
  case_bool_decide; [by left|].
  destruct (PyStr.contains _ _); [by left|].
  destruct (PyStr.split _) as [|w ws]; [by left|].
  destruct (_ || _); [by left|].
  destruct (RateLimiter.auto_check_limit _ _ _) as [[] limits]; [| by left].
  right. exists limits. split; [done|].
  destruct (analyze_message client json_loads env message) as [analysis tr] eqn:Ha.
  cbn [fst snd].
  destruct (should_alert _ _ analysis) as [[]|] eqn:Hd.
  - destruct (render_ok env analysis && reply_ok env) eqn:Hr.
    + right. right. done.
    + right. left. done.
  - left. done.
  - left. done.
Qed.

End HandlerFacts.

(** C10. A message whose content contains "http" in any letter case, whose
    first word is a question word, or whose content ends with a question
    mark, leaves the automatic check as it found it: no provider is called,
    no auto-check timestamp is stored, no pattern file is read or written,
    no alert is sent. *)
Theorem C10_links_and_questions_are_skipped (client : Client)
    (json_loads : string -> option JVal) (py_hash : string -> Z)
    (env : Env) (st : State) (message : Message) :
  PyStr.contains "http" (PyStr.lower (content message)) = true
  \/ (exists w ws, PyStr.split (PyStr.strip (content message)) = w :: ws
                  /\ PyStr.lower w ∈ question_words)
  \/ PyStr.endswith (content message) "?" = true ->
  handle_automatic_misinformation_check client json_loads py_hash env st message
  = (st, []).
Proof.
  intros H. unfold handle_automatic_misinformation_check.
  case_bool_decide; [done|].
  destruct (PyStr.contains _ _) eqn:Hhttp; [done|].
  destruct (PyStr.split _) as [|w ws] eqn:Hsplit; [done|].
  destruct H as [H | [(w' & ws' & [= <- <-] & Hq) | H]].
  - discriminate.
  - by rewrite bool_decide_eq_true_2.
  - by rewrite (strip_keeps_final_qmark _ H), orb_true_r.
Qed.

Lemma C10_links_and_questions_are_skipped_witness :
  handle_automatic_misinformation_check all_clients Json.loads some_hash
    alarming_env fresh with_link = (fresh, [])
  /\ handle_automatic_misinformation_check all_clients Json.loads some_hash
       alarming_env fresh asking = (fresh, [])
  /\ handle_automatic_misinformation_check all_clients Json.loads some_hash
       alarming_env fresh wondering = (fresh, []).
Proof.
  split; [| split]; apply C10_links_and_questions_are_skipped.
  - left. reflexivity.
  - right. left. exists "Is", ["the"; "earth"; "really"; "flat"; "or"; "not"].
    split; [reflexivity |]. vm_compute. repeat constructor.
  - right. right. reflexivity.
Defined.

(** The same statement without link or question mark does set off an alert. *)
Example flat_earth_alerts :
  exists st alert,
    handle_automatic_misinformation_check all_clients Json.loads some_hash
      alarming_env fresh flat_earth
    = (st, [EHistory; EProviderCall PawanOsman;
            EPatternQuery (pattern_file (Some 1001%Z)); EReply alert;
            EPatternWrite (log_file (Some 1001%Z))])
    /\ stored_count (files st) (log_file (Some 1001%Z)) "earth flat" = 1%Z.
Proof. do 2 eexists. split; vm_compute; reflexivity. Qed.

(** ** What an alert records *)

Lemma occurrences_cons (p a : string) (phrases : list string) :
  occurrences p (a :: phrases)
  = if decide (p = a) then S (occurrences p phrases) else occurrences p phrases.
Proof. unfold occurrences. rewrite filter_cons. by case_decide. Qed.

Lemma entry_record_phrase_eq (snippet : string) (cl : gmap string ClaimEntry)
    (p : string) :
  entry_or_new (record_phrase snippet cl p) p
  = {| count := (count (entry_or_new cl p) + 1)%Z;
       examples := if bool_decide (length (examples (entry_or_new cl p)) < 5)
                   then examples (entry_or_new cl p) ++ [snippet]
                   else examples (entry_or_new cl p) |}.
Proof. unfold record_phrase, entry_or_new at 1. by rewrite lookup_insert_eq. Qed.

Lemma entry_record_phrase_ne (snippet : string) (cl : gmap string ClaimEntry)
    (p a : string) :
  p ≠ a -> entry_or_new (record_phrase snippet cl a) p = entry_or_new cl p.
Proof.
  intros Hne. unfold record_phrase, entry_or_new at 1.
  by rewrite lookup_insert_ne.
Qed.

(** The loop "Update patterns" adds to a phrase's count the number of its
    occurrences among the key phrases, and appends the snippet once per
    occurrence while fewer than 5 examples are stored. *)
Lemma record_phrases_entry (snippet : string) (phrases : list string) :
  forall (cl : gmap string ClaimEntry) (p : string),
  count (entry_or_new (foldl (record_phrase snippet) cl phrases) p)
  = (count (entry_or_new cl p) + Z.of_nat (occurrences p phrases))%Z
  /\ examples (entry_or_new (foldl (record_phrase snippet) cl phrases) p)
     = examples (entry_or_new cl p)
       ++ replicate (occurrences p phrases `min` (5 - length (examples (entry_or_new cl p))))
            snippet.
Proof.
  induction phrases as [|a phrases IH]; intros cl p.
  - cbn. rewrite app_nil_r. split; [lia | done].
  - cbn [foldl]. destruct (IH (record_phrase snippet cl a) p) as [-> ->].
    rewrite occurrences_cons. case_decide as Hpa.
    + subst a. rewrite entry_record_phrase_eq. cbn [count examples].
      split; [lia|]. case_bool_decide as Hlen.
      * rewrite length_app. cbn [length].
        replace (S (occurrences p phrases) `min` (5 - length (examples (entry_or_new cl p))))
          with (S (occurrences p phrases `min` (5 - (length (examples (entry_or_new cl p)) + 1))))
          by lia.
        by rewrite <- app_assoc.
      * replace (5 - length (examples (entry_or_new cl p))) with 0 by lia.
        by rewrite !Nat.min_0_r.
    + by rewrite entry_record_phrase_ne.
Qed.

Lemma should_alert_obj (tthr cthr : Q) (analysis : JVal) :
  should_alert tthr cthr analysis = Ok true -> exists d, analysis = JObj d.
Proof.
  intros H. destruct analysis; eauto; exfalso; revert H;
    unfold should_alert; cbn; repeat case_match; discriminate.
Qed.

Section EventFacts.

Variable py_hash : string -> Z.
Variable now : Z.
Variable message : Message.
Variable d : list (string * JVal).
Variable pattern_info : PatternInfo.
Variable files : gmap string PatternFile.

Lemma make_event_obj :
  make_event py_hash now message (JObj d) pattern_info
  = Ok (event_of_dict py_hash now message d pattern_info).
Proof. reflexivity. Qed.

Lemma log_lookup :
  log_misinformation_event py_hash now message (JObj d) pattern_info files
    !! log_file (guild message)
  = Some {| claims := foldl (record_phrase (PyStr.take 100 (content message)))
                        (claims (default no_patterns (files !! log_file (guild message))))
                        (key_phrases pattern_info);
            events := append_event (event_of_dict py_hash now message d pattern_info)
                        (events (default no_patterns (files !! log_file (guild message)))) |}.
Proof.
  unfold log_misinformation_event. rewrite make_event_obj. by rewrite lookup_insert_eq.
Qed.

End EventFacts.

(** C9, as the code has it. The event persisted for an alert stores the
    author's user id itself, as the decimal string [str(message.author.id)],
    from which the id is read back; what is hashed is the message content,
    reduced modulo 10000.  The event is the last of the community's log. *)
Theorem C9_event_stores_the_user_id (py_hash : string -> Z) (now : Z)
    (message : Message) (d : list (string * JVal)) (pattern_info : PatternInfo)
    (files : gmap string PatternFile) :
  exists ev,
    make_event py_hash now message (JObj d) pattern_info = Ok ev
    /\ ev_user_id ev = pretty (author_id message)
    /\ (forall other : Message,
          pretty (author_id other) = ev_user_id ev -> author_id other = author_id message)
    /\ ev_content_hash ev = (py_hash (content message) mod 10000)%Z
    /\ (0 <= ev_content_hash ev < 10000)%Z
    /\ (last ∘ events) <$>
         (log_misinformation_event py_hash now message (JObj d) pattern_info files
            !! log_file (guild message))
       = Some (Some ev).
Proof.
  exists (event_of_dict py_hash now message d pattern_info).
  split; [apply make_event_obj |]. split; [done |]. split; [| split; [done | split]].
  - intros other H. cbn in H. by apply (inj pretty) in H.
  - cbn. by apply Z.mod_pos_bound.
  - rewrite log_lookup. cbn. f_equal. unfold append_event.
    case_bool_decide.
    + rewrite drop_app_le by (rewrite length_app in *; cbn in *; lia).
      apply last_snoc.
    + apply last_snoc.
Qed.

(** C9, as stated, fails: the identity stored in the event of an alert is
    the author's raw user id. *)
Lemma C9_counterexample :
  ~ (forall (py_hash : string -> Z) now message analysis pattern_info ev,
       make_event py_hash now message analysis pattern_info = Ok ev ->
       ev_user_id ev ≠ pretty (author_id message)).
Proof.
  intros H.
  by apply (H some_hash 10%Z flat_earth scenario_A
              (check_misinformation_patterns ∅ (content flat_earth) (guild flat_earth))
              _ eq_refl).
Qed.

Example event_of_flat_earth :
  exists ev,
    make_event some_hash 10 flat_earth scenario_A
      (check_misinformation_patterns ∅ (content flat_earth) (guild flat_earth)) = Ok ev
    /\ author_id flat_earth = 42%Z /\ ev_user_id ev = "42".
Proof. eexists. split; [reflexivity |]. split; vm_compute; reflexivity. Qed.

Lemma C9_event_stores_the_user_id_witness :
  exists ev,
    make_event some_hash 10 flat_earth scenario_A
      (check_misinformation_patterns ∅ (content flat_earth) (guild flat_earth)) = Ok ev
    /\ ev_user_id ev = "42"
    /\ (pretty (author_id flat_earth_dm) = ev_user_id ev ->
        author_id flat_earth_dm = author_id flat_earth).
Proof.
  destruct (C9_event_stores_the_user_id some_hash 10%Z flat_earth
              [("truthiness_percentage", JNum 30); ("confidence", JNum (8 # 10));
               ("urgency_level", JStr "high")]
              (check_misinformation_patterns ∅ (content flat_earth) (guild flat_earth))
              ∅) as (ev & Hev & Hid & Hback & _).
  exists ev. split; [exact Hev |]. split; [| apply Hback].
  rewrite Hid. vm_compute. reflexivity.
Defined.

(** ** The pattern store in the automatic check *)

Section AlertFacts.

Variable client : Client.
Variable json_loads : string -> option JVal.
Variable py_hash : string -> Z.

Lemma reply_not_in_calls (alert : Alert) (tr : list Provider) :
  EReply alert ∉ EHistory :: (EProviderCall <$> tr).
Proof.
  intros [H|H]%elem_of_cons; [discriminate|].
  by apply list_elem_of_fmap in H as (p & H & _).
Qed.

Lemma query_not_in_calls (file : string) (tr : list Provider) :
  EPatternQuery file ∉ EHistory :: (EProviderCall <$> tr).
Proof.
  intros [H|H]%elem_of_cons; [discriminate|].
  by apply list_elem_of_fmap in H as (p & H & _).
Qed.

(** An alert recorded: the change of each phrase's entry in the log file. *)
Lemma query_then_record_entry (now : Z) (message : Message)
    (d : list (string * JVal)) (files : gmap string PatternFile) (p : string) :
  let before := entry_or_new
                  (claims (default no_patterns (files !! log_file (guild message)))) p in
  let after := entry_or_new
                 (claims (default no_patterns
                            (query_then_record py_hash now message (JObj d) files
                               !! log_file (guild message)))) p in
  let k := occurrences p (extract_key_phrases (content message)) in
  count after = (count before + Z.of_nat k)%Z
  /\ examples after
     = examples before
       ++ replicate (k `min` (5 - length (examples before)))
            (PyStr.take 100 (content message)).
Proof.
  unfold query_then_record. rewrite log_lookup. cbn [default claims].
  rewrite check_key_phrases. apply record_phrases_entry.
Qed.

End AlertFacts.

(** C6, as the code has it. The pattern store is read only once the two
    thresholds have decided for an alert, and written only after the alert
    was sent: then the query precedes the reply, the record follows it, and
    for each key phrase of the message the count in the community's log
    file grows by the number of its occurrences and the first 100
    characters of the message are appended as an example while fewer than
    5 are stored (an entry holds a count and examples, nothing else).  A
    run that sends no alert leaves every pattern file as it was. *)
Theorem C6_pattern_store_follows_the_alert (client : Client)
    (json_loads : string -> option JVal) (py_hash : string -> Z)
    (env : Env) (st : State) (message : Message) :
  let r := handle_automatic_misinformation_check client json_loads py_hash env st message in
  let analysis := (analyze_message client json_loads env message).1 in
  let calls := EHistory :: (EProviderCall <$> (analyze_message client json_loads env message).2) in
  let decision := should_alert Config.AUTO_DETECT_TRUTHINESS_THRESHOLD
                    Config.AUTO_DETECT_CONFIDENCE_THRESHOLD analysis in
  (forall alert, EReply alert ∈ r.2 ->
     decision = Ok true
     /\ r.2 = calls ++ [EPatternQuery (pattern_file (guild message)); EReply alert;
                        EPatternWrite (log_file (guild message))]
     /\ files r.1 = query_then_record py_hash (now env) message analysis (files st)
     /\ forall p,
          let before := entry_or_new
                          (claims (default no_patterns
                                     (files st !! log_file (guild message)))) p in
          let after := entry_or_new
                         (claims (default no_patterns
                                    (files r.1 !! log_file (guild message)))) p in
          let k := occurrences p (extract_key_phrases (content message)) in
          count after = (count before + Z.of_nat k)%Z
          /\ examples after
             = examples before
               ++ replicate (k `min` (5 - length (examples before)))
                    (PyStr.take 100 (content message)))
  /\ ((forall alert, EReply alert ∉ r.2) -> files r.1 = files st)
  /\ (forall file, EPatternQuery file ∈ r.2 -> decision = Ok true).
Proof.
  intros r analysis calls decision.
  destruct (handle_cases client json_loads py_hash env st message)
    as [Hr | (limits & _ & [[Hd Hr] | [(Hd & _ & Hr) | (Hd & _ & Hr)]])];
    subst r; rewrite Hr; cbn [fst snd]; fold analysis calls.
  - split; [| split]; [intros alert H | done | intros file H]; by apply elem_of_nil in H.
  - split; [| split]; [intros alert H | done | intros file H].
    + by apply reply_not_in_calls in H.
    + by apply query_not_in_calls in H.
  - split; [| split]; [intros alert H | done | done].
    apply elem_of_app in H as [H|H]; [by apply reply_not_in_calls in H |].
    by apply list_elem_of_singleton in H.
  - split; [| split]; [intros alert H | | done].
    + apply elem_of_app in H as [H|H]; [by apply reply_not_in_calls in H |].
      apply elem_of_cons in H as [H|H]; [discriminate|].
      apply elem_of_cons in H as [[= ->]|H];
        [| by apply list_elem_of_singleton in H].
      split; [done|]. split; [done|]. split; [done|].
      destruct (should_alert_obj _ _ _ Hd) as [d Hobj]. fold analysis in Hobj.
      rewrite Hobj. intros p. apply query_then_record_entry.
    + intros H. exfalso. eapply H. apply elem_of_app. right.
      apply elem_of_cons. right. by left.
Qed.

Lemma C6_pattern_store_follows_the_alert_witness :
  files (handle_automatic_misinformation_check all_clients Json.loads some_hash
           alarming_env fresh flat_earth).1
  = query_then_record some_hash (now alarming_env) flat_earth
      (analyze_message all_clients Json.loads alarming_env flat_earth).1 (files fresh).
Proof.
  refine (proj1 (proj2 (proj2 (proj1
    (C6_pattern_store_follows_the_alert all_clients Json.loads some_hash
       alarming_env fresh flat_earth)
    (make_alert flat_earth
       (analyze_message all_clients Json.loads alarming_env flat_earth).1
       (check_misinformation_patterns ∅ (content flat_earth) (guild flat_earth)))
    _)))).
  vm_compute. do 3 right. left.
Defined.

(** C6, as stated, fails: a message passes the rate limit, the first provider
    returns an analysis that finds it credible, and the run ends without
    reading or writing a pattern file, though the message has key phrases. *)
Lemma C6_counterexample :
  ~ (forall client json_loads py_hash env st message,
       EHistory
         ∈ (handle_automatic_misinformation_check client json_loads py_hash env st
              message).2 ->
       truthy (analyze_message client json_loads env message).1 = true ->
       EPatternQuery (pattern_file (guild message))
         ∈ (handle_automatic_misinformation_check client json_loads py_hash env st
              message).2
       /\ forall p, p ∈ extract_key_phrases (content message) ->
            (stored_count (files st) (log_file (guild message)) p
             < stored_count
                 (files (handle_automatic_misinformation_check client json_loads
                           py_hash env st message).1)
                 (log_file (guild message)) p)%Z).
Proof.
  intros H.
  destruct (H all_clients Json.loads some_hash credible_env fresh boiling) as [Hq _].
  - vm_compute. left.
  - vm_compute. reflexivity.
  - vm_compute in Hq.
    apply elem_of_cons in Hq as [Hq|Hq]; [discriminate|].
    apply elem_of_cons in Hq as [Hq|Hq]; [discriminate|].
    by apply elem_of_nil in Hq.
Qed.

Example credible_message_leaves_the_store :
  handle_automatic_misinformation_check all_clients Json.loads some_hash
    credible_env fresh boiling
  = ({| rate_limits := ∅;
        auto_check_limits := {[ "42" := [1000000000%Z] ]};
        files := ∅ |},
     [EHistory; EProviderCall PawanOsman])
  /\ extract_key_phrases (content boiling)
     = ["water boils"; "water boils degrees"; "boils degrees";
        "boils degrees level"; "degrees level"].
Proof. split; vm_compute; reflexivity. Qed.

(** * Further properties of the code *)

Import AIClientMore Dispatch Trends ExMore.

(** ** RateLimiter: the window a call leaves behind *)

Lemma purge_inside (window now : Z) (l : list Z) :
  Forall (λ ts, (now - ts < window)%Z) (RateLimiter.purge window now l).
Proof.
  apply Forall_forall. intros ts Hts. unfold RateLimiter.purge in Hts.
  by apply list_elem_of_filter in Hts as [Hts _].
Qed.

Lemma purge_length (window now : Z) (l : list Z) :
  length (RateLimiter.purge window now l) ≤ length l.
Proof. apply length_filter. Qed.

(** X1. After an admitted call at [now], with a window that is not empty,
    the identity's stored timestamps are all newer than [now - window],
    end with [now] and number at most [maxEvents]; the timestamps of every
    other identity are what they were.  A refused call changes nothing. *)
Theorem X1_window_after_a_call (window : Z) (maxEvents : nat) (now user_id : Z)
    (limits limits' : gmap string (list Z)) (ok : bool) :
  (0 < window)%Z ->
  RateLimiter.check window maxEvents now user_id limits = (ok, limits') ->
  (ok = true ->
     Forall (λ ts, (now - ts < window)%Z) (default [] (limits' !! pretty user_id))
     /\ last (default [] (limits' !! pretty user_id)) = Some now
     /\ length (default [] (limits' !! pretty user_id)) ≤ maxEvents)
  /\ (ok = false -> limits' = limits)
  /\ (forall other : Z, other ≠ user_id ->
        limits' !! pretty other = limits !! pretty other).
Proof.
  intros Hw Hc.
  destruct (decide (maxEvents ≤ length (RateLimiter.purge window now
                                          (default [] (limits !! pretty user_id)))))
    as [Hfull|Hroom].
  - rewrite check_refused in Hc by done. injection Hc as <- <-.
    split; [discriminate|]. split; done.
  - rewrite check_admitted in Hc by lia. injection Hc as <- <-.
    split; [| split; [discriminate|]].
    + intros _. rewrite lookup_insert_eq. cbn.
      split; [| split].
      * apply Forall_app. split; [apply purge_inside|].
        apply Forall_singleton. lia.
      * apply last_snoc.
      * rewrite length_app. cbn. lia.
    + intros other Hne. apply lookup_insert_ne. intros H.
      by apply (inj pretty) in H.
Qed.

Lemma X1_window_after_a_call_witness :
  Forall (λ ts, (5000000 - ts < 60000000)%Z)
    (default [] ((RateLimiter.check_rate_limit 5000000 43 after_burst).2 !! pretty 43%Z))
  /\ (RateLimiter.check_rate_limit 5000000 43 after_burst).2 !! pretty 42%Z
     = after_burst !! pretty 42%Z.
Proof.
  pose proof (X1_window_after_a_call 60000000 5 5000000 43 after_burst
                (RateLimiter.check_rate_limit 5000000 43 after_burst).2 true
                ltac:(lia) ltac:(vm_compute; reflexivity)) as (Hok & _ & Hother).
  split.
  - apply (Hok eq_refl).
  - apply Hother. lia.
Defined.

(** ** The dispatch of incoming messages *)

Lemma handle_keeps_rate_limits (client : Client) (json_loads : string -> option JVal)
    (py_hash : string -> Z) (env : Env) (st : State) (message : Message) :
  rate_limits (handle_automatic_misinformation_check client json_loads py_hash
                 env st message).1
  = rate_limits st.
Proof.
  destruct (handle_cases client json_loads py_hash env st message)
    as [Hr | (limits & _ & [[_ Hr] | [(_ & _ & Hr) | (_ & _ & Hr)]])];
    by rewrite Hr.
Qed.

(** X2. [on_message] ignores the bot's own messages.  A reply that mentions
    the bot, or a message starting with the command prefix, never starts
    the automatic check: it leaves the auto-check timestamps and the
    pattern files as they were and ends in one notice or one hand-over.
    The automatic check is started only for a message that is not a
    command and has more than 20 characters once stripped, and it leaves
    the command limiter as it was. *)
Theorem X2_on_message_routing (client : Client) (json_loads : string -> option JVal)
    (py_hash : string -> Z) (env : Env) (st : State) (inc : Incoming) :
  (from_self inc = true ->
     on_message client json_loads py_hash env st inc = (st, []))
  /\ (from_self inc = false ->
      mentions_bot inc && is_reply inc
      || PyStr.startswith (content (inc_message inc)) COMMAND_PREFIX = true ->
      auto_check_limits (on_message client json_loads py_hash env st inc).1
      = auto_check_limits st
      /\ files (on_message client json_loads py_hash env st inc).1 = files st
      /\ (on_message client json_loads py_hash env st inc).2
         ∈ [[ASend TooManyRequests]; [ASend TooManyCommands];
            [AReplyFactCheck]; [AProcessCommands]])
  /\ (forall effects,
        AAutomatic effects ∈ (on_message client json_loads py_hash env st inc).2 ->
        rate_limits (on_message client json_loads py_hash env st inc).1
        = rate_limits st
        /\ 20 < PyStr.len (PyStr.strip (content (inc_message inc)))
        /\ PyStr.startswith (content (inc_message inc)) COMMAND_PREFIX = false
        /\ handle_automatic_misinformation_check client json_loads py_hash env st
             (inc_message inc)
           = ((on_message client json_loads py_hash env st inc).1, effects)).
Proof.
  unfold on_message. split; [by intros -> |]. split.
  - intros -> Hroute. destruct (mentions_bot inc && is_reply inc).
    + destruct (RateLimiter.check_rate_limit _ _ _) as [[] limits]; cbn;
        (split; [done|]); (split; [done|]); set_solver.
    + cbn in Hroute. rewrite Hroute.
      destruct (RateLimiter.check_rate_limit _ _ _) as [[] limits]; cbn;
        (split; [done|]); (split; [done|]); set_solver.
  - intros effects. destruct (from_self inc); [by intros ?%elem_of_nil|].
    destruct (mentions_bot inc && is_reply inc).
    { destruct (RateLimiter.check_rate_limit _ _ _) as [[] limits]; cbn;
        by intros [=]%list_elem_of_singleton. }
    destruct (PyStr.startswith _ _) eqn:Hcmd.
    { destruct (RateLimiter.check_rate_limit _ _ _) as [[] limits]; cbn;
        by intros [=]%list_elem_of_singleton. }
    destruct (_ && _) eqn:Hauto; [| by intros ?%elem_of_nil].
    apply andb_true_iff in Hauto as [_ Hlen]. apply bool_decide_eq_true in Hlen.
    pose proof (handle_keeps_rate_limits client json_loads py_hash env st
                  (inc_message inc)) as Hkeep.
    destruct (handle_automatic_misinformation_check _ _ _ _ _ _) as [st' effects'].
    cbn. intros [= ->]%list_elem_of_singleton. done.
Qed.

(** X3. A command, or a reply mentioning the bot, from a user who already
    has 5 stored timestamps less than a minute old is answered by the
    notice alone and changes nothing; with fewer, it is handed over and
    the present instant is stored behind the kept timestamps. *)
Theorem X3_rate_limited_command (client : Client) (json_loads : string -> option JVal)
    (py_hash : string -> Z) (env : Env) (st : State) (inc : Incoming) :
  from_self inc = false ->
  mentions_bot inc && is_reply inc
  || PyStr.startswith (content (inc_message inc)) COMMAND_PREFIX = true ->
  let kept := RateLimiter.purge 60000000 (now env)
                (default [] (rate_limits st !! pretty (author_id (inc_message inc)))) in
  (5 ≤ length kept ->
     on_message client json_loads py_hash env st inc
     = (st, [ASend (if mentions_bot inc && is_reply inc
                    then TooManyRequests else TooManyCommands)]))
  /\ (length kept < 5 ->
      on_message client json_loads py_hash env st inc
      = (with_limits (<[pretty (author_id (inc_message inc)) := kept ++ [now env]]>
                  (rate_limits st)) st,
         [if mentions_bot inc && is_reply inc
          then AReplyFactCheck else AProcessCommands])).
Proof.
  intros Hself Hroute kept. unfold on_message. rewrite Hself.
  rewrite check_rate_limit_unfold.
  split; intros Hkept.
  - rewrite check_refused by done.
    destruct (mentions_bot inc && is_reply inc); [done|].
    cbn in Hroute. by rewrite Hroute.
  - rewrite check_admitted by done. fold kept.
    destruct (mentions_bot inc && is_reply inc); [done|].
    cbn in Hroute. by rewrite Hroute.
Qed.

Lemma X2_on_message_routing_witness :
  auto_check_limits
    (on_message all_clients Json.loads some_hash (alarming_at 5000000) busy
       command_from_42).1 = ∅
  /\ 20 < PyStr.len (PyStr.strip (content flat_earth)).
Proof.
  pose proof (X2_on_message_routing all_clients Json.loads some_hash
                (alarming_at 5000000) busy command_from_42) as (_ & Hcmd & _).
  pose proof (X2_on_message_routing all_clients Json.loads some_hash
                (alarming_at 5000000) fresh (plain_from_42 10 "no, the earth is flat"))
    as (_ & _ & Hauto).
  split.
  - apply (Hcmd eq_refl eq_refl).
  - refine (proj1 (proj2 (Hauto _ _))). vm_compute. left.
Defined.

Lemma X3_rate_limited_command_witness :
  on_message all_clients Json.loads some_hash (alarming_at 5000000) busy
    command_from_42
  = (busy, [ASend TooManyCommands]).
Proof.
  refine (proj1 (X3_rate_limited_command all_clients Json.loads some_hash
                   (alarming_at 5000000) busy command_from_42 eq_refl eq_refl) _).
  vm_compute. lia.
Defined.

(** ** Key phrases *)

Lemma ngrams_contiguous (kws : list string) (p : string) :
  p ∈ ngrams kws ->
  exists pre a b post,
    kws = pre ++ a :: b :: post
    /\ (p = a +:+ " " +:+ b
        \/ exists c post', post = c :: post' /\ p = a +:+ " " +:+ b +:+ " " +:+ c).
Proof.
  induction kws as [|a kws IH]; [by intros ?%elem_of_nil|].
  destruct kws as [|b rest]; [by intros ?%elem_of_nil|].
  cbn [ngrams]. intros [-> | Hp]%elem_of_cons.
  - exists [], a, b, rest. split; [done|]. by left.
  - apply elem_of_app in Hp as [Hp|Hp].
    + destruct rest as [|c rest']; [by apply elem_of_nil in Hp|].
      apply list_elem_of_singleton in Hp as ->.
      exists [], a, b, (c :: rest'). split; [done|]. right. by exists c, rest'.
    + destruct (IH Hp) as (pre & a' & b' & post & Hk & Hshape).
      exists (a :: pre), a', b', post. split; [by rewrite Hk | done].
Qed.

Lemma ngrams_nil (kws : list string) : ngrams kws = [] <-> length kws < 2.
Proof.
  destruct kws as [|a [|b rest]]; cbn; split; try done; lia.
Qed.

(** X4. [extract_key_phrases] returns at most 5 phrases, and none exactly
    when the message has fewer than two keywords; every phrase is two or
    three keywords that follow one another, joined by single spaces; a
    keyword is a word of the lower-cased message that has more than 3
    characters and is no stop word. *)
Theorem X4_key_phrases_are_keyword_ngrams (text : string) :
  length (extract_key_phrases text) ≤ 5
  /\ (extract_key_phrases text = []
      <-> length (filter (λ word, (word ∉ stop_words) /\ 3 < PyStr.len word)
                    (PyStr.split (PyStr.lower text))) < 2)
  /\ Forall (λ p, exists pre a b post,
               filter (λ word, (word ∉ stop_words) /\ 3 < PyStr.len word)
                 (PyStr.split (PyStr.lower text)) = pre ++ a :: b :: post
               /\ (p = a +:+ " " +:+ b
                   \/ exists c post', post = c :: post'
                                      /\ p = a +:+ " " +:+ b +:+ " " +:+ c))
       (extract_key_phrases text)
  /\ Forall (λ word, word ∈ PyStr.split (PyStr.lower text)
                     /\ (word ∉ stop_words) /\ 3 < PyStr.len word)
       (filter (λ word, (word ∉ stop_words) /\ 3 < PyStr.len word)
          (PyStr.split (PyStr.lower text))).
Proof.
  unfold extract_key_phrases.
  set (keywords := filter _ (PyStr.split (PyStr.lower text))).
  split; [rewrite length_take; lia |]. split; [| split].
  - rewrite <- ngrams_nil. destruct (ngrams keywords); cbn; split; done.
  - apply Forall_forall. intros p Hp. apply ngrams_contiguous.
    by eapply subseteq_take.
  - apply Forall_forall. intros word Hw. subst keywords.
    apply list_elem_of_filter in Hw as [[? ?] ?]. done.
Qed.

(** ** The pattern query *)

Lemma match_phrases_similar (cl : gmap string ClaimEntry) (phrases : list string)
    (acc : Z * list string) :
  length (foldl (match_phrase cl) acc phrases).2 ≤ length acc.2 + 2 * length phrases.
Proof.
  revert acc. induction phrases as [|p phrases IH]; intros acc; cbn [foldl length].
  - lia.
  - etrans; [apply IH|]. unfold match_phrase.
    destruct (cl !! p) as [e|]; cbn [snd]; [| lia].
    rewrite length_app, length_take. lia.
Qed.

Lemma check_similar_claims (files : gmap string PatternFile) (text : string)
    (guild_id : option Z) :
  similar_claims (check_misinformation_patterns files text guild_id)
  = (foldl (match_phrase (claims (default no_patterns
                                     (files !! pattern_file guild_id))))
       (0%Z, []) (extract_key_phrases text)).2.
Proof.
  unfold check_misinformation_patterns. by destruct (foldl _ _ _).
Qed.

Lemma sum_counts_nonneg (cl : gmap string ClaimEntry) (phrases : list string) :
  (forall p e, cl !! p = Some e -> (0 <= count e)%Z) ->
  (0 <= foldr Z.add 0%Z (omap (λ p, count <$> cl !! p) phrases))%Z.
Proof.
  intros Hcl. induction phrases as [|p phrases IH]; cbn; [lia|].
  destruct (cl !! p) as [e|] eqn:Hp; cbn; [| done].
  specialize (Hcl p e Hp). lia.
Qed.

(** X5. A pattern query returns at most two similar claims per key phrase,
    so at most 10; and on pattern files within their bounds its frequency
    is never negative. *)
Theorem X5_query_bounds (files : gmap string PatternFile) (text : string)
    (guild_id : option Z) :
  length (similar_claims (check_misinformation_patterns files text guild_id))
  ≤ 2 * length (key_phrases (check_misinformation_patterns files text guild_id))
  /\ length (similar_claims (check_misinformation_patterns files text guild_id)) ≤ 10
  /\ (store_ok files ->
      (0 <= frequency (check_misinformation_patterns files text guild_id))%Z).
Proof.
  rewrite check_similar_claims, check_key_phrases.
  pose proof (match_phrases_similar
                (claims (default no_patterns (files !! pattern_file guild_id)))
                (extract_key_phrases text) (0%Z, [])) as H.
  cbn [snd length] in H.
  assert (length (extract_key_phrases text) ≤ 5) as H5.
  { unfold extract_key_phrases. rewrite length_take. lia. }
  split; [lia|]. split; [lia|].
  intros Hok. rewrite check_frequency. apply sum_counts_nonneg.
  intros p e Hp. destruct (files !! pattern_file guild_id) as [pf|] eqn:Hf.
  - destruct (Hok _ _ Hf) as [_ Hpf]. by destruct (Hpf p e Hp).
  - cbn in Hp. by rewrite lookup_empty in Hp.
Qed.

Lemma store_ok_empty : store_ok ∅.
Proof. intros name pf H. by rewrite lookup_empty in H. Qed.

(** X6. For a message with fewer than two keywords the query finds nothing
    whatever the files hold (frequency 0, not recurring, no similar claim),
    and recording an alert for it leaves every phrase entry of the
    community's file as it was: only the event log grows. *)
Theorem X6_no_key_phrase_no_pattern (py_hash : string -> Z) (now : Z)
    (message : Message) (d : list (string * JVal))
    (files : gmap string PatternFile) :
  length (filter (λ word, (word ∉ stop_words) /\ 3 < PyStr.len word)
            (PyStr.split (PyStr.lower (content message)))) < 2 ->
  check_misinformation_patterns files (content message) (guild message)
  = {| is_recurring := false; frequency := 0; similar_claims := [];
       key_phrases := [] |}
  /\ claims <$> (query_then_record py_hash now message (JObj d) files
                   !! log_file (guild message))
     = Some (claims (default no_patterns (files !! log_file (guild message))))
  /\ (length ∘ events) <$> (query_then_record py_hash now message (JObj d) files
                              !! log_file (guild message))
     = Some (S (length (events (default no_patterns
                                  (files !! log_file (guild message))))) `min` 100).
Proof.
  intros Hfew.
  assert (extract_key_phrases (content message) = []) as Hnone.
  { unfold extract_key_phrases. apply ngrams_nil in Hfew. by rewrite Hfew. }
  assert (check_misinformation_patterns files (content message) (guild message)
          = {| is_recurring := false; frequency := 0; similar_claims := [];
               key_phrases := [] |}) as Hcheck.
  { unfold check_misinformation_patterns. by rewrite Hnone. }
  split; [done|]. unfold query_then_record. rewrite log_lookup, Hcheck. cbn.
  split; [done|]. f_equal.
  rewrite append_event_drop, length_drop, length_app. cbn. lia.
Qed.

Lemma X6_no_key_phrase_no_pattern_witness :
  check_misinformation_patterns ∅ (content one_keyword) (guild one_keyword)
  = {| is_recurring := false; frequency := 0; similar_claims := [];
       key_phrases := [] |}.
Proof.
  refine (proj1 (X6_no_key_phrase_no_pattern some_hash 10%Z one_keyword [] ∅ _)).
  vm_compute. lia.
Defined.

(** ** What the automatic check does to the pattern files *)

Section StoreFacts.

Variable client : Client.
Variable json_loads : string -> option JVal.
Variable py_hash : string -> Z.

(** The files after a run: untouched, or one alert recorded. *)
Lemma handle_files (env : Env) (st : State) (message : Message) :
  files (handle_automatic_misinformation_check client json_loads py_hash env st
           message).1 = files st
  \/ exists d,
       files (handle_automatic_misinformation_check client json_loads py_hash env
                st message).1
       = query_then_record py_hash (now env) message (JObj d) (files st).
Proof.
  destruct (handle_cases client json_loads py_hash env st message)
    as [Hr | (limits & _ & [[_ Hr] | [(_ & _ & Hr) | (Hd & _ & Hr)]])];
    rewrite Hr; cbn [fst files]; try by left.
  right. destruct (should_alert_obj _ _ _ Hd) as [d Hobj].
  exists d. by rewrite Hobj.
Qed.

Lemma record_other_file (now : Z) (message : Message) (d : list (string * JVal))
    (files : gmap string PatternFile) (name : string) :
  name ≠ log_file (guild message) ->
  query_then_record py_hash now message (JObj d) files !! name = files !! name.
Proof.
  intros Hne. unfold query_then_record, log_misinformation_event.
  rewrite make_event_obj. by rewrite lookup_insert_ne.
Qed.

Lemma record_phrases_keeps (snippet : string) (phrases : list string) :
  forall (cl : gmap string ClaimEntry) (p : string),
  is_Some (cl !! p) -> is_Some (foldl (record_phrase snippet) cl phrases !! p).
Proof.
  induction phrases as [|a phrases IH]; intros cl p Hp; [done|].
  cbn [foldl]. apply IH. unfold record_phrase.
  destruct (decide (a = p)) as [->|Hne].
  - rewrite lookup_insert_eq. eauto.
  - by rewrite lookup_insert_ne.
Qed.

Lemma record_never_forgets (now : Z) (message : Message) (d : list (string * JVal))
    (files : gmap string PatternFile) (name p : string) :
  let before := claims (default no_patterns (files !! name)) in
  let after := claims (default no_patterns
                         (query_then_record py_hash now message (JObj d) files !! name)) in
  (count (entry_or_new before p) <= count (entry_or_new after p))%Z
  /\ examples (entry_or_new before p) `prefix_of` examples (entry_or_new after p)
  /\ (is_Some (before !! p) -> is_Some (after !! p)).
Proof.
  intros before after. subst before after.
  destruct (decide (name = log_file (guild message))) as [->|Hne].
  - destruct (query_then_record_entry py_hash now message d files p) as [Hc He].
    cbn zeta in Hc, He. rewrite Hc, He.
    split; [lia|]. split; [by apply prefix_app_r|].
    unfold query_then_record. rewrite log_lookup. cbn [default claims].
    apply record_phrases_keeps.
  - rewrite record_other_file by done. split; [lia|]. done.
Qed.

(** X7. Whatever the message and the answers of the world, the automatic
    check never forgets a pattern: in every pattern file, a phrase's count
    does not decrease, its stored examples stay where they are (new ones
    are only appended), and a phrase that had an entry still has one. *)
Theorem X7_patterns_are_never_forgotten (env : Env) (st : State)
    (message : Message) (name p : string) :
  let before := claims (default no_patterns (files st !! name)) in
  let after :=
    claims (default no_patterns
              (files (handle_automatic_misinformation_check client json_loads
                        py_hash env st message).1 !! name)) in
  (count (entry_or_new before p) <= count (entry_or_new after p))%Z
  /\ examples (entry_or_new before p) `prefix_of` examples (entry_or_new after p)
  /\ (is_Some (before !! p) -> is_Some (after !! p)).
Proof.
  intros before after. subst before after.
  destruct (handle_files env st message) as [-> | [d ->]].
  - split; [lia|]. done.
  - apply record_never_forgets.
Qed.

Lemma file_ok_no_patterns : file_ok no_patterns.
Proof.
  split; [cbn; lia|]. intros p e H. cbn in H. by rewrite lookup_empty in H.
Qed.

Lemma file_ok_default (files : gmap string PatternFile) (name : string) :
  store_ok files -> file_ok (default no_patterns (files !! name)).
Proof.
  intros Hok. destruct (files !! name) as [pf|] eqn:Hf; cbn.
  - by apply (Hok name).
  - apply file_ok_no_patterns.
Qed.

Lemma entry_or_new_Some (cl : gmap string ClaimEntry) (p : string) (e : ClaimEntry) :
  cl !! p = Some e -> entry_or_new cl p = e.
Proof. intros H. unfold entry_or_new. by rewrite H. Qed.

Lemma entry_or_new_ok (cl : gmap string ClaimEntry) (p : string) :
  (forall q e, cl !! q = Some e -> length (examples e) ≤ 5 /\ (0 <= count e)%Z) ->
  length (examples (entry_or_new cl p)) ≤ 5 /\ (0 <= count (entry_or_new cl p))%Z.
Proof.
  intros Hcl. unfold entry_or_new. destruct (cl !! p) as [e|] eqn:Hp; cbn.
  - by apply (Hcl p).
  - lia.
Qed.

Lemma record_keeps_store_ok (now : Z) (message : Message) (d : list (string * JVal))
    (files : gmap string PatternFile) :
  store_ok files -> store_ok (query_then_record py_hash now message (JObj d) files).
Proof.
  intros Hok name pf Hpf.
  destruct (decide (name = log_file (guild message))) as [->|Hne].
  - unfold query_then_record in Hpf. rewrite log_lookup in Hpf.
    apply (inj Some) in Hpf. subst pf.
    destruct (file_ok_default files (log_file (guild message)) Hok) as [Hev Hcl].
    split; cbn [events claims].
    + rewrite append_event_drop, length_drop, length_app. cbn. lia.
    + intros p e Hp.
      destruct (record_phrases_entry (PyStr.take 100 (content message))
                  (key_phrases (check_misinformation_patterns files
                                  (content message) (guild message)))
                  (claims (default no_patterns (files !! log_file (guild message))))
                  p) as [Hc He].
      rewrite (entry_or_new_Some _ _ _ Hp) in Hc, He.
      destruct (entry_or_new_ok _ p Hcl) as [Hlen Hcount].
      rewrite Hc, He, length_app, length_replicate. lia.
  - rewrite record_other_file in Hpf by done. by apply (Hok name).
Qed.

(** X8. The bounds of the pattern files are kept by every run of the
    automatic check: if every file holds at most 100 events, at most 5
    examples per phrase and no negative count, so it does afterwards. *)
Theorem X8_store_bounds_are_kept (env : Env) (st : State) (message : Message) :
  store_ok (files st) ->
  store_ok (files (handle_automatic_misinformation_check client json_loads
                     py_hash env st message).1).
Proof.
  intros Hok. destruct (handle_files env st message) as [-> | [d ->]]; [done|].
  by apply record_keeps_store_ok.
Qed.

End StoreFacts.

Lemma X8_store_bounds_are_kept_witness :
  store_ok (files (handle_automatic_misinformation_check all_clients Json.loads
                     some_hash alarming_env fresh flat_earth).1).
Proof.
  apply X8_store_bounds_are_kept. apply store_ok_empty.
Defined.

(** The query on files that hold a pattern: the count 3 of the phrase is
    summed and two of its examples are returned. *)
Example query_after_three_recordings :
  frequency (check_misinformation_patterns recorded_thrice (content flat_earth)
               (guild flat_earth)) = 3%Z
  /\ similar_claims (check_misinformation_patterns recorded_thrice
                       (content flat_earth) (guild flat_earth))
     = ["no, the earth is flat"; "no, the earth is flat"]
  /\ key_phrases (check_misinformation_patterns recorded_thrice
                    (content flat_earth) (guild flat_earth))
     = ["earth flat"].
Proof. vm_compute. done. Qed.

Lemma X5_query_bounds_witness :
  length (similar_claims (check_misinformation_patterns recorded_thrice
                            (content flat_earth) (guild flat_earth)))
  ≤ 2 * length (key_phrases (check_misinformation_patterns recorded_thrice
                               (content flat_earth) (guild flat_earth)))
  /\ (0 <= frequency (check_misinformation_patterns recorded_thrice
                        (content flat_earth) (guild flat_earth)))%Z.
Proof.
  refine ((λ H, conj (proj1 H) (proj2 (proj2 H) _))
            (X5_query_bounds recorded_thrice (content flat_earth)
               (guild flat_earth))).
  unfold recorded_thrice, scenario_A. rewrite !Nat.iter_succ.
  do 3 apply record_keeps_store_ok. apply store_ok_empty.
Defined.

(** ** One file per community *)

Lemma append_inv_head (p a b : string) : p +:+ a = p +:+ b -> a = b.
Proof.
  induction p as [|c p IH]; [done|]. rewrite !append_cons. intros [= H]. auto.
Qed.

Lemma rev_inj (a b : string) : String.rev a = String.rev b -> a = b.
Proof. intros H. by rewrite <- (rev_rev a), <- (rev_rev b), H. Qed.

Lemma append_inv_tail (a b s : string) : a +:+ s = b +:+ s -> a = b.
Proof.
  intros H. apply rev_inj. apply (append_inv_head (String.rev s)).
  by rewrite <- !rev_append, H.
Qed.

Lemma community_patterns_inj (a b : string) :
  community_patterns a = community_patterns b -> a = b.
Proof.
  unfold community_patterns. intros H%append_inv_head. by apply append_inv_tail in H.
Qed.

(** The decimal rendering of a positive number starts with a digit. *)
Lemma pretty_N_go_head (x : N) :
  forall s, (0 < x)%N ->
  exists d r, pretty_N_go x s = String (pretty_N_char d) r.
Proof.
  induction (N.lt_wf_0 x) as [x _ IH]. intros s Hx.
  rewrite pretty_N_go_step by done.
  destruct (decide (0 < x `div` 10)%N) as [Hdiv|Hdiv].
  - apply IH; [by apply N.div_lt | done].
  - apply N.nlt_ge, N.le_0_r in Hdiv. rewrite Hdiv, pretty_N_go_0. eauto.
Qed.

Lemma pretty_Z_not_dm (g : Z) : pretty g ≠ "dm".
Proof.
  destruct g as [|x|x]; [done| |done].
  unfold pretty, pretty_Z, pretty, pretty_positive, pretty, pretty_N.
  case_decide; [done|].
  destruct (pretty_N_go_head (N.pos x) "" ltac:(lia)) as (d & r & ->).
  intros [= Hd _]. revert Hd. unfold pretty_N_char.
  repeat case_match; discriminate.
Qed.

Lemma log_file_inj (g1 g2 : option Z) : log_file g1 = log_file g2 -> g1 = g2.
Proof.
  unfold log_file. intros H%community_patterns_inj.
  destruct g1 as [g1|], g2 as [g2|]; try done.
  - by apply (inj pretty) in H as ->.
  - by apply pretty_Z_not_dm in H.
  - symmetry in H. by apply pretty_Z_not_dm in H.
Qed.

(** X9. Communities do not share a pattern file: two messages write the
    same file only when they come from the same guild (or both from a DM).
    A run of the automatic check changes no file but the one of the
    message's community, so what a query returns for any other guild is
    what it returned before. *)
Theorem X9_communities_are_isolated (client : Client)
    (json_loads : string -> option JVal) (py_hash : string -> Z)
    (env : Env) (st : State) (message : Message) :
  (forall g1 g2 : option Z, log_file g1 = log_file g2 -> g1 = g2)
  /\ (forall name, name ≠ log_file (guild message) ->
        files (handle_automatic_misinformation_check client json_loads py_hash
                 env st message).1 !! name
        = files st !! name)
  /\ (forall (h : Z) (text : string),
        h ≠ 0%Z -> guild message ≠ Some h ->
        check_misinformation_patterns
          (files (handle_automatic_misinformation_check client json_loads py_hash
                    env st message).1) text (Some h)
        = check_misinformation_patterns (files st) text (Some h)).
Proof.
  split; [apply log_file_inj|].
  assert (forall name, name ≠ log_file (guild message) ->
            files (handle_automatic_misinformation_check client json_loads py_hash
                     env st message).1 !! name
            = files st !! name) as Hother.
  { intros name Hne.
    destruct (handle_files client json_loads py_hash env st message)
      as [-> | [d ->]]; [done|].
    by apply record_other_file. }
  split; [done|].
  intros h text Hh Hg. unfold check_misinformation_patterns.
  rewrite Hother; [done|].
  rewrite pattern_file_guild by done. intros H%log_file_inj. congruence.
Qed.

Lemma X9_communities_are_isolated_witness :
  check_misinformation_patterns
    (files (handle_automatic_misinformation_check all_clients Json.loads some_hash
              alarming_env fresh flat_earth).1) (content flat_earth) (Some 2002%Z)
  = check_misinformation_patterns (files fresh) (content flat_earth) (Some 2002%Z).
Proof.
  apply (proj2 (proj2 (X9_communities_are_isolated all_clients Json.loads some_hash
                         alarming_env fresh flat_earth))).
  - lia.
  - discriminate.
Defined.

(** ** The allowance of automatic checks *)

Section AllowanceFacts.

Variable client : Client.
Variable json_loads : string -> option JVal.
Variable py_hash : string -> Z.

Lemma check_other_user (window : Z) (maxEvents : nat) (now user_id other : Z)
    (limits limits' : gmap string (list Z)) (ok : bool) :
  RateLimiter.check window maxEvents now user_id limits = (ok, limits') ->
  other ≠ user_id ->
  limits' !! pretty other = limits !! pretty other.
Proof.
  intros Hc Hne. unfold RateLimiter.check in Hc.
  destruct (RateLimiter.allow _ _ _ _) as [ok' [l|]]; injection Hc as <- <-;
    [| done].
  apply lookup_insert_ne. intros H. by apply (inj pretty) in H.
Qed.

Lemma handle_refused (env : Env) (st : State) (message : Message) (l : gmap string (list Z)) :
  RateLimiter.auto_check_limit (now env) (author_id message) (auto_check_limits st)
  = (false, l) ->
  handle_automatic_misinformation_check client json_loads py_hash env st message
  = (st, []).
Proof.
  intros Hg. unfold handle_automatic_misinformation_check.
  repeat case_match; try done; congruence.
Qed.

(** A run with effects was admitted by the limiter, and stores what the
    limiter stored. *)
Lemma handle_effects_admitted (env : Env) (st : State) (message : Message) :
  (handle_automatic_misinformation_check client json_loads py_hash env st message).2
  ≠ [] ->
  RateLimiter.auto_check_limit (now env) (author_id message) (auto_check_limits st)
  = (true,
     auto_check_limits
       (handle_automatic_misinformation_check client json_loads py_hash env st
          message).1).
Proof.
  destruct (handle_cases client json_loads py_hash env st message)
    as [Hr | (limits & Hg & [[_ Hr] | [(_ & _ & Hr) | (_ & _ & Hr)]])];
    rewrite Hr; cbn [fst snd auto_check_limits]; done.
Qed.

(** X10. A run of the automatic check changes the stored auto-check
    timestamps of nobody but the author of the message. *)
Theorem X10_only_the_author_is_charged (env : Env) (st : State)
    (message : Message) (other : Z) :
  other ≠ author_id message ->
  auto_check_limits
    (handle_automatic_misinformation_check client json_loads py_hash env st
       message).1 !! pretty other
  = auto_check_limits st !! pretty other.
Proof.
  intros Hne.
  destruct (handle_cases client json_loads py_hash env st message)
    as [Hr | (limits & Hg & [[_ Hr] | [(_ & _ & Hr) | (_ & _ & Hr)]])];
    rewrite Hr; cbn [fst auto_check_limits]; try done;
    by eapply check_other_user.
Qed.

(** X11. Two automatic checks per user and five minutes: once two messages
    of a user have gone through the limiter (their runs had effects), a
    third message of that user, not earlier than those and less than five
    minutes after them, has no effect at all, whatever it says. *)
Theorem X11_third_message_is_skipped (env1 env2 env3 : Env) (st : State)
    (m1 m2 m3 : Message) :
  let r1 := handle_automatic_misinformation_check client json_loads py_hash env1 st m1 in
  let r2 := handle_automatic_misinformation_check client json_loads py_hash env2 r1.1 m2 in
  author_id m2 = author_id m1 -> author_id m3 = author_id m1 ->
  r1.2 ≠ [] -> r2.2 ≠ [] ->
  (now env1 <= now env3)%Z -> (now env2 <= now env3)%Z ->
  (now env3 - now env1 < RateLimiter.minutes 5)%Z ->
  (now env3 - now env2 < RateLimiter.minutes 5)%Z ->
  handle_automatic_misinformation_check client json_loads py_hash env3 r2.1 m3
  = (r2.1, []).
Proof.
  intros r1 r2 Ha2 Ha3 He1 He2 Hle1 Hle2 Hin1 Hin2.
  pose proof (handle_effects_admitted env1 st m1 He1) as Hg1.
  pose proof (handle_effects_admitted env2 r1.1 m2 He2) as Hg2.
  fold r1 in Hg1. fold r2 in Hg2. rewrite Ha2 in Hg2.
  unfold RateLimiter.auto_check_limit in Hg1, Hg2.
  pose proof (run_admitted_counted (RateLimiter.minutes 5)
                Config.AUTO_DETECT_RATE_LIMIT (author_id m1) (now env3)
                [now env1; now env2] ltac:(repeat constructor; lia)
                (auto_check_limits st) (auto_check_limits r2.1) [true; true]) as Hcount.
  cbn [RateLimiter.run length] in Hcount. rewrite Hg1, Hg2 in Hcount.
  specialize (Hcount eq_refl ltac:(repeat constructor)).
  eapply handle_refused. rewrite Ha3. unfold RateLimiter.auto_check_limit.
  apply check_refused. unfold Config.AUTO_DETECT_RATE_LIMIT. lia.
Qed.

End AllowanceFacts.

Lemma X10_only_the_author_is_charged_witness :
  auto_check_limits
    (handle_automatic_misinformation_check all_clients Json.loads some_hash
       alarming_env fresh flat_earth).1 !! pretty 43%Z
  = auto_check_limits fresh !! pretty 43%Z.
Proof.
  apply X10_only_the_author_is_charged. vm_compute. discriminate.
Defined.

Lemma X11_third_message_is_skipped_witness :
  handle_automatic_misinformation_check all_clients Json.loads some_hash
    (alarming_at 1002000000)
    (handle_automatic_misinformation_check all_clients Json.loads some_hash
       (alarming_at 1001000000)
       (handle_automatic_misinformation_check all_clients Json.loads some_hash
          (alarming_at 1000000000) fresh flat_earth).1 boiling).1
    flat_earth
  = ((handle_automatic_misinformation_check all_clients Json.loads some_hash
        (alarming_at 1001000000)
        (handle_automatic_misinformation_check all_clients Json.loads some_hash
           (alarming_at 1000000000) fresh flat_earth).1 boiling).1,
     []).
Proof.
  apply (X11_third_message_is_skipped all_clients Json.loads some_hash
           (alarming_at 1000000000) (alarming_at 1001000000)
           (alarming_at 1002000000) fresh flat_earth boiling flat_earth).
  - reflexivity.
  - reflexivity.
  - vm_compute. discriminate.
  - vm_compute. discriminate.
  - vm_compute. discriminate.
  - vm_compute. discriminate.
  - vm_compute. reflexivity.
  - vm_compute. reflexivity.
Defined.

(** ** How often a provider is called *)

Lemma calls_to_fmap (p : Provider) (tr : list Provider) :
  calls_to p (EProviderCall <$> tr) = length (filter (λ q, q = p) tr).
Proof.
  unfold calls_to. induction tr as [|q tr IH]; [done|].
  rewrite fmap_cons, !filter_cons. cbn [is_call].
  destruct (decide (q = p)) as [->|Hne].
  - rewrite bool_decide_eq_true_2 by done. rewrite decide_True by done.
    cbn. by rewrite IH.
  - rewrite bool_decide_eq_false_2 by done. by rewrite decide_False.
Qed.

Lemma calls_to_app (p : Provider) (l1 l2 : list Effect) :
  calls_to p (l1 ++ l2) = calls_to p l1 + calls_to p l2.
Proof. unfold calls_to. by rewrite filter_app, length_app. Qed.

Lemma filter_eq_not_in (p : Provider) (tr : list Provider) :
  p ∉ tr -> filter (λ q, q = p) tr = [].
Proof.
  induction tr as [|q tr IH]; [done|]. intros Hp.
  apply not_elem_of_cons in Hp as [Hne Hp].
  rewrite filter_cons, decide_False by done. auto.
Qed.

Lemma NoDup_filter_eq (p : Provider) (tr : list Provider) :
  NoDup tr -> length (filter (λ q, q = p) tr) ≤ 1.
Proof.
  induction 1 as [|q tr Hq _ IH]; [cbn; lia|].
  rewrite filter_cons. case_decide as Hqp; [| done].
  subst q. rewrite filter_eq_not_in by done. cbn. lia.
Qed.

Section CallFacts.

Variable client : Client.
Variable json_loads : string -> option JVal.
Variable py_hash : string -> Z.

Lemma analyze_message_trace (env : Env) (message : Message) :
  let first := analyze_with_community_context client (backend env) json_loads
                 (content message) (get_conversation_context (channel env))
                 (guild message) in
  (analyze_message client json_loads env message).2
  = first.2 ++ (if truthy first.1 then []
                else (rate_truthiness client (backend env) json_loads
                        (content message)).2).
Proof.
  unfold analyze_message.
  destruct (analyze_with_community_context _ _ _ _ _ _) as [a tr1]. cbn [fst snd].
  destruct (truthy a); [by rewrite app_nil_r|].
  by destruct (rate_truthiness _ _ _ _).
Qed.

Lemma handle_effects_shape (env : Env) (st : State) (message : Message) :
  exists tail,
    ((handle_automatic_misinformation_check client json_loads py_hash env st
        message).2 = []
     \/ (handle_automatic_misinformation_check client json_loads py_hash env st
           message).2
        = EHistory
          :: (EProviderCall <$> (analyze_message client json_loads env message).2)
          ++ tail)
    /\ forall p, calls_to p tail = 0.
Proof.
  destruct (handle_cases client json_loads py_hash env st message)
    as [Hr | (limits & Hg & [[_ Hr] | [(_ & _ & Hr) | (_ & _ & Hr)]])];
    rewrite Hr; cbn [snd].
  - exists []. split; [by left | done].
  - exists []. split; [right; by rewrite app_nil_r | done].
  - eexists. split; [right; reflexivity | done].
  - eexists. split; [right; reflexivity | done].
Qed.

(** X12. In one run of the automatic check no provider is called more than
    twice, and none more than once when the first analysis came back with
    something: the second round of calls is the plain rating, made only
    when the analysis is falsy. *)
Theorem X12_at_most_two_calls_per_provider (env : Env) (st : State)
    (message : Message) (p : Provider) :
  calls_to p (handle_automatic_misinformation_check client json_loads py_hash
                env st message).2 ≤ 2
  /\ (truthy (analyze_with_community_context client (backend env) json_loads
                (content message) (get_conversation_context (channel env))
                (guild message)).1 = true ->
      calls_to p (handle_automatic_misinformation_check client json_loads py_hash
                    env st message).2 ≤ 1).
Proof.
  destruct (handle_effects_shape env st message) as (tail & [Hr|Hr] & Htail);
    rewrite Hr; [split; intros; cbn; lia |].
  change (EHistory :: ?l) with ([EHistory] ++ l).
  rewrite !calls_to_app, Htail, calls_to_fmap, analyze_message_trace.
  cbn zeta. rewrite analyze_unfold, rate_truthiness_unfold. cbn [fst snd].
  rewrite filter_app, length_app.
  pose proof (NoDup_filter_eq p _ (fallback_trace_NoDup client (backend env)
    (community_prompt (content message) (get_conversation_context (channel env))
       (guild message)))) as H1.
  pose proof (NoDup_filter_eq p _ (fallback_trace_NoDup client (backend env)
    (TruthinessPrompt (content message)))) as H2.
  change (calls_to p [EHistory]) with 0.
  split.
  - destruct (truthy _); cbn; lia.
  - intros ->. cbn. lia.
Qed.

End CallFacts.

Lemma X12_at_most_two_calls_per_provider_witness :
  calls_to PawanOsman
    (handle_automatic_misinformation_check all_clients Json.loads some_hash
       alarming_env fresh flat_earth).2 ≤ 1.
Proof.
  apply (proj2 (X12_at_most_two_calls_per_provider all_clients Json.loads some_hash
                  alarming_env fresh flat_earth PawanOsman)).
  vm_compute. reflexivity.
Defined.

Section OutageFacts.

Variable client : Client.
Variable json_loads : string -> option JVal.
Variable py_hash : string -> Z.

Lemma analyze_message_outage (env : Env) (message : Message) :
  (forall prompt, Forall (λ q, succeeds (backend env) prompt q = false)
                    (priority client)) ->
  analyze_message client json_loads env message
  = (JNull, priority client ++ priority client).
Proof.
  intros Hout. unfold analyze_message.
  rewrite analyze_unfold, rate_truthiness_unfold, !fallback_first_success.
  rewrite !first_success_all_fail by done. reflexivity.
Qed.

(** X13. When every provider fails, a message that got past the filters
    and the limiter ends silently: each configured provider was called
    twice (for the analysis, then for the plain rating), nothing is sent
    and no pattern file is read or written; yet the instant is stored
    among the author's auto-check timestamps, so the failed check counts
    against the allowance. *)
Theorem X13_outage_is_silent_but_charged (env : Env) (st : State)
    (message : Message) :
  (handle_automatic_misinformation_check client json_loads py_hash env st message).2
  ≠ [] ->
  (forall prompt, Forall (λ q, succeeds (backend env) prompt q = false)
                    (priority client)) ->
  (handle_automatic_misinformation_check client json_loads py_hash env st message).2
  = EHistory :: (EProviderCall <$> (priority client ++ priority client))
  /\ files (handle_automatic_misinformation_check client json_loads py_hash env
              st message).1 = files st
  /\ last (default []
             (auto_check_limits
                (handle_automatic_misinformation_check client json_loads py_hash
                   env st message).1 !! pretty (author_id message)))
     = Some (now env).
Proof.
  intros Heff Hout.
  pose proof (analyze_message_outage env message Hout) as Ha.
  destruct (handle_cases client json_loads py_hash env st message)
    as [Hr | (limits & Hg & [[_ Hr] | [(Hd & _) | (Hd & _)]])].
  - by rewrite Hr in Heff.
  - rewrite Hr, Ha. cbn [fst snd files auto_check_limits].
    split; [done|]. split; [done|].
    unfold RateLimiter.auto_check_limit in Hg.
    rewrite (check_true_inv _ _ _ _ _ _ Hg). apply last_snoc.
  - rewrite Ha in Hd. discriminate Hd.
  - rewrite Ha in Hd. discriminate Hd.
Qed.

End OutageFacts.

Lemma X13_outage_is_silent_but_charged_witness :
  (handle_automatic_misinformation_check all_clients Json.loads some_hash
     outage_env fresh flat_earth).2
  = EHistory :: (EProviderCall <$> (priority all_clients ++ priority all_clients)).
Proof.
  refine (proj1 (X13_outage_is_silent_but_charged all_clients Json.loads some_hash
                   outage_env fresh flat_earth _ _)).
  - vm_compute. discriminate.
  - intros prompt. repeat constructor.
Defined.

(** ** The construction of the client *)

Lemma first_success_trace_head (backend : Provider -> Prompt -> CallOutcome)
    (prompt : Prompt) (ps : list Provider) :
  head (first_success backend prompt ps).2 = head ps.
Proof.
  destruct ps as [|p ps]; [done|]. cbn.
  destruct (succeeds backend prompt p); [done|].
  by destruct (first_success backend prompt ps).
Qed.

Lemma fallback_trace_nonempty (c : Client)
    (backend : Provider -> Prompt -> CallOutcome) (prompt : Prompt) :
  priority c ≠ [] -> (make_request_with_fallback c backend prompt).2 ≠ [].
Proof.
  intros Hp Hnil. pose proof (first_success_trace_head backend prompt (priority c)) as Hh.
  rewrite <- fallback_first_success, Hnil in Hh.
  by destruct (priority c).
Qed.

(** X14. [AIClient()] is built exactly when at least one provider could be
    set up (a key that is not empty; for Gemini also a configuration that
    goes through).  A client that was built has a provider to call: every
    request invokes at least one provider, and the first it invokes is the
    first configured in the order PawanOsman, OpenAI, Gemini. *)
Theorem X14_a_built_client_has_a_provider
    (pawan_api_key openai_api_key gemini_api_key : option string)
    (gemini_configures : bool) :
  (init pawan_api_key openai_api_key gemini_api_key gemini_configures = Raised
   <-> key_present pawan_api_key = false /\ key_present openai_api_key = false
       /\ key_present gemini_api_key && gemini_configures = false)
  /\ forall c, init pawan_api_key openai_api_key gemini_api_key gemini_configures
               = Ok c ->
       priority c ≠ []
       /\ forall backend prompt,
            head (make_request_with_fallback c backend prompt).2 = head (priority c)
            /\ (make_request_with_fallback c backend prompt).2 ≠ [].
Proof.
  unfold init. cbn [primary_client openai_client gemini_model].
  destruct (key_present pawan_api_key), (key_present openai_api_key),
    (key_present gemini_api_key && gemini_configures); cbn.
  all: split; [split; [try discriminate; done | intros (? & ? & ?); try discriminate; done] |].
  all: intros c [= <-]; (split; [done|]); intros backend prompt;
    (split; [rewrite fallback_first_success; apply first_success_trace_head
            | by apply fallback_trace_nonempty]).
Qed.

Lemma X14_a_built_client_has_a_provider_witness :
  priority {| primary_client := false; openai_client := true; gemini_model := false |}
  ≠ [].
Proof.
  refine (proj1 (proj2 (X14_a_built_client_has_a_provider None (Some "sk-test")
                          (Some "g-test") false) _ _)).
  reflexivity.
Defined.

(** ** The clean-up of Gemini's answer *)

Lemma len_append (a b : string) : PyStr.len (a +:+ b) = PyStr.len a + PyStr.len b.
Proof.
  unfold PyStr.len. induction a as [|c a IH]; [done|].
  rewrite append_cons. cbn. by rewrite IH.
Qed.

Lemma len_rev (s : string) : PyStr.len (String.rev s) = PyStr.len s.
Proof.
  induction s as [|c s IH]; [done|].
  rewrite rev_cons, len_append, IH. unfold PyStr.len. cbn. lia.
Qed.

Lemma absent_append (c : ascii) (a b : string) :
  absent c (a +:+ b) <-> absent c a /\ absent c b.
Proof.
  induction a as [|x a IH]; [cbn; tauto|].
  rewrite append_cons. cbn. rewrite IH. tauto.
Qed.

Lemma absent_rev (c : ascii) (s : string) : absent c (String.rev s) <-> absent c s.
Proof.
  induction s as [|x s IH]; [done|].
  rewrite rev_cons, absent_append, IH. cbn. tauto.
Qed.

Lemma drop_append (a b : string) : PyStr.drop (PyStr.len a) (a +:+ b) = b.
Proof. induction a as [|c a IH]; [by destruct b | by rewrite append_cons]. Qed.

Lemma take_append (a b : string) : PyStr.take (PyStr.len a) (a +:+ b) = a.
Proof.
  unfold PyStr.len. induction a as [|c a IH]; [by destruct b|].
  rewrite append_cons. cbn. by rewrite IH.
Qed.

Lemma find_framed (c : ascii) (pre rest : string) :
  absent c pre -> PyStr.find c (pre +:+ String c rest) = Some (PyStr.len pre).
Proof.
  induction pre as [|a pre IH]; intros Habs.
  - rewrite append_nil_l. cbn. by rewrite Ascii.eqb_refl.
  - destruct Habs as [Ha Habs]. rewrite append_cons. cbn.
    apply Ascii.eqb_neq in Ha. rewrite Ha, IH by done. done.
Qed.

Lemma rfind_absent (c : ascii) (s : string) : absent c s -> PyStr.rfind c s = None.
Proof.
  induction s as [|a s IH]; [done|]. intros [Ha Habs]. cbn.
  rewrite IH by done. apply Ascii.eqb_neq in Ha. by rewrite Ha.
Qed.

Lemma rfind_framed (c : ascii) (pre post : string) :
  absent c post -> PyStr.rfind c (pre +:+ String c post) = Some (PyStr.len pre).
Proof.
  intros Habs. induction pre as [|a pre IH].
  - rewrite append_nil_l. cbn. by rewrite rfind_absent, Ascii.eqb_refl.
  - rewrite append_cons. cbn. by rewrite IH.
Qed.

(** Stripping on the left removes part of what precedes a character that
    is no space. *)
Lemma lstrip_before (c : ascii) (pre rest : string) :
  PyStr.isspace c = false ->
  exists pre', PyStr.lstrip (pre +:+ String c rest) = pre' +:+ String c rest
               /\ forall ch, absent ch pre -> absent ch pre'.
Proof.
  intros Hc. induction pre as [|a pre IH].
  - exists "". rewrite append_nil_l. cbn. by rewrite Hc.
  - rewrite append_cons. cbn [PyStr.lstrip]. destruct (PyStr.isspace a).
    + destruct IH as (pre' & -> & Hsub). exists pre'. split; [done|].
      intros ch [_ H]. auto.
    + exists (String a pre). by rewrite append_cons.
Qed.

Lemma prefix_cons (a b : ascii) (p t : string) :
  String.prefix (String a p) (String b t) = true <-> a = b /\ String.prefix p t = true.
Proof.
  change (String.prefix (String a p) (String b t))
    with (if ascii_dec a b then String.prefix p t else false).
  destruct (ascii_dec a b); split; try tauto; try discriminate.
Qed.

(** Dropping a prefix that does not hold a character removes part of what
    precedes the first occurrence of that character. *)
Lemma drop_prefix_before (c : ascii) (p : string) :
  absent c p ->
  forall pre rest,
  String.prefix p (pre +:+ String c rest) = true ->
  exists pre', PyStr.drop (PyStr.len p) (pre +:+ String c rest) = pre' +:+ String c rest
               /\ forall ch, absent ch pre -> absent ch pre'.
Proof.
  induction p as [|a p IH]; intros Habs pre rest Hpre.
  - exists pre. split; [by destruct (pre +:+ String c rest) | done].
  - destruct Habs as [Ha Habs]. destruct pre as [|b pre].
    + rewrite append_nil_l in Hpre. apply prefix_cons in Hpre as [-> _]. done.
    + rewrite append_cons in Hpre |- *. apply prefix_cons in Hpre as [-> Hpre].
      destruct (IH Habs pre rest Hpre) as (pre' & Hdrop & Hsub).
      exists pre'. split; [exact Hdrop|]. intros ch [_ H]. auto.
Qed.

Lemma prefix_decompose (p s : string) :
  String.prefix p s = true -> exists r, s = p +:+ r.
Proof.
  revert s. induction p as [|a p IH]; intros s Hp; [by exists s|].
  destruct s as [|b s]; [discriminate|].
  apply prefix_cons in Hp as [-> Hp]. destruct (IH s Hp) as [r ->].
  by exists r.
Qed.

Lemma framed_lstrip (mid t : string) : framed mid t -> framed mid (PyStr.lstrip t).
Proof.
  intros (pre & post & Hpre & Hpost & ->).
  destruct (lstrip_before "{" pre (mid +:+ String "}" post) eq_refl)
    as (pre' & -> & Hsub).
  exists pre', post. auto.
Qed.

Lemma framed_drop_prefix (p mid t : string) :
  absent "{" p -> String.prefix p t = true -> framed mid t ->
  framed mid (PyStr.drop (PyStr.len p) t).
Proof.
  intros Hp Hpt (pre & post & Hpre & Hpost & ->).
  destruct (drop_prefix_before "{" p Hp pre _ Hpt) as (pre' & -> & Hsub).
  exists pre', post. auto.
Qed.

(** A framed text read backwards, and back again. *)
Lemma rev_framed (pre mid post : string) :
  String.rev (pre +:+ String "{" (mid +:+ String "}" post))
  = String.rev post +:+ String "}" (String.rev (pre +:+ String "{" mid)).
Proof.
  rewrite <- append_cons, <- append_assoc, rev_append, rev_cons, append_assoc.
  by rewrite append_cons, append_nil_l.
Qed.

Lemma rev_framed_back (pre mid q : string) :
  String.rev (q +:+ String "}" (String.rev (pre +:+ String "{" mid)))
  = pre +:+ String "{" (mid +:+ String "}" (String.rev q)).
Proof.
  rewrite <- (rev_rev q) at 1. rewrite <- rev_framed, rev_rev. done.
Qed.

Lemma framed_rstrip (mid t : string) : framed mid t -> framed mid (PyStr.rstrip t).
Proof.
  intros (pre & post & Hpre & Hpost & ->). unfold PyStr.rstrip.
  rewrite rev_framed.
  destruct (lstrip_before "}" (String.rev post)
              (String.rev (pre +:+ String "{" mid)) eq_refl) as (q & -> & Hsub).
  rewrite rev_framed_back. exists pre, (String.rev q).
  split; [done|]. split; [| done].
  apply absent_rev, Hsub, absent_rev, Hpost.
Qed.

Lemma framed_strip (mid t : string) : framed mid t -> framed mid (PyStr.strip t).
Proof. intros H. unfold PyStr.strip. by apply framed_rstrip, framed_lstrip. Qed.

Lemma drop_last_rev (p t : string) :
  String.prefix p (String.rev t) = true ->
  PyStr.drop_last (PyStr.len p) t
  = String.rev (PyStr.drop (PyStr.len p) (String.rev t)).
Proof.
  intros Hp. destruct (prefix_decompose _ _ Hp) as [r Hr].
  rewrite Hr, drop_append.
  assert (t = String.rev r +:+ String.rev p) as ->.
  { by rewrite <- rev_append, <- Hr, rev_rev. }
  unfold PyStr.drop_last. rewrite len_append, (len_rev p).
  replace (PyStr.len (String.rev r) + PyStr.len p - PyStr.len p)
    with (PyStr.len (String.rev r)) by lia.
  apply take_append.
Qed.

Lemma framed_drop_last (mid t : string) :
  PyStr.endswith t fence = true -> framed mid t -> framed mid (PyStr.drop_last 3 t).
Proof.
  unfold PyStr.endswith. change (String.rev fence) with fence.
  intros Hend (pre & post & Hpre & Hpost & ->).
  change 3 with (PyStr.len fence).
  rewrite (drop_last_rev fence _ Hend).
  rewrite rev_framed in Hend |- *.
  destruct (drop_prefix_before "}" fence ltac:(by repeat split)
              (String.rev post) _ Hend) as (q & -> & Hsub).
  rewrite rev_framed_back. exists pre, (String.rev q).
  split; [done|]. split; [| done].
  apply absent_rev, Hsub, absent_rev, Hpost.
Qed.

Lemma framed_slice (mid t : string) :
  framed mid t ->
  exists i j, PyStr.find "{" t = Some i /\ PyStr.rfind "}" t = Some j
              /\ i < j /\ PyStr.slice i (j + 1) t = String "{" (mid +:+ "}").
Proof.
  intros (pre & post & Hpre & Hpost & ->).
  exists (PyStr.len pre), (PyStr.len (pre +:+ String "{" mid)).
  split; [by apply find_framed|]. split.
  - rewrite <- append_cons, <- append_assoc. by apply rfind_framed.
  - assert (PyStr.len (pre +:+ String "{" mid) = PyStr.len pre + S (PyStr.len mid))
      as -> by (rewrite len_append; reflexivity).
    assert (PyStr.len (String "{" (mid +:+ "}")) = S (PyStr.len mid + 1))
      as Hobj by (change (S (PyStr.len (mid +:+ "}")) = S (PyStr.len mid + 1));
                  by rewrite len_append).
    split; [lia|]. unfold PyStr.slice. rewrite drop_append.
    replace (PyStr.len pre + S (PyStr.len mid) + 1 - PyStr.len pre)
      with (PyStr.len (String "{" (mid +:+ "}"))) by lia.
    replace (String "{" (mid +:+ String "}" post))
      with (String "{" (mid +:+ "}") +:+ post).
    + apply take_append.
    + rewrite append_cons, append_assoc. by rewrite append_cons, append_nil_l.
Qed.

(** X15. When Gemini's text holds an opening brace and, after it, a closing
    brace, the clean-up returns exactly the text from the first opening
    brace to the last closing brace: whatever surrounds it (blank space,
    markdown fences, prose) is dropped, and a text that is already such an
    object comes back unchanged. *)
Theorem X15_clean_gemini_keeps_the_object (text mid : string) :
  framed mid text ->
  clean_gemini text = String "{" (mid +:+ "}")
  /\ clean_gemini (clean_gemini text) = clean_gemini text.
Proof.
  assert (forall t, framed mid t -> clean_gemini t = String "{" (mid +:+ "}")) as Hclean.
  { intros t Ht. unfold clean_gemini.
    apply framed_strip in Ht.
    set (t1 := PyStr.strip t) in *.
    assert (framed mid
              (if PyStr.startswith t1 fence_json then PyStr.drop 7 t1
               else if PyStr.startswith t1 fence then PyStr.drop 3 t1 else t1)) as Ht2.
    { unfold PyStr.startswith.
      destruct (String.prefix fence_json t1) eqn:H7.
      - by apply (framed_drop_prefix fence_json); [repeat split | | ].
      - destruct (String.prefix fence t1) eqn:H3; [| done].
        by apply (framed_drop_prefix fence); [repeat split | | ]. }
    set (t2 := if PyStr.startswith t1 fence_json then _ else _) in *.
    assert (framed mid (if PyStr.endswith t2 fence then PyStr.drop_last 3 t2 else t2))
      as Ht3.
    { destruct (PyStr.endswith t2 fence) eqn:Hend; [| done].
      by apply framed_drop_last. }
    set (t3 := if PyStr.endswith t2 fence then _ else _) in *.
    apply framed_strip in Ht3.
    destruct (framed_slice _ _ Ht3) as (i & j & -> & -> & Hij & Hslice).
    by rewrite bool_decide_eq_true_2. }
  intros Ht. rewrite (Hclean _ Ht). split; [done|].
  apply Hclean. exists "", "". split; [done|]. split; [done|].
  by rewrite append_nil_l.
Qed.

Lemma X15_clean_gemini_keeps_the_object_witness :
  clean_gemini fenced_answer = quoted "{'confidence': 0.9}".
Proof.
  refine (proj1 (X15_clean_gemini_keeps_the_object fenced_answer
                   (quoted "'confidence': 0.9") _)).
  exists (" ```json" +:+ nl), (nl +:+ "``` ").
  split; [vm_compute; repeat split; discriminate |].
  split; [vm_compute; repeat split; discriminate |].
  vm_compute. reflexivity.
Defined.

(** ** Texts cut for display, and the summary *)

Lemma take_all (n : nat) (s : string) : PyStr.len s ≤ n -> PyStr.take n s = s.
Proof.
  unfold PyStr.len. revert n. induction s as [|c s IH]; intros n Hn.
  - by destruct n.
  - destruct n as [|n]; cbn in *; [lia|]. rewrite IH by lia. done.
Qed.

Lemma len_take (n : nat) (s : string) :
  PyStr.len (PyStr.take n s) = n `min` PyStr.len s.
Proof.
  unfold PyStr.len. revert s. induction n as [|n IH]; intros [|c s]; cbn; try done.
  by rewrite IH.
Qed.

(** X16. A text cut for display to [n] characters comes back unchanged
    when it has at most [n] characters, and otherwise as its first [n]
    characters followed by three dots: at most [n + 3] characters in all.
    [generate_summary] returns just this cut of its input and reaches no
    provider. *)
Theorem X16_cut_texts (n : nat) (s : string) :
  (PyStr.len s ≤ n -> ellipsis n s = s)
  /\ (n < PyStr.len s ->
      ellipsis n s = PyStr.take n s +:+ "..." /\ PyStr.len (ellipsis n s) = n + 3)
  /\ PyStr.len (ellipsis n s) ≤ n + 3
  /\ generate_summary s n = (ellipsis n s, []).
Proof.
  unfold ellipsis, generate_summary.
  destruct (decide (n < PyStr.len s)) as [Hlong|Hshort].
  - rewrite !bool_decide_eq_true_2 by done.
    assert (PyStr.len (PyStr.take n s +:+ "...") = n + 3) as Hlen.
    { rewrite len_append, len_take. unfold PyStr.len at 2. cbn. lia. }
    split; [lia|]. split; [done|]. split; [lia | done].
  - rewrite !bool_decide_eq_false_2 by done.
    rewrite append_nil_r, take_all by lia.
    split; [done|]. split; [lia|]. split; [lia | done].
Qed.

Lemma X16_cut_texts_witness :
  ellipsis 5 "the earth is flat" = "the e..." /\ ellipsis 20 "the earth" = "the earth".
Proof.
  split.
  - refine (eq_trans (proj1 (proj1 (proj2 (X16_cut_texts 5 "the earth is flat")) _)) _).
    + vm_compute. lia.
    + reflexivity.
  - apply (proj1 (X16_cut_texts 20 "the earth")). vm_compute. lia.
Defined.

(** ** The trends report *)

Lemma insert_by_count_perm (x : string * ClaimEntry) (l : list (string * ClaimEntry)) :
  insert_by_count x l ≡ₚ x :: l.
Proof.
  induction l as [|y l IH]; [done|]. cbn. case_bool_decide; [done|].
  rewrite IH. apply Permutation_swap.
Qed.

Lemma sorted_by_count_perm (items : list (string * ClaimEntry)) :
  sorted_by_count items ≡ₚ items.
Proof.
  induction items as [|x items IH]; [done|]. cbn.
  by rewrite insert_by_count_perm, IH.
Qed.

Lemma insert_by_count_sorted (x : string * ClaimEntry) (l : list (string * ClaimEntry)) :
  StronglySorted at_least l -> StronglySorted at_least (insert_by_count x l).
Proof.
  induction 1 as [|y l Hl IH Hy]; cbn.
  - repeat constructor.
  - case_bool_decide as Hxy.
    + constructor; [by constructor|]. constructor; [done|].
      eapply Forall_impl; [exact Hy|]. intros z Hz. unfold at_least in *. lia.
    + constructor; [done|].
      rewrite insert_by_count_perm. constructor; [| done].
      unfold at_least. lia.
Qed.

Lemma sorted_by_count_sorted (items : list (string * ClaimEntry)) :
  StronglySorted at_least (sorted_by_count items).
Proof.
  induction items as [|x items IH]; cbn; [constructor|].
  by apply insert_by_count_sorted.
Qed.

Lemma sorted_take_drop (k : nat) (l : list (string * ClaimEntry)) :
  StronglySorted at_least l ->
  forall a b, a ∈ take k l -> b ∈ drop k l -> at_least a b.
Proof.
  intros Hl. revert k. induction Hl as [|y l Hl IH Hy]; intros k a b Ha Hb.
  - rewrite take_nil in Ha. by apply elem_of_nil in Ha.
  - destruct k as [|k]; [by apply elem_of_nil in Ha|]. cbn in Ha, Hb.
    apply elem_of_cons in Ha as [->|Ha]; [| by eapply IH].
    apply subseteq_drop in Hb. by eapply (proj1 (Forall_forall _ _)) in Hy.
Qed.

(** X17. The trends report lists at most 5 phrases, taken from the stored
    ones without repetition, in the order of decreasing count; every
    phrase it leaves out has a count that is at most the count of every
    phrase it lists. *)
Theorem X17_top_claims_are_the_largest (items : list (string * ClaimEntry)) :
  length (top_claims items) ≤ 5
  /\ StronglySorted at_least (top_claims items)
  /\ exists rest,
       top_claims items ++ rest ≡ₚ items
       /\ Forall (λ b, Forall (λ a, (count b.2 <= count a.2)%Z) (top_claims items)) rest.
Proof.
  unfold top_claims. split; [rewrite length_take; lia|]. split.
  - pose proof (sorted_by_count_sorted items) as Hs.
    rewrite <- (take_drop 5 (sorted_by_count items)) in Hs.
    revert Hs. generalize (take 5 (sorted_by_count items)) as l1.
    intros l1. induction l1 as [|a l1 IH]; cbn; [constructor|].
    intros Hs. apply StronglySorted_inv in Hs as [Hs Ha].
    constructor; [by apply IH|]. by apply Forall_app in Ha as [Ha _].
  - exists (drop 5 (sorted_by_count items)). split.
    + rewrite take_drop. apply sorted_by_count_perm.
    + apply Forall_forall. intros b Hb. apply Forall_forall. intros a Ha.
      by apply (sorted_take_drop 5 _ (sorted_by_count_sorted items)).
Qed.

Example top_of_six :
  (λ x, (x.1, count x.2)) <$> top_claims six_items
  = [("i j", 9%Z); ("c d", 7%Z); ("k l", 4%Z); ("a b", 2%Z); ("e f", 2%Z)].
Proof. vm_compute. reflexivity. Qed.

Lemma append_event_last (ev : Event) (evs : list Event) :
  last (append_event ev evs) = Some ev.
Proof.
  rewrite append_event_drop.
  rewrite drop_app_le by (rewrite length_app; cbn; lia).
  apply last_snoc.
Qed.

Lemma last_elem_of (ev : Event) (evs : list Event) : last evs = Some ev -> ev ∈ evs.
Proof.
  intros H. apply last_Some in H as [l ->]. apply elem_of_app. right. by left.
Qed.

Section ReportFacts.

Variable client : Client.
Variable json_loads : string -> option JVal.
Variable py_hash : string -> Z.

(** A run that sent an alert recorded it. *)
Lemma handle_alert_files (env : Env) (st : State) (message : Message) (alert : Alert) :
  EReply alert
    ∈ (handle_automatic_misinformation_check client json_loads py_hash env st
         message).2 ->
  exists d,
    files (handle_automatic_misinformation_check client json_loads py_hash env st
             message).1
    = query_then_record py_hash (now env) message (JObj d) (files st).
Proof.
  destruct (handle_cases client json_loads py_hash env st message)
    as [Hr | (limits & _ & [[_ Hr] | [(_ & _ & Hr) | (Hd & _ & Hr)]])];
    rewrite Hr; cbn [fst snd files]; intros H.
  - by apply elem_of_nil in H.
  - by apply reply_not_in_calls in H.
  - apply elem_of_app in H as [H|H]; [by apply reply_not_in_calls in H |].
    by apply list_elem_of_singleton in H.
  - destruct (should_alert_obj _ _ _ Hd) as [d Hobj]. exists d. by rewrite Hobj.
Qed.

(** X18. An alert sent in a guild shows up in that guild's trends report:
    the file the report reads then holds an event stamped with the instant
    of the alert and carrying the key phrases of the message, and the
    report counts it among the recent alerts for the next 30 days, while
    counting at most 100 alerts in all. *)
Theorem X18_an_alert_is_reported (env : Env) (st : State) (message : Message)
    (alert : Alert) (g later : Z) :
  guild message = Some g -> g ≠ 0%Z ->
  EReply alert
    ∈ (handle_automatic_misinformation_check client json_loads py_hash env st
         message).2 ->
  (later - now env < days 30)%Z ->
  let reported :=
    events (default no_patterns
              (files (handle_automatic_misinformation_check client json_loads
                        py_hash env st message).1 !! trends_file g)) in
  (exists ev, ev ∈ recent_events later reported
              /\ ev_timestamp ev = now env
              /\ ev_key_phrases ev = extract_key_phrases (content message))
  /\ 1 ≤ total_alerts later reported
  /\ total_alerts later reported ≤ 100.
Proof.
  intros Hg _ Halert Hlater reported. subst reported.
  destruct (handle_alert_files env st message alert Halert) as [d ->].
  assert (trends_file g = log_file (guild message)) as -> by by rewrite Hg.
  unfold query_then_record. rewrite log_lookup. cbn [from_option id events].
  set (ev := event_of_dict py_hash (now env) message d _).
  set (evs := events _).
  assert (ev ∈ recent_events later (append_event ev evs)) as Hin.
  { unfold recent_events. apply list_elem_of_filter. split; [done|].
    apply last_elem_of, append_event_last. }
  split; [| split].
  - exists ev. split; [done|]. subst ev. split; [reflexivity|].
    cbn [event_of_dict ev_key_phrases]. apply check_key_phrases.
  - unfold total_alerts. destruct (recent_events later (append_event ev evs));
      [by apply elem_of_nil in Hin | cbn; lia].
  - unfold total_alerts, recent_events.
    etrans; [apply length_filter|].
    rewrite append_event_drop, length_drop, length_app. cbn. lia.
Qed.

End ReportFacts.

Lemma X18_an_alert_is_reported_witness :
  1 ≤ total_alerts (1000000000 + days 29)
        (events (default no_patterns
                   (files (handle_automatic_misinformation_check all_clients
                             Json.loads some_hash alarming_env fresh flat_earth).1
                      !! trends_file 1001))).
Proof.
  refine (proj1 (proj2 (X18_an_alert_is_reported all_clients Json.loads some_hash
                          alarming_env fresh flat_earth
                          (make_alert flat_earth
                             (analyze_message all_clients Json.loads alarming_env
                                flat_earth).1
                             (check_misinformation_patterns ∅ (content flat_earth)
                                (guild flat_earth)))
                          1001%Z (1000000000 + days 29)%Z _ _ _ _))).
  - reflexivity.
  - lia.
  - vm_compute. do 3 right. left.
  - vm_compute. reflexivity.
Defined.

(** ** The decision with its defaults and type errors *)

Lemma lt_number (v : JVal) (q : Q) (b : bool) :
  Json.lt v q = Ok b <-> exists x, number_of v = Some x /\ b = Qltb x q.
Proof.
  destruct v as [|c|x|s|l|d]; cbn; split;
    try discriminate; try (by intros (? & [=] & _)).
  - intros [= <-]. eauto.
  - by intros (x & [= <-] & ->).
  - intros [= <-]. eauto.
  - by intros (y & [= <-] & ->).
Qed.

(** X19. The decision goes on to the alert exactly for an analysis that is
    a JSON object, not empty, whose truthiness (100 when the key is
    missing) counts as a number below the truthiness threshold and whose
    confidence (0 when missing) counts as a number at least the confidence
    threshold; a boolean counts as 0 or 1 and any other type ends the
    check without alert.  At the configured thresholds (50 and 0.6) an
    analysis without truthiness, or without confidence, never alerts. *)
Theorem X19_decision_with_defaults (tthr cthr : Q) (analysis : JVal) :
  (should_alert tthr cthr analysis = Ok true
   <-> exists d t c,
         analysis = JObj d /\ d ≠ []
         /\ number_of (default (JNum 100) (dict_lookup "truthiness_percentage" d))
            = Some t
         /\ (t < tthr)%Q
         /\ number_of (default (JNum 0) (dict_lookup "confidence" d)) = Some c
         /\ (cthr <= c)%Q)
  /\ (forall d, analysis = JObj d ->
        dict_lookup "truthiness_percentage" d = None
        \/ dict_lookup "confidence" d = None ->
        should_alert Config.AUTO_DETECT_TRUTHINESS_THRESHOLD
          Config.AUTO_DETECT_CONFIDENCE_THRESHOLD analysis ≠ Ok true).
Proof.
  assert (forall tt ct d,
            should_alert tt ct (JObj d) = Ok true
            <-> d ≠ []
                /\ exists t c,
                     number_of (default (JNum 100)
                                  (dict_lookup "truthiness_percentage" d)) = Some t
                     /\ (t < tt)%Q
                     /\ number_of (default (JNum 0) (dict_lookup "confidence" d))
                        = Some c
                     /\ (ct <= c)%Q) as Hobj.
  { intros tt ct d. unfold should_alert.
    destruct d as [|kv d]; [cbn; split; [discriminate | by intros [? _]]|].
    cbn [truthy]. remember (kv :: d) as d' eqn:Hd'. cbn [get mbind res_bind].
    set (tv := default (JNum 100) (dict_lookup "truthiness_percentage" d')).
    set (cv := default (JNum 0) (dict_lookup "confidence" d')).
    split.
    - intros H. split; [by subst d'|].
      destruct (Json.lt tv tt) as [below|] eqn:Ht; [| discriminate].
      apply lt_number in Ht as (t & Htn & ->). cbn in H.
      destruct (Qltb t tt) eqn:Htlt; [| discriminate].
      destruct (Json.lt cv ct) as [low|] eqn:Hc; [| discriminate].
      apply lt_number in Hc as (c & Hcn & ->). cbn in H.
      injection H as H. apply negb_true_iff in H.
      exists t, c. split; [done|]. split; [by apply Qltb_lt|].
      split; [done|]. by apply Qltb_ge.
    - intros (_ & t & c & Htn & Htlt & Hcn & Hcge).
      assert (Json.lt tv tt = Ok true) as ->.
      { apply lt_number. exists t. split; [done|]. symmetry. by apply Qltb_lt. }
      cbn.
      assert (Json.lt cv ct = Ok false) as ->.
      { apply lt_number. exists c. split; [done|]. symmetry. by apply Qltb_ge. }
      done. }
  split.
  - split.
    + intros H. destruct (should_alert_obj _ _ _ H) as [d ->].
      apply Hobj in H as (Hne & t & c & H). exists d, t, c. tauto.
    + intros (d & t & c & -> & Hne & H). apply Hobj. split; [done|].
      exists t, c. done.
  - intros d -> Hmiss H. apply Hobj in H as (_ & t & c & Htn & Htlt & Hcn & Hcge).
    destruct Hmiss as [Hm|Hm]; rewrite Hm in *; cbn in *.
    + injection Htn as <-. revert Htlt. unfold Config.AUTO_DETECT_TRUTHINESS_THRESHOLD.
      apply Qle_not_lt. by apply Qle_bool_iff.
    + injection Hcn as <-. revert Hcge. unfold Config.AUTO_DETECT_CONFIDENCE_THRESHOLD.
      apply Qlt_not_le. reflexivity.
Qed.

Lemma X19_decision_with_defaults_witness :
  should_alert Config.AUTO_DETECT_TRUTHINESS_THRESHOLD
    Config.AUTO_DETECT_CONFIDENCE_THRESHOLD (JObj [("confidence", JNum (9 # 10))])
  ≠ Ok true.
Proof.
  apply (proj2 (X19_decision_with_defaults 50 (6 # 10)
                  (JObj [("confidence", JNum (9 # 10))]))
           [("confidence", JNum (9 # 10))] eq_refl).
  left. reflexivity.
Defined.

(** ** When an alert is sent *)

Section AlertIffFacts.

Variable client : Client.
Variable json_loads : string -> option JVal.
Variable py_hash : string -> Z.

Lemma handle_skipped (env : Env) (st : State) (message : Message) :
  skipped message = true ->
  handle_automatic_misinformation_check client json_loads py_hash env st message
  = (st, []).
Proof.
  unfold skipped, handle_automatic_misinformation_check.
  case_bool_decide; [done|]. cbn [orb].
  destruct (PyStr.contains _ _); [done|]. cbn [orb].
  destruct (PyStr.split _) as [|w ws]; [done|].
  by intros ->.
Qed.

Lemma handle_not_skipped (env : Env) (st : State) (message : Message)
    (limits : gmap string (list Z)) :
  skipped message = false ->
  RateLimiter.auto_check_limit (now env) (author_id message) (auto_check_limits st)
  = (true, limits) ->
  (handle_automatic_misinformation_check client json_loads py_hash env st message).2
  ≠ [].
Proof.
  unfold skipped, handle_automatic_misinformation_check.
  case_bool_decide; [done|]. cbn [orb].
  destruct (PyStr.contains _ _); [done|]. cbn [orb].
  destruct (PyStr.split _) as [|w ws]; [done|].
  intros -> ->.
  destruct (analyze_message _ _ _ _) as [analysis tr].
  by repeat case_match.
Qed.

Lemma alerts_in_calls (tr : list Provider) :
  alerts_in (EHistory :: (EProviderCall <$> tr)) = [].
Proof. unfold alerts_in. cbn. induction tr as [|p tr IH]; [done|]. by cbn. Qed.

Lemma alerts_in_app (l1 l2 : list Effect) :
  alerts_in (l1 ++ l2) = alerts_in l1 ++ alerts_in l2.
Proof. apply omap_app. Qed.

Lemma py_repeat_beyond_index (room : Z -> bool) (c : Cell) (n : Z) :
  (PY_SSIZE_T_MAX < n)%Z -> py_repeat room c n = Raised.
Proof.
  intros Hn. unfold py_repeat.
  assert (0 < PY_SSIZE_T_MAX)%Z as Hpos by reflexivity.
  destruct (Z.leb_spec n 0); [lia|].
  destruct (Z.leb_spec n PY_SSIZE_T_MAX); [lia|]. done.
Qed.

(** A string of cells is built when there is nothing to repeat, or when the
    count is an index and the world has room for it. *)
Lemma py_repeat_built (room : Z -> bool) (c : Cell) (n : Z) :
  py_repeat room c n ≠ Raised
  <-> (n <= 0)%Z \/ ((n <= PY_SSIZE_T_MAX)%Z /\ room n = true).
Proof.
  unfold py_repeat.
  destruct (Z.leb_spec n 0) as [H0|H0].
  { split; [by left | done]. }
  destruct (Z.leb_spec n PY_SSIZE_T_MAX) as [Hm|Hm]; cbn [andb].
  - destruct (room n).
    + split; [by right | done].
    + split; [done | intros [?|[_ ?]]; [lia | done]].
  - split; [done | intros [?|[? _]]; lia].
Qed.

(** A confidence whose bar needs more cells than an index holds: the embed
    is not built, in whatever world. *)
Lemma render_ok_beyond_index (env : Env) (d : list (string * JVal)) (c : Q) :
  number (default (JNum 0) (dict_lookup "confidence" d)) = Ok c ->
  (PY_SSIZE_T_MAX < py_int (c * 10))%Z ->
  render_ok env (JObj d) = false.
Proof.
  intros Hc Hbig. unfold render_ok. cbn [get mbind res_bind].
  destruct (create_truthiness_bar _ _); [| done]. cbn [mbind res_bind].
  unfold create_confidence_bar. rewrite Hc. cbn [mbind res_bind].
  rewrite (py_repeat_beyond_index _ Block (py_int (c * 10))) by exact Hbig.
  reflexivity.
Qed.

Lemma py_int_bounds (q : Q) (n : Z) :
  (0 <= q)%Q -> (q <= inject_Z n)%Q -> (0 <= py_int q <= n)%Z.
Proof.
  destruct q as [a b]. unfold Qle, py_int. cbn. intros H0 H1.
  rewrite Z.quot_div_nonneg by lia. split; [apply Z.div_pos; lia |].
  apply Z.div_le_upper_bound; nia.
Qed.

(** Within the scales of the analysis (a truthiness from 0 to 100, a
    confidence from 0 to 1) each bar has ten cells at most: the embed is
    built as soon as urgency and reasoning are strings and the world has
    room for ten characters. *)
Lemma render_ok_in_range (env : Env) (d : list (string * JVal)) (t c : Q) :
  number (default (JNum 0) (dict_lookup "truthiness_percentage" d)) = Ok t ->
  number (default (JNum 0) (dict_lookup "confidence" d)) = Ok c ->
  (0 <= t)%Q -> (t <= 100)%Q -> (0 <= c)%Q -> (c <= 1)%Q ->
  (forall n, (0 < n <= 10)%Z -> alloc_ok env n = true) ->
  is_str (default (JStr "medium") (dict_lookup "urgency_level" d)) = true ->
  is_str (default (JStr "No reasoning provided") (dict_lookup "reasoning" d)) = true ->
  render_ok env (JObj d) = true.
Proof.
  intros Ht Hc Ht0 Ht1 Hc0 Hc1 Hroom Hu Hr.
  assert (forall cell n, (0 <= n <= 10)%Z ->
            exists l, py_repeat (alloc_ok env) cell n = Ok l) as Hrep.
  { intros cell n Hn. unfold py_repeat.
    destruct (Z.leb_spec n 0); [by eexists|].
    rewrite Hroom by lia.
    destruct (Z.leb_spec n PY_SSIZE_T_MAX) as [?|Hm]; [by eexists|].
    unfold PY_SSIZE_T_MAX in Hm. lia. }
  assert (0 <= py_int (t / 10) <= 10)%Z as Hft.
  { apply py_int_bounds.
    - apply Qle_shift_div_l; [reflexivity | by rewrite Qmult_0_l].
    - apply Qle_shift_div_r; [reflexivity | exact Ht1]. }
  assert (0 <= py_int (c * 10) <= 10)%Z as Hfc.
  { apply py_int_bounds.
    - apply Qmult_le_0_compat; [exact Hc0 | discriminate].
    - change (inject_Z 10) with (1 * 10)%Q.
      apply Qmult_le_compat_r; [exact Hc1 | discriminate]. }
  unfold render_ok. cbn [get mbind res_bind].
  unfold create_truthiness_bar, create_confidence_bar.
  rewrite Ht, Hc. cbn [mbind res_bind].
  destruct (Hrep (if Qle_bool 80 t then Green else if Qle_bool 60 t then Yellow
                  else if Qle_bool 40 t then Orange else Red)
              (py_int (t / 10)) Hft) as [l1 ->].
  destruct (Hrep White (10 - py_int (t / 10))%Z ltac:(lia)) as [l2 ->].
  destruct (Hrep Block (py_int (c * 10)) Hfc) as [l3 ->].
  destruct (Hrep Shade (10 - py_int (c * 10))%Z ltac:(lia)) as [l4 ->].
  cbn [mbind res_bind]. by rewrite Hu, Hr.
Qed.

(** X20. The automatic check sends an alert exactly when the message is
    not skipped (long enough, no link, no question), the limiter admits
    it, the decision is for the alert, the embed can be built (the two
    bars fit, urgency and reasoning are strings) and the reply goes
    through; it then sends that one alert and no other, and in every
    other case none.  In particular no alert is sent for a confidence
    whose bar needs more cells than an index holds. *)
Theorem X20_alert_iff (env : Env) (st : State) (message : Message) :
  let r := handle_automatic_misinformation_check client json_loads py_hash env st
             message in
  let analysis := (analyze_message client json_loads env message).1 in
  let go := skipped message = false
            /\ (RateLimiter.auto_check_limit (now env) (author_id message)
                  (auto_check_limits st)).1 = true
            /\ should_alert Config.AUTO_DETECT_TRUTHINESS_THRESHOLD
                 Config.AUTO_DETECT_CONFIDENCE_THRESHOLD analysis = Ok true
            /\ render_ok env analysis = true
            /\ reply_ok env = true in
  (go -> alerts_in r.2
         = [make_alert message analysis
              (check_misinformation_patterns (files st) (content message)
                 (guild message))])
  /\ (~ go -> alerts_in r.2 = [])
  /\ (forall d c,
        analysis = JObj d ->
        number (default (JNum 0) (dict_lookup "confidence" d)) = Ok c ->
        (PY_SSIZE_T_MAX < py_int (c * 10))%Z ->
        alerts_in r.2 = []).
Proof.
  intros r analysis go.
  assert ((go -> alerts_in r.2
                 = [make_alert message analysis
                      (check_misinformation_patterns (files st) (content message)
                         (guild message))])
          /\ (~ go -> alerts_in r.2 = [])) as [Hgo Hno];
    [| split; [exact Hgo | split; [exact Hno |]];
       intros d c Hd Hc Hbig; apply Hno; intros (_ & _ & _ & Hr & _);
       rewrite Hd, (render_ok_beyond_index env d c Hc Hbig) in Hr; discriminate].
  subst r go.
  destruct (skipped message) eqn:Hskip.
  { rewrite handle_skipped by done. cbn [snd]. split; [by intros [? _] | done]. }
  destruct (RateLimiter.auto_check_limit (now env) (author_id message)
              (auto_check_limits st)) as [ok limits0] eqn:Hgate.
  destruct ok.
  2:{ rewrite (handle_refused client json_loads py_hash env st message limits0 Hgate).
      cbn [fst snd]. split; [by intros (_ & ? & _) | done]. }
  pose proof (handle_not_skipped env st message limits0 Hskip Hgate) as Hne.
  destruct (handle_cases client json_loads py_hash env st message)
    as [Hr | (limits & _ & [[Hd Hr] | [(Hd & Hrender & Hr) | (Hd & Hrender & Hr)]])];
    [by rewrite Hr in Hne | | |]; rewrite Hr; cbn [fst snd];
    fold analysis in Hd |- *; rewrite ?alerts_in_app, alerts_in_calls.
  - split; [by intros (_ & _ & ? & _) | done].
  - fold analysis in Hrender. split; [| done].
    intros (_ & _ & _ & H1 & H2). rewrite H1, H2 in Hrender. discriminate.
  - fold analysis in Hrender. apply andb_true_iff in Hrender as [H1 H2].
    split; [done|]. intros Hno. exfalso. apply Hno. done.
Qed.

End AlertIffFacts.

Lemma X20_alert_iff_witness :
  alerts_in (handle_automatic_misinformation_check all_clients Json.loads some_hash
               alarming_env fresh flat_earth).2
  = [make_alert flat_earth
       (analyze_message all_clients Json.loads alarming_env flat_earth).1
       (check_misinformation_patterns (files fresh) (content flat_earth)
          (guild flat_earth))].
Proof.
  apply (proj1 (X20_alert_iff all_clients Json.loads some_hash alarming_env fresh
                  flat_earth)).
  repeat split; vm_compute; reflexivity.
Defined.

(** With a confidence of 10^31 every threshold is passed, the reply would
    be delivered and memory is no limit: [create_confidence_bar] raises on
    the repetition and nothing is sent or recorded. *)
Example overconfident_answer_is_not_sent :
  should_alert Config.AUTO_DETECT_TRUTHINESS_THRESHOLD
    Config.AUTO_DETECT_CONFIDENCE_THRESHOLD
    (analyze_message all_clients Json.loads overconfident_env flat_earth).1
  = Ok true
  /\ (handle_automatic_misinformation_check all_clients Json.loads some_hash
        overconfident_env fresh flat_earth).2
     = [EHistory; EProviderCall PawanOsman;
        EPatternQuery (pattern_file (Some 1001%Z))]
  /\ files (handle_automatic_misinformation_check all_clients Json.loads some_hash
              overconfident_env fresh flat_earth).1 = ∅.
Proof. repeat split; vm_compute; reflexivity. Qed.

(** ** Which earlier messages reach the providers *)

Lemma context_str_ignores_head (e e' : ContextEntry) (rest : list ContextEntry) :
  3 ≤ length rest -> context_str (e :: rest) = context_str (e' :: rest).
Proof.
  intros Hlen. unfold context_str. cbn [length].
  replace (S (length rest) - 3) with (S (length rest - 3)) by lia.
  reflexivity.
Qed.

Lemma context_after (prior : list Message) (m : Message) :
  relevant m ->
  get_conversation_context (Some (prior ++ [m]))
  = context_entry m
    :: take 4 (context_entry <$> filter relevant (take 9 (reverse prior))).
Proof.
  intros Hm. unfold get_conversation_context, history.
  rewrite reverse_snoc. cbn [take]. rewrite filter_cons, decide_True by done.
  reflexivity.
Qed.

(** X21. Of the context handed to the analysis only the last three entries
    are quoted in the prompt, and the context lists the newest message
    first.  So when at least three of the nine messages before it qualify,
    the message sent right before the checked one has no influence on the
    automatic check: replacing it by any other qualifying message gives
    the same calls, the same decision and the same state. *)
Theorem X21_the_newest_message_is_not_quoted (client : Client)
    (json_loads : string -> option JVal) (py_hash : string -> Z)
    (env : Env) (st : State) (message : Message)
    (prior : list Message) (m m' : Message) :
  relevant m -> relevant m' ->
  3 ≤ length (filter relevant (take 9 (reverse prior))) ->
  handle_automatic_misinformation_check client json_loads py_hash
    (with_channel env (prior ++ [m])) st message
  = handle_automatic_misinformation_check client json_loads py_hash
      (with_channel env (prior ++ [m'])) st message.
Proof.
  intros Hm Hm' Hlen.
  assert (analyze_message client json_loads (with_channel env (prior ++ [m])) message
          = analyze_message client json_loads (with_channel env (prior ++ [m'])) message)
    as Ha.
  { unfold analyze_message, analyze_with_community_context, community_prompt.
    cbn [channel backend with_channel].
    rewrite !context_after by done.
    rewrite (context_str_ignores_head (context_entry m) (context_entry m')); [done|].
    rewrite length_take, length_fmap. lia. }
  unfold handle_automatic_misinformation_check. rewrite Ha. reflexivity.
Qed.

Lemma X21_the_newest_message_is_not_quoted_witness :
  handle_automatic_misinformation_check all_clients Json.loads some_hash
    (with_channel alarming_env (four_earlier ++ [last_a])) fresh flat_earth
  = handle_automatic_misinformation_check all_clients Json.loads some_hash
      (with_channel alarming_env (four_earlier ++ [last_b])) fresh flat_earth.
Proof.
  apply X21_the_newest_message_is_not_quoted.
  - vm_compute. split; [discriminate | lia].
  - vm_compute. split; [discriminate | lia].
  - vm_compute. lia.
Defined.

Lemma X7_patterns_are_never_forgotten_witness :
  is_Some
    (claims (default no_patterns
               (files (handle_automatic_misinformation_check all_clients Json.loads
                         some_hash (alarming_at 1001000000)
                         (handle_automatic_misinformation_check all_clients
                            Json.loads some_hash alarming_env fresh flat_earth).1
                         flat_earth).1
                  !! log_file (Some 1001%Z)))
       !! "earth flat").
Proof.
  apply (proj2 (proj2 (X7_patterns_are_never_forgotten all_clients Json.loads
                         some_hash (alarming_at 1001000000)
                         (handle_automatic_misinformation_check all_clients
                            Json.loads some_hash alarming_env fresh flat_earth).1
                         flat_earth (log_file (Some 1001%Z)) "earth flat"))).
  vm_compute. eauto.
Defined.
